(** * Adoption matching: compatibility scorer, match ranker, session store

    A shallow embedding of the Python sources

      - [tools/compatibility_scorer.py]  (modules [CompatibilityScorer], [RowScorer])
      - [tools/data_loader.py]           (module [DataLoader])
      - [agents/matching_agent.py]       (module [MatchingAgent])
      - [agents/profiling_agent.py]      (module [ProfilingAgent])
      - [agents/support_agent.py]        (module [SupportAgent])
      - [models/adoption_session.py]     (modules [AdoptionMatch], [AdoptionSession])
      - [models/memory_store.py]         (modules [MemoryStore], [SharedLog])
      - [main.py]                        (module [AdoptionMatchingSystem])

    Records loaded from the CSV files are Python dicts from column names
    to strings; complete rows are finite maps [gmap string string], and
    rows in which a short line left cells at [None] are maps to
    [option string].  Strings hold text as its UTF-8 bytes, and [lower]
    changes the letters A..Z.  Python [int] is [Z]; Python [float] is
    IEEE binary64 and is modelled by Rocq's primitive floats, so the
    weighted sum is computed with the very roundings the interpreter
    performs, and the conversion of an int to a float and the true
    division of two ints are rounded once, at any size of the ints.
    Exceptions are the [Raise] branch of [result] and the [Failed] branch
    of [outcome].  Session objects are shared by reference and live in a
    heap; the clock and the files are explicit state.  Calls to [print]
    are not modelled. *)

From Stdlib Require Import ZArith String Ascii List Floats Lia.
From Stdlib Require Import Sorting.Sorted Sorting.Permutation.
From stdpp Require Import gmap strings list fin_maps pretty.

Set Warnings "-inexact-float".
Local Open Scope string_scope.
Local Open Scope Z_scope.

(** ** The fragment of Python the sources use *)

Module Py.

Inductive exn : Type :=
| KeyError (key : string)
| TypeError
| ValueError
| OverflowError
| ZeroDivisionError.

Inductive result (A : Type) : Type :=
| Ok (a : A)
| Raise (e : exn).
Arguments Ok {A} a.
Arguments Raise {A} e.

#[global] Instance result_ret : MRet result := fun _ a => Ok a.
#[global] Instance result_bind : MBind result := fun _ _ f m =>
  match m with
  | Ok a => f a
  | Raise e => Raise e
  end.
#[global] Instance result_fmap : FMap result := fun _ _ f m =>
  match m with
  | Ok a => Ok (f a)
  | Raise e => Raise e
  end.

(** [d[key]] on a dict: raises [KeyError] when the key is absent. *)
Definition getitem {V} (d : gmap string V) (key : string) : result V :=
  match d !! key with
  | Some v => Ok v
  | None => Raise (KeyError key)
  end.

(** [d.get(key, dflt)]. *)
Definition get {V} (d : gmap string V) (key : string) (dflt : V) : V :=
  default dflt (d !! key).

(** [for x in xs: out.append(f(x))], stopping at the first exception. *)
Fixpoint for_each {A B} (f : A -> result B) (xs : list A) : result (list B) :=
  match xs with
  | [] => Ok []
  | x :: rest =>
      y ← f x;
      ys ← for_each f rest;
      Ok (y :: ys)
  end.

(** *** Strings *)

(** [str.lower].  Strings hold text as its UTF-8 bytes.  The letters
    A..Z move down by 32 and every other byte is kept: that is
    [str.lower] on text of Basic Latin and on code points that have no
    lower-case form of their own (the long s, U+017F, is one).  Code
    points beyond Basic Latin that do have one are kept here and changed
    by the interpreter; the only ones whose lower-case form holds a
    Basic Latin letter are U+212A, which becomes k, and U+0130, which
    becomes i followed by U+0307.  The scorer compares lower-cased
    values with keywords of Basic Latin, none of which holds a k or
    ends in i, so none of its comparisons depends on the difference. *)
Definition lower_char (c : ascii) : ascii :=
  let n := nat_of_ascii c in
  if ((65 <=? n) && (n <=? 90))%nat then ascii_of_nat (n + 32) else c.

Fixpoint lower (s : string) : string :=
  match s with
  | EmptyString => EmptyString
  | String c rest => String (lower_char c) (lower rest)
  end.

(** [str.upper], as far as it is needed to name a case variant: on text
    of Basic Latin the letters a..z move up by 32; the long s, U+017F,
    stored as the two bytes 197 191, has the letter S as its upper-case
    form.  Text with any other byte beyond 127 is outside this
    function ([None]). *)
Definition upper_char (c : ascii) : ascii :=
  let n := nat_of_ascii c in
  if ((97 <=? n) && (n <=? 122))%nat then ascii_of_nat (n - 32) else c.

Fixpoint str_upper (s : string) : option string :=
  match s with
  | EmptyString => Some EmptyString
  | String c rest =>
      if (nat_of_ascii c <? 128)%nat then String (upper_char c) <$> str_upper rest
      else
        match rest with
        | String d rest' =>
            if ((nat_of_ascii c =? 197) && (nat_of_ascii d =? 191))%nat
            then String "S" <$> str_upper rest'
            else None
        | EmptyString => None
        end
  end.

(** [needle in hay] for two strings: substring test. *)
Fixpoint contains (needle hay : string) : bool :=
  String.prefix needle hay ||
  match hay with
  | EmptyString => false
  | String _ rest => contains needle rest
  end.

(** [str(n)] for an int, as the f-strings format it. *)
Definition str_of_int (n : Z) : string := pretty n.

(** *** Floats *)

(** Conversion of an int to a float, as arithmetic between an int and a
    float performs it: the int is rounded to the nearest binary64 number,
    ties to even, whatever its size; one that rounds beyond the largest
    float raises [OverflowError]. *)
Definition float_of_int (n : Z) : result float :=
  match binary_normalize prec emax n 0 false with
  | S754_infinity _ => Raise OverflowError
  | x => Ok (SF2Prim x)
  end.

(** An int as a binary number that has not been rounded: the mantissa
    is its absolute value, the exponent is 0. *)
Definition int_to_spec (n : Z) : spec_float :=
  match n with
  | Z0 => S754_zero false
  | Zpos p => S754_finite false p 0
  | Zneg p => S754_finite true p 0
  end.

(** [a / b] on two ints: true division.  The operands are not converted
    to floats first; the exact quotient is rounded once to the nearest
    binary64 number, ties to even, at any size of the operands.  A zero
    divisor raises [ZeroDivisionError], a quotient that rounds beyond the
    largest float raises [OverflowError], and one too small for the
    subnormal range is a zero that carries the sign of the quotient. *)
Definition truediv (a b : Z) : result float :=
  if b =? 0 then Raise ZeroDivisionError
  else
    match SFdiv prec emax (int_to_spec a) (int_to_spec b) with
    | S754_infinity _ => Raise OverflowError
    | q => Ok (SF2Prim q)
    end.

(** [int(x)] for a float [x]: truncation toward zero; infinities raise
    [OverflowError] and NaN raises [ValueError]. *)
Definition int_of_float (x : float) : result Z :=
  match Prim2SF x with
  | S754_zero _ => Ok 0
  | S754_finite sign m e =>
      let magnitude :=
        match e with
        | Z0 => Zpos m
        | Zpos _ => Zpos m * 2 ^ e
        | Zneg p => Zpos m / 2 ^ Zpos p
        end in
      Ok (if sign then - magnitude else magnitude)
  | S754_infinity _ => Raise OverflowError
  | S754_nan => Raise ValueError
  end.

(** [sum(xs)] over floats: the start value is the int 0, which the first
    addition converts to the float 0.0, and the items are added from left
    to right, each addition rounded to binary64. *)
Definition sum_floats (xs : list float) : float :=
  fold_left PrimFloat.add xs 0%float.

(** The same sum as CPython 3.12 and later compute it, with Neumaier's
    compensation term [c] carried next to the running total. *)
Definition neumaier_step (acc : float * float) (x : float) : float * float :=
  let '(total, c) := acc in
  let t := PrimFloat.add total x in
  if PrimFloat.leb (PrimFloat.abs x) (PrimFloat.abs total)
  then (t, PrimFloat.add c (PrimFloat.add (PrimFloat.sub total t) x))
  else (t, PrimFloat.add c (PrimFloat.add (PrimFloat.sub x t) total)).

Definition is_finite (x : float) : bool :=
  match Prim2SF x with
  | S754_zero _ | S754_finite _ _ _ => true
  | _ => false
  end.

Definition sum_floats_compensated (xs : list float) : float :=
  match xs with
  | [] => 0%float
  | x :: rest =>
      let '(total, c) :=
        fold_left neumaier_step rest (PrimFloat.add 0%float x, 0%float) in
      if negb (PrimFloat.eqb c 0%float) && is_finite c
      then PrimFloat.add total c else total
  end.

(** [xs[:n]]: a negative bound counts from the end of the list. *)
Definition slice_to {A} (xs : list A) (n : Z) : list A :=
  if n <? 0 then take (Z.to_nat (Z.of_nat (length xs) + n)) xs
  else take (Z.to_nat n) xs.

(** [xs.sort(key=key, reverse=True)].  The sort of Python lists is stable,
    also in reverse: items with equal keys keep their order.  An
    insertion sort with that property stands for it. *)
Fixpoint insert_reverse {A} (key : A -> Z) (x : A) (sorted : list A) : list A :=
  match sorted with
  | [] => [x]
  | y :: rest =>
      if key y <=? key x then x :: y :: rest
      else y :: insert_reverse key x rest
  end.

Definition sort_reverse {A} (key : A -> Z) (xs : list A) : list A :=
  foldr (insert_reverse key) [] xs.

End Py.

Import Py.

(** A complete row of a CSV file as [csv.DictReader] yields it: every
    column holds a string.  For a line with fewer cells than the header
    the reader fills the remaining columns with [None]; such rows are
    [row]s, and module [RowScorer] below scores them.  On complete rows
    the two scorers agree ([calculate_compatibility_complete_rows]). *)
Abbreviation record := (gmap string string).

(** A row with the cells a short line leaves at [None].  (The cells a
    long line has in excess are kept under the key [None], which no code
    reads.) *)
Abbreviation row := (gmap string (option string)).

(** ** Exceptions of method calls on [None] and of file reading *)

Module Errors.

(** The exceptions above, the AttributeError of a method call on a value
    that has no such method ([None.lower()], [[].get(...)]), and the
    UnicodeDecodeError of reading a file whose bytes are not text. *)
Inductive error : Type :=
| Builtin (e : exn)
| AttributeError
| UnicodeDecodeError.

Inductive outcome (A : Type) : Type :=
| Done (a : A)
| Failed (e : error).
Arguments Done {A} a.
Arguments Failed {A} e.

#[global] Instance outcome_ret : MRet outcome := fun _ a => Done a.
#[global] Instance outcome_bind : MBind outcome := fun _ _ f m =>
  match m with
  | Done a => f a
  | Failed e => Failed e
  end.

Definition lift {A} (r : result A) : outcome A :=
  match r with
  | Ok a => Done a
  | Raise e => Failed (Builtin e)
  end.

(** [v.lower()] where [v] is the result of [d.get(key)]. *)
Definition lower_of (v : option string) : outcome string :=
  match v with
  | Some s => Done (lower s)
  | None => Failed AttributeError
  end.

(** [s.split(sep)] for a one-character separator: the pieces between the
    separators, empty ones included, so at least one piece. *)
Fixpoint split (sep : ascii) (s : string) : list string :=
  match s with
  | EmptyString => [EmptyString]
  | String c rest =>
      if Ascii.eqb c sep then EmptyString :: split sep rest
      else
        match split sep rest with
        | first :: others => String c first :: others
        | [] => [String c EmptyString]
        end
  end.

(** [v.split(';')] where [v] is the result of [d.get(key)]. *)
Definition split_of (v : option string) : outcome (list string) :=
  match v with
  | Some s => Done (split ";" s)
  | None => Failed AttributeError
  end.

(** [x[key]] where [x] is a row or [None]. *)
Definition subscript (x : option record) (key : string) : outcome string :=
  match x with
  | Some row => lift (getitem row key)
  | None => Failed (Builtin TypeError)
  end.

(** How an f-string shows the result of [d.get(key)]. *)
Definition show (v : option string) : string := default "None" v.

End Errors.

Import Errors.

(** ** tools/compatibility_scorer.py *)

Module CompatibilityScorer.

(** The scorer object; [weights] is its only attribute. *)
Record t : Type := { weights : gmap string float }.

Definition __init__ : t :=
  {| weights := list_to_map
       [ ("lifestyle_match", 0.30%float);
         ("experience_match", 0.20%float);
         ("home_fit", 0.20%float);
         ("behavioral_fit", 0.20%float);
         ("special_needs", 0.10%float) ] |}.

(** The [scores] dict of [calculate_compatibility]: five fixed keys. *)
Record scores : Type := {
  lifestyle_match : Z;
  experience_match : Z;
  home_fit : Z;
  behavioral_fit : Z;
  special_needs : Z
}.

(** [scores.keys()] with the values, in insertion order. *)
Definition items (s : scores) : list (string * Z) :=
  [ ("lifestyle_match", lifestyle_match s);
    ("experience_match", experience_match s);
    ("home_fit", home_fit s);
    ("behavioral_fit", behavioral_fit s);
    ("special_needs", special_needs s) ].

Definition energy_map : gmap string Z :=
  list_to_map [ ("low", 1); ("medium", 2); ("high", 3) ].

Definition lifestyle_map : gmap string Z :=
  list_to_map
    [ ("quiet", 1); ("relaxed", 1); ("moderate", 2); ("active", 3);
      ("outdoor-person", 3); ("family-focused", 2); ("busy", 1) ].

Definition _score_lifestyle (animal adopter : record) : Z :=
  let animal_energy := lower (get animal "energy_level" "medium") in
  let adopter_lifestyle := lower (get adopter "lifestyle" "moderate") in
  let animal_level := get energy_map animal_energy 2 in
  let adopter_level := get lifestyle_map adopter_lifestyle 2 in
  let diff := Z.abs (animal_level - adopter_level) in
  if diff =? 0 then 100
  else if diff =? 1 then 70
  else 40.

Definition _score_experience (animal adopter : record) : Z :=
  let animal_needs_training :=
    String.eqb (lower (get animal "special_needs" "")) "yes" in
  let adopter_experience := lower (get adopter "experience_level" "beginner") in
  if animal_needs_training && String.eqb adopter_experience "experienced" then 100
  else if animal_needs_training && String.eqb adopter_experience "beginner" then 40
  else if negb animal_needs_training && String.eqb adopter_experience "beginner" then 90
  else 100.

Definition large_breeds : list string :=
  [ "retriever"; "shepherd"; "labrador"; "pit bull" ].
Definition small_breeds : list string :=
  [ "cat"; "tabby"; "persian"; "beagle" ].

Definition _estimate_size (breed : string) : string :=
  let breed_lower := lower breed in
  if existsb (fun b => contains b breed_lower) large_breeds then "large"
  else if existsb (fun b => contains b breed_lower) small_breeds then "small"
  else "medium".

Definition _score_home (animal adopter : record) : Z :=
  let animal_size := _estimate_size (get animal "breed" "") in
  let home_type := lower (get adopter "home_type" "apartment") in
  if String.eqb home_type "house" then
    if String.eqb animal_size "large" then 100 else 90
  else
    if String.eqb animal_size "large" then 40 else 85.

Definition _score_behavior (animal adopter : record) : Z :=
  let has_kids := String.eqb (lower (get adopter "has_kids" "no")) "yes" in
  let has_other_pets := String.eqb (lower (get adopter "has_other_pets" "no")) "yes" in
  let animal_good_kids := String.eqb (lower (get animal "good_with_kids" "no")) "yes" in
  let animal_good_pets := String.eqb (lower (get animal "good_with_dogs" "no")) "yes" in
  let score := 100 in
  let score := if has_kids && negb animal_good_kids then score - 40 else score in
  let score := if has_other_pets && negb animal_good_pets then score - 30 else score in
  Z.max score 10.

Definition _score_special_needs (animal adopter : record) : Z :=
  let has_special_needs := String.eqb (lower (get animal "special_needs" "no")) "yes" in
  let commitment := lower (get adopter "commitment_level" "medium") in
  if negb has_special_needs then 100
  else if String.eqb commitment "high" then 95
  else if String.eqb commitment "medium" then 60
  else 30.

(** The separator between the two names is kept byte for byte as it is
    stored in the source file. *)
Definition name_separator : string :=
  String (ascii_of_nat 195) (String (ascii_of_nat 162)
  (String (ascii_of_nat 226) (String (ascii_of_nat 128) (String (ascii_of_nat 160)
  (String (ascii_of_nat 226) (String (ascii_of_nat 128) (String (ascii_of_nat 157)
   EmptyString))))))).

Definition newline : string := String (ascii_of_nat 10) EmptyString.

Definition _generate_reasoning (animal adopter : record) (s : scores) : string :=
  let animal_name := get animal "name" "Unknown" in
  let adopter_name := get adopter "name" "Unknown" in
  let reasoning :=
    "Match Analysis: " +:+ animal_name +:+ " " +:+ name_separator +:+ " "
      +:+ adopter_name +:+ newline in
  let reasoning := reasoning +:+
    "- Lifestyle Compatibility: " +:+ str_of_int (lifestyle_match s) +:+ "/100" +:+ newline in
  let reasoning := reasoning +:+
    "- Experience Match: " +:+ str_of_int (experience_match s) +:+ "/100" +:+ newline in
  let reasoning := reasoning +:+
    "- Home Fit: " +:+ str_of_int (home_fit s) +:+ "/100" +:+ newline in
  let reasoning := reasoning +:+
    "- Behavioral Compatibility: " +:+ str_of_int (behavioral_fit s) +:+ "/100" +:+ newline in
  let reasoning := reasoning +:+
    "- Special Needs Capability: " +:+ str_of_int (special_needs s) +:+ "/100" +:+ newline in
  reasoning.

Definition compute_scores (animal adopter : record) : scores :=
  {| lifestyle_match := _score_lifestyle animal adopter;
     experience_match := _score_experience animal adopter;
     home_fit := _score_home animal adopter;
     behavioral_fit := _score_behavior animal adopter;
     special_needs := _score_special_needs animal adopter |}.

(** [scores[key] * self.weights[key] for key in scores.keys()]: the
    weight is looked up, then the product converts the int score to a
    float. *)
Definition weighted_terms (self : t) (s : scores) : result (list float) :=
  for_each
    (fun '(key, value) =>
       w ← getitem (weights self) key;
       x ← float_of_int value;
       Ok (PrimFloat.mul x w))
    (items s).

Definition calculate_compatibility (self : t) (animal adopter : record)
  : result (Z * string) :=
  let s := compute_scores animal adopter in
  terms ← weighted_terms self s;
  let total_score := sum_floats terms in
  let reasoning := _generate_reasoning animal adopter s in
  n ← int_of_float total_score;
  Ok (n, reasoning).

End CompatibilityScorer.

(** *** The scorer on rows with [None] cells *)

(** The same methods, read once more on rows in which a cell may be
    [None].  [d.get(key, dflt)] returns the default for an absent key
    only: a cell that is present and [None] is returned as it is, and
    the [.lower()] that follows raises AttributeError. *)
Module RowScorer.
Import CompatibilityScorer.

(** [d.get(key, dflt).lower()]. *)
Definition get_lower (d : row) (key dflt : string) : outcome string :=
  lower_of (get d key (Some dflt)).

Definition _score_lifestyle (animal adopter : row) : outcome Z :=
  animal_energy ← get_lower animal "energy_level" "medium";
  adopter_lifestyle ← get_lower adopter "lifestyle" "moderate";
  let animal_level := get energy_map animal_energy 2 in
  let adopter_level := get lifestyle_map adopter_lifestyle 2 in
  let diff := Z.abs (animal_level - adopter_level) in
  Done (if diff =? 0 then 100
        else if diff =? 1 then 70
        else 40).

Definition _score_experience (animal adopter : row) : outcome Z :=
  special ← get_lower animal "special_needs" "";
  let animal_needs_training := String.eqb special "yes" in
  adopter_experience ← get_lower adopter "experience_level" "beginner";
  Done (if animal_needs_training && String.eqb adopter_experience "experienced" then 100
        else if animal_needs_training && String.eqb adopter_experience "beginner" then 40
        else if negb animal_needs_training && String.eqb adopter_experience "beginner"
        then 90
        else 100).

Definition _estimate_size (breed : option string) : outcome string :=
  breed_lower ← lower_of breed;
  Done (if existsb (fun b => contains b breed_lower) large_breeds then "large"
        else if existsb (fun b => contains b breed_lower) small_breeds then "small"
        else "medium").

Definition _score_home (animal adopter : row) : outcome Z :=
  animal_size ← _estimate_size (get animal "breed" (Some ""));
  home_type ← get_lower adopter "home_type" "apartment";
  Done (if String.eqb home_type "house" then
          if String.eqb animal_size "large" then 100 else 90
        else
          if String.eqb animal_size "large" then 40 else 85).

Definition _score_behavior (animal adopter : row) : outcome Z :=
  kids ← get_lower adopter "has_kids" "no";
  let has_kids := String.eqb kids "yes" in
  pets ← get_lower adopter "has_other_pets" "no";
  let has_other_pets := String.eqb pets "yes" in
  good_kids ← get_lower animal "good_with_kids" "no";
  let animal_good_kids := String.eqb good_kids "yes" in
  good_pets ← get_lower animal "good_with_dogs" "no";
  let animal_good_pets := String.eqb good_pets "yes" in
  let score := 100 in
  let score := if has_kids && negb animal_good_kids then score - 40 else score in
  let score := if has_other_pets && negb animal_good_pets then score - 30 else score in
  Done (Z.max score 10).

Definition _score_special_needs (animal adopter : row) : outcome Z :=
  special ← get_lower animal "special_needs" "no";
  let has_special_needs := String.eqb special "yes" in
  commitment ← get_lower adopter "commitment_level" "medium";
  Done (if negb has_special_needs then 100
        else if String.eqb commitment "high" then 95
        else if String.eqb commitment "medium" then 60
        else 30).

(** The names are only formatted: a [None] cell is shown as the text
    None. *)
Definition _generate_reasoning (animal adopter : row) (s : scores) : string :=
  let animal_name := show (get animal "name" (Some "Unknown")) in
  let adopter_name := show (get adopter "name" (Some "Unknown")) in
  let reasoning :=
    "Match Analysis: " +:+ animal_name +:+ " " +:+ name_separator +:+ " "
      +:+ adopter_name +:+ newline in
  let reasoning := reasoning +:+
    "- Lifestyle Compatibility: " +:+ str_of_int (lifestyle_match s) +:+ "/100" +:+ newline in
  let reasoning := reasoning +:+
    "- Experience Match: " +:+ str_of_int (experience_match s) +:+ "/100" +:+ newline in
  let reasoning := reasoning +:+
    "- Home Fit: " +:+ str_of_int (home_fit s) +:+ "/100" +:+ newline in
  let reasoning := reasoning +:+
    "- Behavioral Compatibility: " +:+ str_of_int (behavioral_fit s) +:+ "/100" +:+ newline in
  let reasoning := reasoning +:+
    "- Special Needs Capability: " +:+ str_of_int (special_needs s) +:+ "/100" +:+ newline in
  reasoning.

(** The [scores] dict, its five values computed in the order of the
    dict display. *)
Definition compute_scores (animal adopter : row) : outcome scores :=
  l ← _score_lifestyle animal adopter;
  e ← _score_experience animal adopter;
  h ← _score_home animal adopter;
  b ← _score_behavior animal adopter;
  n ← _score_special_needs animal adopter;
  Done {| lifestyle_match := l; experience_match := e; home_fit := h;
          behavioral_fit := b; special_needs := n |}.

Definition calculate_compatibility (self : t) (animal adopter : row)
  : outcome (Z * string) :=
  s ← compute_scores animal adopter;
  terms ← lift (weighted_terms self s);
  let total_score := sum_floats terms in
  let reasoning := _generate_reasoning animal adopter s in
  n ← lift (int_of_float total_score);
  Done (n, reasoning).

End RowScorer.

(** ** tools/data_loader.py *)

Module DataLoader.

(** The two tables as [_load_csv] returns them, in file order. *)
Record t : Type := {
  animals : list record;
  adopters : list record
}.

Fixpoint get_animal_in (rows : list record) (animal_id : string)
  : result (option record) :=
  match rows with
  | [] => Ok None
  | animal :: rest =>
      id ← getitem animal "animal_id";
      if String.eqb id animal_id then Ok (Some animal)
      else get_animal_in rest animal_id
  end.

Definition get_animal (self : t) (animal_id : string) : result (option record) :=
  get_animal_in (animals self) animal_id.

Fixpoint get_adopter_in (rows : list record) (adopter_id : string)
  : result (option record) :=
  match rows with
  | [] => Ok None
  | adopter :: rest =>
      id ← getitem adopter "adopter_id";
      if String.eqb id adopter_id then Ok (Some adopter)
      else get_adopter_in rest adopter_id
  end.

Definition get_adopter (self : t) (adopter_id : string) : result (option record) :=
  get_adopter_in (adopters self) adopter_id.

Definition get_all_animals (self : t) : list record := animals self.

Definition get_all_adopters (self : t) : list record := adopters self.

End DataLoader.

(** ** agents/matching_agent.py *)

Module MatchingAgent.

Record t : Type := {
  data_loader : DataLoader.t;
  scorer : CompatibilityScorer.t
}.

Definition __init__ (data_loader : DataLoader.t) : t :=
  {| data_loader := data_loader; scorer := CompatibilityScorer.__init__ |}.

(** The [match] dict built in the loop of [find_matches]. *)
Record match_ : Type := {
  animal_id : string;
  animal_name : string;
  adopter_id : string;
  adopter_name : string;
  score : Z;
  reasoning : string
}.

(** One turn of the loop over the animals. *)
Definition score_animal (self : t) (adopter animal : record) : result match_ :=
  '(sc, why) ← CompatibilityScorer.calculate_compatibility (scorer self) animal adopter;
  a_id ← getitem animal "animal_id";
  a_name ← getitem animal "name";
  d_id ← getitem adopter "adopter_id";
  d_name ← getitem adopter "name";
  Ok {| animal_id := a_id; animal_name := a_name;
        adopter_id := d_id; adopter_name := d_name;
        score := sc; reasoning := why |}.

(** [not adopter]: true for [None] and for the empty dict. *)
Definition falsy (adopter : option record) : bool :=
  match adopter with
  | None => true
  | Some d => bool_decide (d = ∅)
  end.

Definition find_matches (self : t) (adopter_id : string) (top_n : Z)
  : result (list match_) :=
  found ← DataLoader.get_adopter (data_loader self) adopter_id;
  if falsy found then Ok []
  else
    match found with
    | None => Ok []
    | Some adopter =>
        matches ← for_each (score_animal self adopter)
                    (DataLoader.get_all_animals (data_loader self));
        let matches := sort_reverse score matches in
        let top_matches := slice_to matches top_n in
        Ok top_matches
    end.

(** The call with [top_n] left to its default. *)
Definition find_matches_default (self : t) (adopter_id : string)
  : result (list match_) :=
  find_matches self adopter_id 3.

Definition _get_recommendation (score : Z) : string :=
  if 80 <=? score then "STRONG MATCH - Highly recommended"
  else if 60 <=? score then "GOOD MATCH - Recommended with notes"
  else if 40 <=? score then "POSSIBLE MATCH - Requires careful consideration"
  else "NOT RECOMMENDED - Compatibility concerns".

(** The dict [get_detailed_match] returns: the error dict, or the
    analysis with its nine keys. *)
Inductive detail : Type :=
| DetailError (error : string)
| Detail (animal_id animal_name adopter_id adopter_name : string)
    (score : Z) (reasoning recommendation : string)
    (animal_data adopter_data : record).

Definition get_detailed_match (self : t) (animal_id adopter_id : string)
  : result detail :=
  animal ← DataLoader.get_animal (data_loader self) animal_id;
  adopter ← DataLoader.get_adopter (data_loader self) adopter_id;
  if falsy animal || falsy adopter then
    Ok (DetailError "Animal or adopter not found")
  else
    match animal, adopter with
    | Some animal, Some adopter =>
        '(sc, why) ← CompatibilityScorer.calculate_compatibility (scorer self)
                       animal adopter;
        a_name ← getitem animal "name";
        d_name ← getitem adopter "name";
        Ok (Detail animal_id a_name adopter_id d_name sc why
              (_get_recommendation sc) animal adopter)
    | _, _ => Ok (DetailError "Animal or adopter not found")
    end.

End MatchingAgent.

(** ** models/adoption_session.py *)

(** [datetime] values are instants of a logical clock; every reading of
    [datetime.now()] returns the current instant and moves the clock on. *)
Abbreviation datetime := Z (only parsing).
Abbreviation clock := Z (only parsing).

Module Datetime.

Definition now (c : clock) : datetime * clock := (c, c + 1).

(** [t.isoformat()]. *)
Definition isoformat (t : datetime) : string := "T" +:+ pretty t.

End Datetime.

Module AdoptionMatch.

Record t : Type := {
  animal_id : string;
  adopter_id : string;
  animal_name : string;
  adopter_name : string;
  score : Z;
  timestamp : datetime;
  status : string;
  notes : string
}.

(** The dict [to_dict] returns. *)
Record dict : Type := {
  d_animal_id : string;
  d_adopter_id : string;
  d_animal_name : string;
  d_adopter_name : string;
  d_score : Z;
  d_timestamp : string;
  d_status : string;
  d_notes : string
}.

(** The constructor as main.py calls it: [timestamp] and [notes] take
    their defaults. *)
Definition __init__ (animal_id adopter_id animal_name adopter_name : string)
    (score : Z) (status : string) (c : clock) : t * clock :=
  let '(stamp, c) := Datetime.now c in
  ({| animal_id := animal_id; adopter_id := adopter_id;
      animal_name := animal_name; adopter_name := adopter_name;
      score := score; timestamp := stamp; status := status; notes := "" |}, c).

Definition to_dict (self : t) : dict :=
  {| d_animal_id := animal_id self;
     d_adopter_id := adopter_id self;
     d_animal_name := animal_name self;
     d_adopter_name := adopter_name self;
     d_score := score self;
     d_timestamp := Datetime.isoformat (timestamp self);
     d_status := status self;
     d_notes := notes self |}.

End AdoptionMatch.

Module AdoptionSession.

(** The attributes of a session object.  Methods that assign attributes
    return the object's new state; those that read the clock return the
    clock as well. *)
Record t : Type := {
  session_id : string;
  adopter_id : string;
  created_at : datetime;
  matches : list AdoptionMatch.t;
  selected_animal : option string;
  adoption_date : option datetime;
  feedback : string;
  session_state : gmap string string
}.

(** The dict [to_dict] returns. *)
Record dict : Type := {
  d_session_id : string;
  d_adopter_id : string;
  d_created_at : string;
  d_matches : list AdoptionMatch.dict;
  d_selected_animal : option string;
  d_adoption_date : option string;
  d_feedback : string;
  d_session_state : gmap string string
}.

Definition __init__ (session_id adopter_id : string) (c : clock) : t * clock :=
  let '(stamp, c) := Datetime.now c in
  ({| session_id := session_id; adopter_id := adopter_id;
      created_at := stamp; matches := []; selected_animal := None;
      adoption_date := None; feedback := ""; session_state := ∅ |}, c).

Definition add_match (m : AdoptionMatch.t) (self : t) : t :=
  {| session_id := session_id self; adopter_id := adopter_id self;
     created_at := created_at self;
     matches := matches self ++ [m];
     selected_animal := selected_animal self;
     adoption_date := adoption_date self;
     feedback := feedback self;
     session_state := session_state self |}.

Definition select_animal (animal_id : string) (self : t) (c : clock) : t * clock :=
  let '(stamp, c) := Datetime.now c in
  ({| session_id := session_id self; adopter_id := adopter_id self;
      created_at := created_at self;
      matches := matches self;
      selected_animal := Some animal_id;
      adoption_date := adoption_date self;
      feedback := feedback self;
      session_state :=
        <["selection_time" := Datetime.isoformat stamp]> (session_state self) |}, c).

Definition complete_adoption (self : t) (c : clock) : t * clock :=
  let '(stamp, c) := Datetime.now c in
  ({| session_id := session_id self; adopter_id := adopter_id self;
      created_at := created_at self;
      matches := matches self;
      selected_animal := selected_animal self;
      adoption_date := Some stamp;
      feedback := feedback self;
      session_state := <["status" := "completed"]> (session_state self) |}, c).

Definition add_feedback (text : string) (self : t) (c : clock) : t * clock :=
  let '(stamp, c) := Datetime.now c in
  ({| session_id := session_id self; adopter_id := adopter_id self;
      created_at := created_at self;
      matches := matches self;
      selected_animal := selected_animal self;
      adoption_date := adoption_date self;
      feedback := text;
      session_state :=
        <["feedback_time" := Datetime.isoformat stamp]> (session_state self) |}, c).

Definition to_dict (self : t) : dict :=
  {| d_session_id := session_id self;
     d_adopter_id := adopter_id self;
     d_created_at := Datetime.isoformat (created_at self);
     d_matches := AdoptionMatch.to_dict <$> matches self;
     d_selected_animal := selected_animal self;
     d_adoption_date := Datetime.isoformat <$> adoption_date self;
     d_feedback := feedback self;
     d_session_state := session_state self |}.

End AdoptionSession.

(** ** The world: clock, session objects, files *)

(** Values held by the dicts of the match-history log. *)
Inductive value : Type :=
| VNone
| VStr (s : string)
| VInt (n : Z).

#[global] Instance value_eq_dec : EqDecision value.
Proof. solve_decision. Defined.

Abbreviation entry := (gmap string value).

(** The document [save_to_file] hands to [json.dump]. *)
Record document : Type := {
  last_saved : string;
  doc_sessions : list AdoptionSession.dict;
  doc_match_history : list entry
}.

(** What a path holds, by what reading it does.  The paths are those of
    regular files that can be read and written.
    - [Json d]: the text [json.dump] wrote for the document [d];
      [json.load] returns a dict with the three entries of [d] (the
      entries of the log hold [None], strings and ints, which the text
      represents exactly);
    - [Corrupt]: text that is not JSON, the empty text included, for
      which [json.load] raises JSONDecodeError;
    - [Undecodable]: bytes that are not text in the encoding of the
      locale, for which reading raises UnicodeDecodeError;
    - [NotObject]: JSON text whose value is not an object (a list, a
      string, a number, true, false or null), which has no [get];
    - [Bare]: a JSON object without the key match_history.
    A JSON object whose match_history is not a list of such entries is
    outside this type. *)
Inductive file : Type :=
| Json (d : document)
| Corrupt
| Undecodable
| NotObject
| Bare.

(** References to session objects. *)
Abbreviation loc := nat (only parsing).

Module World.

(** Session objects are shared by reference between the store and its
    callers, so they live in a heap; the clock and the files complete
    the state that is not passed around explicitly. *)
Record t : Type := {
  time : clock;
  heap : gmap loc AdoptionSession.t;
  files : gmap string file
}.

Definition initial : t := {| time := 0; heap := ∅; files := ∅ |}.

(** A constructor call: the new object gets a fresh reference. *)
Definition new (ctor : clock -> AdoptionSession.t * clock) (w : t) : loc * t :=
  let '(obj, c) := ctor (time w) in
  let l := fresh (dom (heap w)) in
  (l, {| time := c; heap := <[l := obj]> (heap w); files := files w |}).

(** [obj.method(...)] for a method that only assigns attributes. *)
Definition call (l : loc) (method : AdoptionSession.t -> AdoptionSession.t) (w : t) : t :=
  {| time := time w; heap := alter method l (heap w); files := files w |}.

(** [obj.method(...)] for a method that also reads the clock. *)
Definition call_timed (l : loc)
    (method : AdoptionSession.t -> clock -> AdoptionSession.t * clock) (w : t) : t :=
  match heap w !! l with
  | Some obj =>
      let '(obj, c) := method obj (time w) in
      {| time := c; heap := <[l := obj]> (heap w); files := files w |}
  | None => w
  end.

Definition read_clock (w : t) : datetime * t :=
  let '(stamp, c) := Datetime.now (time w) in
  (stamp, {| time := c; heap := heap w; files := files w |}).

Definition write_file (path : string) (d : document) (w : t) : t :=
  {| time := time w; heap := heap w; files := <[path := Json d]> (files w) |}.

End World.

(** ** models/memory_store.py *)

Module MemoryStore.

(** The store object.  [sessions] is a dict from session ids to session
    objects, kept with its insertion order because [save_to_file] walks
    its values. *)
Record t : Type := {
  storage_file : string;
  sessions : list (string * loc);
  match_history : list entry
}.

(** [d[key] = v] on an insertion-ordered dict. *)
Fixpoint dict_set {V} (key : string) (v : V) (d : list (string * V))
  : list (string * V) :=
  match d with
  | [] => [(key, v)]
  | (k, old) :: rest =>
      if String.eqb k key then (k, v) :: rest
      else (k, old) :: dict_set key v rest
  end.

Fixpoint dict_get {V} (key : string) (d : list (string * V)) : option V :=
  match d with
  | [] => None
  | (k, v) :: rest => if String.eqb k key then Some v else dict_get key rest
  end.

(** [[s.to_dict() for s in self.sessions.values()]]. *)
Definition sessions_to_dicts (self : t) (w : World.t) : list AdoptionSession.dict :=
  omap (fun '(_, l) => AdoptionSession.to_dict <$> World.heap w !! l) (sessions self).

(** Only JSONDecodeError is caught: the error of reading bytes that are
    not text, and that of calling [get] on a value that is not a dict,
    leave the method, and the constructor with it. *)
Definition load_from_file (self : t) (w : World.t) : outcome t :=
  match World.files w !! storage_file self with
  | None => Done self
  | Some Undecodable => Failed UnicodeDecodeError
  | Some Corrupt => Done self
  | Some NotObject => Failed AttributeError
  | Some Bare =>
      Done {| storage_file := storage_file self; sessions := sessions self;
              match_history := [] |}
  | Some (Json data) =>
      Done {| storage_file := storage_file self; sessions := sessions self;
              match_history := doc_match_history data |}
  end.

Definition __init__ (storage_file : string) (w : World.t) : outcome t :=
  load_from_file
    {| storage_file := storage_file; sessions := []; match_history := [] |} w.

Definition save_to_file (self : t) (w : World.t) : World.t :=
  let '(stamp, w) := World.read_clock w in
  let data :=
    {| last_saved := Datetime.isoformat stamp;
       doc_sessions := sessions_to_dicts self w;
       doc_match_history := match_history self |} in
  World.write_file (storage_file self) data w.

Definition create_session (self : t) (session_id adopter_id : string) (w : World.t)
  : loc * t * World.t :=
  let '(session, w) := World.new (AdoptionSession.__init__ session_id adopter_id) w in
  let self :=
    {| storage_file := storage_file self;
       sessions := dict_set session_id session (sessions self);
       match_history := match_history self |} in
  let w := save_to_file self w in
  (session, self, w).

Definition get_session (self : t) (session_id : string) : option loc :=
  dict_get session_id (sessions self).

(** The dict is taken by value here, as a dict that is not yet in the
    log: the timestamp is set and the dict appended.  [SharedLog] below
    takes it by reference; for a dict that is not in the log the two
    agree. *)
Definition record_match (self : t) (match_data : entry) (w : World.t)
  : t * World.t :=
  let '(stamp, w) := World.read_clock w in
  let match_data := <["timestamp" := VStr (Datetime.isoformat stamp)]> match_data in
  let self :=
    {| storage_file := storage_file self;
       sessions := sessions self;
       match_history := match_history self ++ [match_data] |} in
  let w := save_to_file self w in
  (self, w).

Definition get_all_sessions (self : t) : list (string * loc) := sessions self.

Definition get_adopter_history (self : t) (adopter_id : string) : list entry :=
  filter (fun m => m !! "adopter_id" = Some (VStr adopter_id)) (match_history self).

(** Values of the dict [get_match_statistics] returns. *)
Inductive stat : Type :=
| SInt (n : Z)
| SFloat (x : float).

(** [a + b] during [sum]: only ints add up. *)
Definition add_value (acc : Z) (v : value) : result Z :=
  match v with
  | VInt n => Ok (acc + n)
  | _ => Raise TypeError
  end.

(** [sum(m.get('score', 0) for m in history)]. *)
Fixpoint sum_scores (acc : Z) (history : list entry) : result Z :=
  match history with
  | [] => Ok acc
  | m :: rest =>
      acc ← add_value acc (get m "score" (VInt 0));
      sum_scores acc rest
  end.

(** [v >= 80]. *)
Definition ge_80 (v : value) : result bool :=
  match v with
  | VInt n => Ok (80 <=? n)
  | _ => Raise TypeError
  end.

(** [[m for m in history if m.get('score', 0) >= 80]]. *)
Fixpoint high_scores (history : list entry) : result (list entry) :=
  match history with
  | [] => Ok []
  | m :: rest =>
      keep ← ge_80 (get m "score" (VInt 0));
      kept ← high_scores rest;
      Ok (if (keep : bool) then m :: kept else kept)
  end.

(** [len(set(m.get('adopter_id') for m in history))]; [m.get(key)] is
    [None] for an absent key. *)
Definition count_adopters (history : list entry) : Z :=
  Z.of_nat (length (remove_dups ((fun m => get m "adopter_id" VNone) <$> history))).

Definition get_match_statistics (self : t) : result (list (string * stat)) :=
  match match_history self with
  | [] => Ok [ ("total_matches", SInt 0) ]
  | _ :: _ =>
      let n := Z.of_nat (length (match_history self)) in
      total ← sum_scores 0 (match_history self);
      average ← truediv total n;
      high ← high_scores (match_history self);
      Ok [ ("total_matches", SInt n);
           ("average_score", SFloat average);
           ("high_matches", SInt (Z.of_nat (length high)));
           ("total_adopters", SInt (count_adopters (match_history self))) ]
  end.

End MemoryStore.

(** *** The log with its dicts as objects *)

(** [MemoryStore] holds the dicts of the log by value.  The interpreter
    holds references: [record_match] sets the timestamp in the caller's
    dict and appends that very object, so a dict that is recorded twice
    is one object at two positions of the log.  Here the dicts live in a
    heap of their own and the log is a list of references. *)
Module SharedLog.

Record t : Type := {
  storage_file : string;
  sessions : list (string * loc);
  match_history : list loc
}.

(** The log as its readers and [json.dump] see it: each object with the
    content it has now. *)
Definition contents (self : t) (dicts : gmap loc entry) : list entry :=
  omap (fun l => dicts !! l) (match_history self).

(** The store with its log by value. *)
Definition snapshot (self : t) (dicts : gmap loc entry) : MemoryStore.t :=
  {| MemoryStore.storage_file := storage_file self;
     MemoryStore.sessions := sessions self;
     MemoryStore.match_history := contents self dicts |}.

Definition save_to_file (self : t) (dicts : gmap loc entry) (w : World.t) : World.t :=
  MemoryStore.save_to_file (snapshot self dicts) w.

(** [match_data['timestamp'] = ...] writes into the object;
    [self.match_history.append(match_data)] appends the reference. *)
Definition record_match (self : t) (match_data : loc) (dicts : gmap loc entry)
    (w : World.t) : t * gmap loc entry * World.t :=
  let '(stamp, w) := World.read_clock w in
  let dicts :=
    alter (insert "timestamp" (VStr (Datetime.isoformat stamp))) match_data dicts in
  let self :=
    {| storage_file := storage_file self;
       sessions := sessions self;
       match_history := match_history self ++ [match_data] |} in
  let w := save_to_file self dicts w in
  (self, dicts, w).

End SharedLog.

(** ** agents/profiling_agent.py *)

Module ProfilingAgent.

Record t : Type := { data_loader : DataLoader.t }.

Definition __init__ (data_loader : DataLoader.t) : t :=
  {| data_loader := data_loader |}.

(** The dict [profile_adopter] returns: the error dict, or the profile of
    type "adopter" with its summary. *)
Inductive profile : Type :=
| ProfileError (error : string)
| AdopterProfile (id : string) (name home_type : option string)
    (has_kids has_other_pets : bool)
    (lifestyle commitment_level experience_level : option string)
    (preferences : list string) (raw_data : record) (summary : string).

Definition profile_adopter (self : t) (adopter_id : string) : outcome profile :=
  found ← lift (DataLoader.get_adopter (data_loader self) adopter_id);
  if MatchingAgent.falsy found then
    Done (ProfileError ("Adopter " +:+ adopter_id +:+ " not found"))
  else
    match found with
    | None => Done (ProfileError ("Adopter " +:+ adopter_id +:+ " not found"))
    | Some adopter =>
        let name := adopter !! "name" in
        let home_type := adopter !! "home_type" in
        kids ← lower_of (adopter !! "has_kids");
        pets ← lower_of (adopter !! "has_other_pets");
        let lifestyle := adopter !! "lifestyle" in
        let commitment_level := adopter !! "commitment_level" in
        let experience_level := adopter !! "experience_level" in
        preferences ← split_of (adopter !! "preferences");
        let summary :=
          show name +:+ ", living in a " +:+ show home_type +:+ " with "
            +:+ show lifestyle +:+ " lifestyle. Experience: "
            +:+ show experience_level +:+ ", Commitment: "
            +:+ show commitment_level in
        Done (AdopterProfile adopter_id name home_type
                (String.eqb kids "yes") (String.eqb pets "yes")
                lifestyle commitment_level experience_level
                preferences adopter summary)
    end.

End ProfilingAgent.

(** ** agents/support_agent.py *)

Module SupportAgent.

(** ['='*50]. *)
Definition rule : string := String.concat "" (replicate 50 "=").

Definition _respond_to_concern (animal_name concern : string) : string :=
  let concern_lower := lower concern in
  if contains "aggressive" concern_lower || contains "behavior" concern_lower then
    "
BEHAVIORAL CONCERNS:
"
    +:+ animal_name
    +:+ " may need time to feel secure. Consider:
- Working with a professional trainer
- Using positive reinforcement techniques
- Consulting your veterinarian for any medical causes
- Patience - behavioral change takes weeks/months
"
  else if contains "scared" concern_lower || contains "afraid" concern_lower
          || contains "anxious" concern_lower then
    "
ANXIETY/FEAR CONCERNS:
"
    +:+ animal_name
    +:+ " may have had a difficult past. Tips:
- Create a safe, quiet space initially
- Gradually introduce to new environments
- Use calming techniques (music, pheromone products)
- Let them set the pace for interaction
- Consider anxiety medication if severe
"
  else if contains "training" concern_lower || contains "obedience" concern_lower then
    "
TRAINING TIPS:
- Start with basic commands (sit, stay, come)
- Use positive reinforcement (treats, praise)
- Keep sessions short (5-10 minutes)
- Be consistent with commands
- Consider professional training if needed
"
  else if contains "health" concern_lower || contains "sick" concern_lower then
    "
HEALTH CONCERNS:
- Schedule a vet checkup within first week
- Keep vaccination records up to date
- Monitor for signs of illness
- Report any health issues immediately to veterinarian
- Ask about pet insurance for ongoing care
"
  else
    "
GENERAL SUPPORT:
The shelter and veterinarian are your best resources.
"
    +:+ animal_name
    +:+ " needs time to adjust. Be patient and celebrate progress!
".

(** [adopter_concern] is optional; [None] and the empty string are both
    falsy. *)
Definition get_post_adoption_guidance
    (animal_name animal_breed adopter_name : string)
    (adopter_concern : option string) : string :=
  let guidance :=
    "
POST-ADOPTION GUIDANCE FOR "
    +:+ adopter_name
    +:+ "
"
    +:+ rule
    +:+ "

Congratulations on adopting "
    +:+ animal_name
    +:+ ", a "
    +:+ animal_breed
    +:+ "!

FIRST WEEK TIPS:
1. Create a safe space for "
    +:+ animal_name
    +:+ " with familiar items
2. Establish a consistent routine (feeding, play, rest)
3. Let "
    +:+ animal_name
    +:+ " explore your home gradually
4. Be patient - adjustment takes time (2-4 weeks)
5. Maintain contact with the shelter if questions arise

BUILDING THE BOND:
- Spend quality time together daily
- Use positive reinforcement (treats, praise)
- Be consistent with rules and boundaries
- Exercise regularly (appropriate for the breed)
- Provide mental stimulation

WHEN TO SEEK HELP:
- Behavioral issues emerge
- Health concerns develop
- Significant anxiety or aggression
- Struggling with adjustment

RESOURCES:
- Contact your local shelter for support
- Veterinary guidance for health questions
- Professional trainer if needed

Remember: Every adoption is unique. Be patient and celebrate small wins!
" in
  match adopter_concern with
  | None | Some EmptyString => guidance
  | Some concern =>
      let concern_response := _respond_to_concern animal_name concern in
      guidance +:+ CompatibilityScorer.newline +:+ CompatibilityScorer.newline
        +:+ "YOUR SPECIFIC CONCERN:" +:+ CompatibilityScorer.newline
        +:+ concern_response
  end.

End SupportAgent.

(** ** main.py *)

Module AdoptionMatchingSystem.

(** The system object.  The two CSV tables, as [DataLoader] read them,
    are given to the constructor; the support agent has no attributes. *)
Record t : Type := {
  data_loader : DataLoader.t;
  profiler : ProfilingAgent.t;
  matcher : MatchingAgent.t;
  memory : MemoryStore.t
}.

Definition __init__ (data_loader : DataLoader.t) (w : World.t) : outcome t :=
  memory ← MemoryStore.__init__ "sessions.json" w;
  Done {| data_loader := data_loader;
          profiler := ProfilingAgent.__init__ data_loader;
          matcher := MatchingAgent.__init__ data_loader;
          memory := memory |}.

(** The dict [process_adoption_inquiry] returns. *)
Record inquiry : Type := {
  session_id : string;
  adopter_id : string;
  matches_found : Z;
  top_match : option MatchingAgent.match_;
  session_data : option AdoptionSession.dict
}.

(** One turn of the loop over the matches: the [AdoptionMatch] is built,
    which reads the clock, and added to the session. *)
Definition record_in_session (session : loc) (w : World.t) (m : MatchingAgent.match_)
  : World.t :=
  let '(adoption_match, c) :=
    AdoptionMatch.__init__ (MatchingAgent.animal_id m) (MatchingAgent.adopter_id m)
      (MatchingAgent.animal_name m) (MatchingAgent.adopter_name m)
      (MatchingAgent.score m) "recommended" (World.time w) in
  World.call session (AdoptionSession.add_match adoption_match)
    {| World.time := c; World.heap := World.heap w; World.files := World.files w |}.

(** The body of [if matches:]: the guidance for the best match, which is
    printed only; no guidance when there is no match. *)
Definition guidance_for (self : t) (adopter_id : string)
    (matches : list MatchingAgent.match_) : outcome (option string) :=
  match matches with
  | [] => Done None
  | best_match :: _ =>
      animal ← lift (DataLoader.get_animal (data_loader self)
                       (MatchingAgent.animal_id best_match));
      adopter ← lift (DataLoader.get_adopter (data_loader self) adopter_id);
      animal_name ← subscript animal "name";
      animal_breed ← subscript animal "breed";
      adopter_name ← subscript adopter "name";
      Done (Some (SupportAgent.get_post_adoption_guidance animal_name animal_breed
                    adopter_name None))
  end.

(** [uuid] stands for the string [str(uuid.uuid4())] draws.  The store
    and the world are returned as the call leaves them, also when it
    raises. *)
Definition process_adoption_inquiry (self : t) (adopter_id uuid : string) (w : World.t)
  : outcome inquiry * t * World.t :=
  let session_id := uuid in
  let '(session, store, w) := MemoryStore.create_session (memory self) session_id adopter_id w in
  let self :=
    {| data_loader := data_loader self; profiler := profiler self;
       matcher := matcher self; memory := store |} in
  match ProfilingAgent.profile_adopter (profiler self) adopter_id with
  | Failed e => (Failed e, self, w)
  | Done adopter_profile =>
      match MatchingAgent.find_matches (matcher self) adopter_id 3 with
      | Raise e => (Failed (Builtin e), self, w)
      | Ok matches =>
          let w := foldl (record_in_session session) w matches in
          match guidance_for self adopter_id matches with
          | Failed e => (Failed e, self, w)
          | Done _ =>
              let w := MemoryStore.save_to_file (memory self) w in
              (Done {| session_id := session_id;
                       adopter_id := adopter_id;
                       matches_found := Z.of_nat (length matches);
                       top_match := head matches;
                       session_data :=
                         AdoptionSession.to_dict <$> World.heap w !! session |},
               self, w)
          end
      end
  end.

End AdoptionMatchingSystem.

(** * Specification-side definitions *)

Module Spec.
Import CompatibilityScorer.

(** ** Scorer *)

(** The weighted total of a score table, as [calculate_compatibility]
    computes it: float products, float sum, truncation. *)
Definition total_of (self : t) (s : scores) : result Z :=
  terms ← weighted_terms self s;
  int_of_float (sum_floats terms).

(** The same with the compensated summation of recent interpreters. *)
Definition total_of_compensated (self : t) (s : scores) : result Z :=
  terms ← weighted_terms self s;
  int_of_float (sum_floats_compensated terms).

(** The weighted total in exact integer arithmetic, rounded down. *)
Definition exact_total (s : scores) : Z :=
  (30 * lifestyle_match s + 20 * experience_match s + 20 * home_fit s
   + 20 * behavioral_fit s + 10 * special_needs s) / 100.

(** Every table of sub-scores the five sub-scorers can produce. *)
Definition breakdowns : list scores :=
  l ← [100; 70; 40];
  e ← [100; 40; 90];
  h ← [100; 90; 40; 85];
  b ← [100; 60; 70; 30];
  n ← [100; 95; 60; 30];
  [ {| lifestyle_match := l; experience_match := e; home_fit := h;
       behavioral_fit := b; special_needs := n |} ].

Definition agrees (r : result Z) (n : Z) : bool :=
  match r with
  | Ok m => m =? n
  | Raise _ => false
  end.

(** The keys of the weight table, in the order of the [scores] dict. *)
Definition weight_keys : list string :=
  [ "lifestyle_match"; "experience_match"; "home_fit"; "behavioral_fit";
    "special_needs" ].

(** [sum(self.weights.values())]. *)
Definition weights_sum (self : t) : float :=
  sum_floats ((fun key => get (weights self) key 0%float) <$> weight_keys).

(** The weights add up to 1.0 within a tolerance of 1e-9. *)
Definition sums_to_one (self : t) : bool :=
  PrimFloat.leb (PrimFloat.abs (PrimFloat.sub (weights_sum self) 1%float)) 1e-9%float.

(** The scorer after [scorer.weights['lifestyle_match'] = 0.5]. *)
Definition skewed : t :=
  {| weights := <["lifestyle_match" := 0.5%float]> (weights __init__) |}.

(** The experience policy in the words of the specification, on the
    lower-cased field values ([None] for a missing field): a missing or
    unrecognised experience level falls in the last row. *)
Definition experience_policy (special_needs experience : option string) : Z :=
  let needs_handling := bool_decide (special_needs = Some "yes") in
  if needs_handling && bool_decide (experience = Some "experienced") then 100
  else if needs_handling && bool_decide (experience = Some "beginner") then 40
  else if negb needs_handling && bool_decide (experience = Some "beginner") then 90
  else 100.

(** The policy the code follows: a missing experience level counts as
    beginner. *)
Definition experience_policy_amended (special_needs experience : option string) : Z :=
  let needs_handling := bool_decide (special_needs = Some "yes") in
  let beginner :=
    bool_decide (experience = Some "beginner") || bool_decide (experience = None) in
  if needs_handling && bool_decide (experience = Some "experienced") then 100
  else if needs_handling && beginner then 40
  else if negb needs_handling && beginner then 90
  else 100.

(** Upper-casing of the letters a..z, every other byte kept. *)
Fixpoint ascii_upper (s : string) : string :=
  match s with
  | EmptyString => EmptyString
  | String c rest => String (upper_char c) (ascii_upper rest)
  end.

(** [s'] is [s] with the case of some of the letters A..Z and a..z
    changed: byte by byte, each is kept, moved up or moved down.  Case
    changes of letters beyond Basic Latin are not in this relation. *)
Inductive ascii_case_variant : string -> string -> Prop :=
| ascii_case_variant_nil : ascii_case_variant EmptyString EmptyString
| ascii_case_variant_cons c c' s s' :
    c' = c \/ c' = upper_char c \/ c' = lower_char c ->
    ascii_case_variant s s' ->
    ascii_case_variant (String c s) (String c' s').

(** Two records with the same keys whose values differ in the case of
    the letters A..Z and a..z at most. *)
Definition record_ascii_case_variant (r r' : record) : Prop :=
  forall key, option_Forall2 ascii_case_variant (r !! key) (r' !! key).

(** The word yes written with a long s, U+017F, for its last letter. *)
Definition long_s_yes : string :=
  "ye" +:+ String (ascii_of_nat 197) (String (ascii_of_nat 191) EmptyString).

(** The pair of the end-to-end example. *)
Definition golden : record :=
  list_to_map
    [ ("energy_level", "high"); ("breed", "Golden Retriever");
      ("good_with_kids", "yes"); ("good_with_dogs", "yes");
      ("special_needs", "no") ].

Definition active_family : record :=
  list_to_map
    [ ("lifestyle", "active"); ("home_type", "house"); ("has_kids", "yes");
      ("has_other_pets", "yes"); ("experience_level", "beginner");
      ("commitment_level", "medium") ].

(** An animal that is good with neither kids nor dogs. *)
Definition loner : record :=
  list_to_map [ ("good_with_kids", "no"); ("good_with_dogs", "no") ].

(** An animal with special needs, and an adopter row without columns. *)
Definition fragile : record := list_to_map [ ("special_needs", "yes") ].
Definition blank : record := ∅.

(** The categorical fields the scorer reads from the two rows. *)
Definition animal_categories : list string :=
  [ "energy_level"; "special_needs"; "breed"; "good_with_kids"; "good_with_dogs" ].
Definition adopter_categories : list string :=
  [ "lifestyle"; "experience_level"; "home_type"; "has_kids"; "has_other_pets";
    "commitment_level" ].

(** Under each of the keys the row has a string or nothing: no cell
    that is [None]. *)
Definition strings_at (keys : list string) (r : row) : Prop :=
  Forall (fun key => r !! key <> Some None) keys.

(** The string cells of a row. *)
Definition cells (r : row) : record := omap id r.

(** A complete row as a row. *)
Definition as_row (r : record) : row := Some <$> r.



(** ** Ranker *)

(** The store holds rows with the identity and name columns of the data
    model. *)
Definition well_formed (dl : DataLoader.t) : Prop :=
  Forall (fun animal => is_Some (animal !! "animal_id") /\ is_Some (animal !! "name"))
    (DataLoader.animals dl)
  /\ Forall (fun adopter => is_Some (adopter !! "adopter_id") /\ is_Some (adopter !! "name"))
       (DataLoader.adopters dl).

(** Some adopter row carries the id. *)
Definition resolves (dl : DataLoader.t) (adopter_id : string) : Prop :=
  Exists (fun adopter => adopter !! "adopter_id" = Some adopter_id)
    (DataLoader.adopters dl).

(** [m] is the match of [animal] with [adopter]: the scorer's result for
    the pair, and the identities and names of both. *)
Definition match_of (adopter animal : record) (m : MatchingAgent.match_) : Prop :=
  calculate_compatibility __init__ animal adopter
    = Ok (MatchingAgent.score m, MatchingAgent.reasoning m)
  /\ animal !! "animal_id" = Some (MatchingAgent.animal_id m)
  /\ animal !! "name" = Some (MatchingAgent.animal_name m)
  /\ adopter !! "adopter_id" = Some (MatchingAgent.adopter_id m)
  /\ adopter !! "name" = Some (MatchingAgent.adopter_name m).

(** Non-increasing scores: every match scores at least as high as all
    the matches after it. *)
Definition descending (ms : list MatchingAgent.match_) : Prop :=
  StronglySorted (fun m1 m2 => MatchingAgent.score m2 <= MatchingAgent.score m1) ms.

(** [ranked] keeps the order [all] has among matches of equal score. *)
Definition keeps_ties (all ranked : list MatchingAgent.match_) : Prop :=
  forall s,
    filter (fun m => MatchingAgent.score m = s) ranked
    = filter (fun m => MatchingAgent.score m = s) all.

(** A small store: three animals, two of which score alike, one adopter. *)
Definition rex : record :=
  list_to_map [ ("animal_id", "1"); ("name", "Rex"); ("breed", "German Shepherd");
                ("energy_level", "high") ].
Definition tom : record :=
  list_to_map [ ("animal_id", "2"); ("name", "Tom"); ("breed", "Tabby Cat");
                ("energy_level", "low") ].
Definition tim : record :=
  list_to_map [ ("animal_id", "3"); ("name", "Tim"); ("breed", "Persian");
                ("energy_level", "low") ].
Definition ann : record :=
  list_to_map [ ("adopter_id", "1"); ("name", "Ann"); ("home_type", "apartment");
                ("lifestyle", "quiet") ].
Definition shelter : DataLoader.t :=
  {| DataLoader.animals := [rex; tom; tim]; DataLoader.adopters := [ann] |}.

(** ** Session store *)

(** The storage file holds the whole in-memory state of the store: every
    session as it is now, and the match-history log. *)
Definition persisted (self : MemoryStore.t) (w : World.t) : Prop :=
  exists stamp,
    World.files w !! MemoryStore.storage_file self
    = Some (Json {| last_saved := stamp;
                    doc_sessions := MemoryStore.sessions_to_dicts self w;
                    doc_match_history := MemoryStore.match_history self |}).

(** The scenario of the test blocks: a fresh store, one session.  The
    fresh store is the one the constructor builds where there is no
    file ([fresh_store_constructed]). *)
Definition fresh_store : MemoryStore.t :=
  {| MemoryStore.storage_file := "sessions.json";
     MemoryStore.sessions := [];
     MemoryStore.match_history := [] |}.

Definition opened : loc * MemoryStore.t * World.t :=
  MemoryStore.create_session fresh_store "sess_001" "1" World.initial.

Definition max_match : AdoptionMatch.t :=
  {| AdoptionMatch.animal_id := "1"; AdoptionMatch.adopter_id := "1";
     AdoptionMatch.animal_name := "Max"; AdoptionMatch.adopter_name := "John";
     AdoptionMatch.score := 85; AdoptionMatch.timestamp := 1;
     AdoptionMatch.status := "recommended"; AdoptionMatch.notes := "" |}.

(** ** Match statistics *)

(** The score an entry of the log carries, when it is an int. *)
Definition score_of (m : entry) : Z :=
  match get m "score" (VInt 0) with
  | VInt n => n
  | _ => 0
  end.

Definition int_scores (history : list entry) : Prop :=
  Forall (fun m => exists n, get m "score" (VInt 0) = VInt n) history.

Definition total_score (history : list entry) : Z :=
  foldr Z.add 0 (score_of <$> history).

Definition high_count (history : list entry) : Z :=
  Z.of_nat (length (filter (fun m => 80 <= score_of m) history)).

(** The two entries recorded by the test block of memory_store.py. *)
Definition max_entry : entry :=
  list_to_map [ ("animal_id", VStr "1"); ("adopter_id", VStr "adopter_1");
                ("animal_name", VStr "Max"); ("score", VInt 85) ].
Definition bella_entry : entry :=
  list_to_map [ ("animal_id", VStr "2"); ("adopter_id", VStr "adopter_1");
                ("animal_name", VStr "Bella"); ("score", VInt 78) ].

Definition two_matches : MemoryStore.t :=
  {| MemoryStore.storage_file := "sessions.json"; MemoryStore.sessions := [];
     MemoryStore.match_history := [max_entry; bella_entry] |}.

End Spec.

(** * Further definitions for the properties of the code *)

Module Props.
Import CompatibilityScorer.

(** The columns the scorer reads from an animal row and from an adopter
    row. *)
Definition animal_fields : list string :=
  [ "energy_level"; "special_needs"; "breed"; "good_with_kids";
    "good_with_dogs"; "name" ].

Definition adopter_fields : list string :=
  [ "lifestyle"; "experience_level"; "home_type"; "has_kids";
    "has_other_pets"; "commitment_level"; "name" ].

(** Two rows agree on the listed columns. *)
Definition agree_on (fields : list string) (r r' : record) : Prop :=
  Forall (fun key => r !! key = r' !! key) fields.

(** The pair with the lowest total: a large, energetic animal with
    special needs, good with neither kids nor dogs, and a quiet beginner
    of low commitment in an apartment with kids and pets. *)
Definition hardest_animal : record :=
  list_to_map
    [ ("energy_level", "high"); ("breed", "German Shepherd");
      ("good_with_kids", "no"); ("good_with_dogs", "no");
      ("special_needs", "yes") ].

Definition hardest_adopter : record :=
  list_to_map
    [ ("lifestyle", "quiet"); ("home_type", "apartment"); ("has_kids", "yes");
      ("has_other_pets", "yes"); ("experience_level", "beginner");
      ("commitment_level", "low") ].

(** The adopter of the example, experienced. *)
Definition perfect_adopter : record :=
  <["experience_level" := "experienced"]> Spec.active_family.

(** The example animal with columns the scorer does not read. *)
Definition golden_full : record :=
  <["species" := "dog"]> (<["age_years" := "3"]>
    (<["behavioral_traits" := "friendly;playful"]> Spec.golden)).

(** A row without any column, and an adopter who has neither kids nor
    other pets. *)
Definition unknown_energy : record := list_to_map [ ("energy_level", "Hyper") ].
Definition unknown_lifestyle : record := list_to_map [ ("lifestyle", "nomadic") ].
Definition no_dependants : record :=
  list_to_map [ ("has_kids", "no"); ("has_other_pets", "No") ].
Definition house_owner : record := list_to_map [ ("home_type", "House") ].
Definition flat_owner : record := list_to_map [ ("home_type", "flat") ].

(** A store in which the second animal row lacks its name column. *)
Definition nameless : record := list_to_map [ ("animal_id", "9") ].
Definition broken_shelter : DataLoader.t :=
  {| DataLoader.animals := [Spec.rex; nameless; Spec.tom];
     DataLoader.adopters := [Spec.ann] |}.

(** A store in which an id occurs twice, and one with a row without id. *)
Definition rex_again : record :=
  list_to_map [ ("animal_id", "1"); ("name", "Rex II") ].
Definition no_id : record := list_to_map [ ("name", "Stray") ].

Definition twin_shelter : DataLoader.t :=
  {| DataLoader.animals := [Spec.tom; Spec.rex; rex_again];
     DataLoader.adopters := [Spec.ann] |}.
Definition stray_shelter : DataLoader.t :=
  {| DataLoader.animals := [Spec.rex; no_id; Spec.tom];
     DataLoader.adopters := [Spec.ann; no_id] |}.

(** The row carries another id in the given column. *)
Definition other_id (column id : string) (row : record) : Prop :=
  exists v, row !! column = Some v /\ v <> id.

(** A system over the given tables and store. *)
Definition system (dl : DataLoader.t) (store : MemoryStore.t)
  : AdoptionMatchingSystem.t :=
  {| AdoptionMatchingSystem.data_loader := dl;
     AdoptionMatchingSystem.profiler := ProfilingAgent.__init__ dl;
     AdoptionMatchingSystem.matcher := MatchingAgent.__init__ dl;
     AdoptionMatchingSystem.memory := store |}.

(** The rows carry every column the orchestration subscripts or calls a
    method on: identity and name, the breed of animals, and has_kids,
    has_other_pets and preferences of adopters. *)
Definition complete (dl : DataLoader.t) : Prop :=
  Forall (fun animal =>
            is_Some (animal !! "animal_id") /\ is_Some (animal !! "name")
            /\ is_Some (animal !! "breed"))
    (DataLoader.animals dl)
  /\ Forall (fun adopter =>
               is_Some (adopter !! "adopter_id") /\ is_Some (adopter !! "name")
               /\ is_Some (adopter !! "has_kids")
               /\ is_Some (adopter !! "has_other_pets")
               /\ is_Some (adopter !! "preferences"))
       (DataLoader.adopters dl).

(** The session entry made for a match: same ids, names and score,
    status "recommended", no notes. *)
Definition recorded (m : MatchingAgent.match_) (d : AdoptionMatch.dict) : Prop :=
  AdoptionMatch.d_animal_id d = MatchingAgent.animal_id m
  /\ AdoptionMatch.d_adopter_id d = MatchingAgent.adopter_id m
  /\ AdoptionMatch.d_animal_name d = MatchingAgent.animal_name m
  /\ AdoptionMatch.d_adopter_name d = MatchingAgent.adopter_name m
  /\ AdoptionMatch.d_score d = MatchingAgent.score m
  /\ AdoptionMatch.d_status d = "recommended"
  /\ AdoptionMatch.d_notes d = "".

(** A store with all the columns. *)
Definition max_row : record :=
  list_to_map [ ("animal_id", "1"); ("name", "Max"); ("breed", "Golden Retriever");
                ("energy_level", "high") ].
Definition bella_row : record :=
  list_to_map [ ("animal_id", "2"); ("name", "Bella"); ("breed", "Beagle");
                ("energy_level", "medium") ].
Definition john : record :=
  list_to_map [ ("adopter_id", "1"); ("name", "John"); ("home_type", "house");
                ("has_kids", "yes"); ("has_other_pets", "no");
                ("lifestyle", "active"); ("preferences", "dog;playful") ].
Definition full_shelter : DataLoader.t :=
  {| DataLoader.animals := [max_row; bella_row]; DataLoader.adopters := [john] |}.

(** The state of a session object right after construction. *)
Definition session0 : AdoptionSession.t :=
  (AdoptionSession.__init__ "sess_001" "1" 0).1.

(** A second match. *)
Definition bella_match : AdoptionMatch.t :=
  {| AdoptionMatch.animal_id := "2"; AdoptionMatch.adopter_id := "1";
     AdoptionMatch.animal_name := "Bella"; AdoptionMatch.adopter_name := "John";
     AdoptionMatch.score := 78; AdoptionMatch.timestamp := 2;
     AdoptionMatch.status := "recommended"; AdoptionMatch.notes := "" |}.

(** The keys of an insertion-ordered dict. *)
Definition keys {V} (d : list (string * V)) : list string := fst <$> d.

(** An entry of the log whose score is a string. *)
Definition text_score : entry :=
  list_to_map [ ("adopter_id", VStr "adopter_2"); ("score", VStr "high") ].

(** The dict of Max as an object, and a store that has recorded it
    once. *)
Definition one_dict : gmap loc entry := {[ 0%nat := Spec.max_entry ]}.
Definition logged : SharedLog.t :=
  {| SharedLog.storage_file := "sessions.json";
     SharedLog.sessions := [];
     SharedLog.match_history := [0%nat] |}.

End Props.

(** * The scorer *)

Section ScorerFacts.
Import Spec CompatibilityScorer.

Lemma agrees_spec r n : agrees r n = true -> r = Ok n.
Proof.
  destruct r as [m|e]; simpl; [|discriminate].
  intros H. apply Z.eqb_eq in H. congruence.
Qed.

Lemma calculate_compatibility_total_of self animal adopter :
  calculate_compatibility self animal adopter =
    (n ← total_of self (compute_scores animal adopter);
     Ok (n, _generate_reasoning animal adopter (compute_scores animal adopter))).
Proof.
  unfold calculate_compatibility, total_of.
  destruct (weighted_terms self (compute_scores animal adopter)); reflexivity.
Qed.

Lemma breakdowns_exact :
  Forall (fun s => total_of __init__ s = Ok (exact_total s)) breakdowns.
Proof.
  apply Forall_forall. intros s Hs. apply agrees_spec.
  assert (H : forallb (fun s => agrees (total_of __init__ s) (exact_total s))
                breakdowns = true) by (vm_compute; reflexivity).
  rewrite forallb_forall in H. apply H. apply list_elem_of_In, Hs.
Qed.

(** The compensated summation returns the same integer on every table,
    so the result does not depend on which [sum] the interpreter has. *)
Lemma breakdowns_exact_compensated :
  Forall (fun s => total_of_compensated __init__ s = Ok (exact_total s)) breakdowns.
Proof.
  apply Forall_forall. intros s Hs. apply agrees_spec.
  assert (H : forallb (fun s => agrees (total_of_compensated __init__ s) (exact_total s))
                breakdowns = true) by (vm_compute; reflexivity).
  rewrite forallb_forall in H. apply H. apply list_elem_of_In, Hs.
Qed.

Ltac split_ifs :=
  repeat match goal with |- context [if ?b then _ else _] => destruct b end.

Lemma _score_lifestyle_cases animal adopter :
  _score_lifestyle animal adopter ∈ [100; 70; 40].
Proof. unfold _score_lifestyle. split_ifs; set_solver. Qed.

Lemma _score_experience_cases animal adopter :
  _score_experience animal adopter ∈ [100; 40; 90].
Proof. unfold _score_experience. split_ifs; set_solver. Qed.

Lemma _score_home_cases animal adopter :
  _score_home animal adopter ∈ [100; 90; 40; 85].
Proof. unfold _score_home. split_ifs; set_solver. Qed.

Lemma _score_behavior_cases animal adopter :
  _score_behavior animal adopter ∈ [100; 60; 70; 30].
Proof.
  unfold _score_behavior.
  destruct (String.eqb (lower (get adopter "has_kids" "no")) "yes"),
    (String.eqb (lower (get adopter "has_other_pets" "no")) "yes"),
    (String.eqb (lower (get animal "good_with_kids" "no")) "yes"),
    (String.eqb (lower (get animal "good_with_dogs" "no")) "yes");
    vm_compute; set_solver.
Qed.

Lemma _score_special_needs_cases animal adopter :
  _score_special_needs animal adopter ∈ [100; 95; 60; 30].
Proof. unfold _score_special_needs. split_ifs; set_solver. Qed.

Lemma compute_scores_breakdowns animal adopter :
  compute_scores animal adopter ∈ breakdowns.
Proof.
  unfold breakdowns, compute_scores.
  apply list_elem_of_bind. eexists. split; [|apply _score_lifestyle_cases].
  apply list_elem_of_bind. eexists. split; [|apply _score_experience_cases].
  apply list_elem_of_bind. eexists. split; [|apply _score_home_cases].
  apply list_elem_of_bind. eexists. split; [|apply _score_behavior_cases].
  apply list_elem_of_bind. eexists. split; [|apply _score_special_needs_cases].
  apply list_elem_of_singleton. reflexivity.
Qed.

Lemma breakdowns_range :
  Forall (fun s => 0 <= exact_total s <= 100) breakdowns.
Proof.
  apply Forall_forall. intros s Hs.
  assert (H : forallb (fun s => (0 <=? exact_total s) && (exact_total s <=? 100))
                breakdowns = true) by (vm_compute; reflexivity).
  rewrite forallb_forall in H. apply list_elem_of_In, H in Hs.
  apply andb_true_iff in Hs. lia.
Qed.

(** The scorer built by the constructor returns the exact weighted
    total, rounded down, together with the generated text. *)
Lemma calculate_compatibility_exact animal adopter :
  calculate_compatibility __init__ animal adopter =
    Ok (exact_total (compute_scores animal adopter),
        _generate_reasoning animal adopter (compute_scores animal adopter)).
Proof.
  rewrite calculate_compatibility_total_of.
  pose proof breakdowns_exact as H. rewrite Forall_forall in H.
  rewrite (H _ (compute_scores_breakdowns animal adopter)). reflexivity.
Qed.

(** The product of a sub-score and a weight never fails on the
    conversion of the sub-score: all of them are small ints. *)
Lemma float_of_int_cases n (xs : list Z) :
  n ∈ xs ->
  forallb (fun n => match float_of_int n with Ok _ => true | Raise _ => false end) xs
    = true ->
  exists x, float_of_int n = Ok x.
Proof.
  intros Hn H. rewrite forallb_forall in H.
  apply list_elem_of_In, H in Hn.
  destruct (float_of_int n) as [x|e]; [exists x; reflexivity|discriminate].
Qed.

Lemma float_of_int_scores animal adopter :
  let s := compute_scores animal adopter in
  exists l e h b n,
    float_of_int (lifestyle_match s) = Ok l
    /\ float_of_int (experience_match s) = Ok e
    /\ float_of_int (home_fit s) = Ok h
    /\ float_of_int (behavioral_fit s) = Ok b
    /\ float_of_int (special_needs s) = Ok n.
Proof.
  simpl.
  destruct (float_of_int_cases _ _ (_score_lifestyle_cases animal adopter) eq_refl) as [l Hl].
  destruct (float_of_int_cases _ _ (_score_experience_cases animal adopter) eq_refl) as [e He].
  destruct (float_of_int_cases _ _ (_score_home_cases animal adopter) eq_refl) as [h Hh].
  destruct (float_of_int_cases _ _ (_score_behavior_cases animal adopter) eq_refl) as [b Hb].
  destruct (float_of_int_cases _ _ (_score_special_needs_cases animal adopter) eq_refl)
    as [n Hn].
  exists l, e, h, b, n. auto.
Qed.

(** *** Rows with [None] cells *)

Lemma lookup_cells (r : row) key : cells r !! key = mjoin (r !! key).
Proof.
  unfold cells. rewrite lookup_omap. destruct (r !! key) as [[v|]|]; reflexivity.
Qed.

Lemma cells_as_row (r : record) : cells (as_row r) = r.
Proof.
  apply map_eq. intros key. rewrite lookup_cells. unfold as_row.
  rewrite lookup_fmap. destruct (r !! key); reflexivity.
Qed.

Lemma strings_at_as_row keys (r : record) : strings_at keys (as_row r).
Proof.
  apply Forall_forall. intros key _. unfold as_row. rewrite lookup_fmap.
  destruct (r !! key); discriminate.
Qed.

(** Where the cell is a string or absent, the row is read as the record
    of its string cells is. *)
Lemma lower_of_get (r : row) key dflt :
  r !! key <> Some None ->
  lower_of (get r key (Some dflt)) = Done (lower (get (cells r) key dflt)).
Proof.
  intros H. unfold get. rewrite lookup_cells.
  destruct (r !! key) as [[v|]|]; [reflexivity|contradiction|reflexivity].
Qed.

Lemma lower_of_get_None (r : row) key dflt :
  r !! key = Some None -> lower_of (get r key (Some dflt)) = Failed AttributeError.
Proof. intros H. unfold get. rewrite H. reflexivity. Qed.

Lemma show_get (r : record) key dflt :
  show (get (as_row r) key (Some dflt)) = get r key dflt.
Proof.
  unfold get, as_row. rewrite lookup_fmap. destruct (r !! key); reflexivity.
Qed.

Lemma compute_scores_cells (animal adopter : row) :
  strings_at animal_categories animal ->
  strings_at adopter_categories adopter ->
  RowScorer.compute_scores animal adopter =
    Done (compute_scores (cells animal) (cells adopter)).
Proof.
  unfold strings_at, animal_categories, adopter_categories. intros Ha Hd.
  repeat match goal with
         | H : Forall _ (_ :: _) |- _ =>
             let Hk := fresh "Hk" in apply Forall_cons in H as [Hk H]
         end.
  unfold RowScorer.compute_scores, RowScorer._score_lifestyle,
    RowScorer._score_experience, RowScorer._score_home, RowScorer._estimate_size,
    RowScorer._score_behavior, RowScorer._score_special_needs, RowScorer.get_lower.
  rewrite !lower_of_get by assumption.
  reflexivity.
Qed.

(** The rest of the method does not look at the cells. *)
Lemma calculate_compatibility_cells self (animal adopter : row) :
  strings_at animal_categories animal ->
  strings_at adopter_categories adopter ->
  RowScorer.calculate_compatibility self animal adopter =
    (n ← lift (total_of self (compute_scores (cells animal) (cells adopter)));
     Done (n, RowScorer._generate_reasoning animal adopter
                (compute_scores (cells animal) (cells adopter)))).
Proof.
  intros Ha Hd. unfold RowScorer.calculate_compatibility, total_of.
  rewrite compute_scores_cells by assumption. cbn [mbind outcome_bind].
  destruct (weighted_terms self _); reflexivity.
Qed.

(** On complete rows the scorer on rows is the scorer on records. *)
Lemma calculate_compatibility_complete_rows self (animal adopter : record) :
  RowScorer.calculate_compatibility self (as_row animal) (as_row adopter) =
    lift (calculate_compatibility self animal adopter).
Proof.
  rewrite calculate_compatibility_cells by apply strings_at_as_row.
  rewrite !cells_as_row, calculate_compatibility_total_of.
  unfold RowScorer._generate_reasoning, _generate_reasoning.
  rewrite !show_get.
  destruct (total_of self (compute_scores animal adopter)); reflexivity.
Qed.

End ScorerFacts.

(** On complete rows: for every animal and adopter record, whatever
    fields are missing or unrecognised, [calculate_compatibility] returns
    and the total score is an integer between 0 and 100. *)
Lemma calculate_compatibility_in_range_complete (animal adopter : record) :
  exists score reasoning,
    CompatibilityScorer.calculate_compatibility CompatibilityScorer.__init__
      animal adopter = Ok (score, reasoning)
    /\ 0 <= score <= 100.
Proof.
  eexists _, _. split; [apply calculate_compatibility_exact|].
  pose proof breakdowns_range as H. rewrite Forall_forall in H.
  apply H, compute_scores_breakdowns.
Qed.




(** The second end-to-end example of the specification: a tabby cat with
    special needs and a busy beginner in an apartment. *)
Example tabby_busy_total :
  fst <$> CompatibilityScorer.calculate_compatibility CompatibilityScorer.__init__
    (list_to_map [ ("energy_level", "low"); ("breed", "tabby cat");
                   ("good_with_kids", "no"); ("good_with_dogs", "no");
                   ("special_needs", "yes") ])
    (list_to_map [ ("lifestyle", "busy"); ("home_type", "apartment");
                   ("has_kids", "yes"); ("has_other_pets", "yes");
                   ("experience_level", "beginner"); ("commitment_level", "low") ])
  = Ok 64.
Proof. vm_compute. reflexivity. Qed.

(** C2, as stated.  The sub-scores of the example pair are those the
    claim lists, but the total the code returns for it is not 97. *)
Lemma golden_total_is_not_97 :
  ~ exists reasoning,
      CompatibilityScorer.calculate_compatibility CompatibilityScorer.__init__
        Spec.golden Spec.active_family = Ok (97, reasoning).
Proof.
  intros [reasoning H]. rewrite calculate_compatibility_exact in H.
  vm_compute in H. discriminate H.
Qed.

(** C2, amended.  For an animal with energy_level=high, breed="Golden
    Retriever", good_with_kids=yes, good_with_dogs=yes, special_needs=no
    and an adopter with lifestyle=active, home_type=house, has_kids=yes,
    has_other_pets=yes, experience_level=beginner, commitment_level=medium
    the sub-scores are lifestyle 100, experience 90, home 100, behavioral
    100, special needs 100, and the total score is 98. *)
Theorem golden_total_is_98 (animal adopter : record) :
  animal !! "energy_level" = Some "high" ->
  animal !! "breed" = Some "Golden Retriever" ->
  animal !! "good_with_kids" = Some "yes" ->
  animal !! "good_with_dogs" = Some "yes" ->
  animal !! "special_needs" = Some "no" ->
  adopter !! "lifestyle" = Some "active" ->
  adopter !! "home_type" = Some "house" ->
  adopter !! "has_kids" = Some "yes" ->
  adopter !! "has_other_pets" = Some "yes" ->
  adopter !! "experience_level" = Some "beginner" ->
  adopter !! "commitment_level" = Some "medium" ->
  CompatibilityScorer.compute_scores animal adopter =
    {| CompatibilityScorer.lifestyle_match := 100;
       CompatibilityScorer.experience_match := 90;
       CompatibilityScorer.home_fit := 100;
       CompatibilityScorer.behavioral_fit := 100;
       CompatibilityScorer.special_needs := 100 |}
  /\ exists reasoning,
       CompatibilityScorer.calculate_compatibility CompatibilityScorer.__init__
         animal adopter = Ok (98, reasoning).
Proof.
  intros E1 E2 E3 E4 E5 E6 E7 E8 E9 E10 E11.
  assert (Hs : CompatibilityScorer.compute_scores animal adopter =
    {| CompatibilityScorer.lifestyle_match := 100;
       CompatibilityScorer.experience_match := 90;
       CompatibilityScorer.home_fit := 100;
       CompatibilityScorer.behavioral_fit := 100;
       CompatibilityScorer.special_needs := 100 |}).
  { unfold CompatibilityScorer.compute_scores,
      CompatibilityScorer._score_lifestyle, CompatibilityScorer._score_experience,
      CompatibilityScorer._score_home, CompatibilityScorer._score_behavior,
      CompatibilityScorer._score_special_needs, get.
    rewrite E1, E2, E3, E4, E5, E6, E7, E8, E9, E10, E11.
    vm_compute. reflexivity. }
  split; [exact Hs|].
  eexists. rewrite calculate_compatibility_exact, Hs. reflexivity.
Qed.

(** The example pair itself. *)
Lemma golden_total_is_98_witness :
  CompatibilityScorer.compute_scores Spec.golden Spec.active_family =
    {| CompatibilityScorer.lifestyle_match := 100;
       CompatibilityScorer.experience_match := 90;
       CompatibilityScorer.home_fit := 100;
       CompatibilityScorer.behavioral_fit := 100;
       CompatibilityScorer.special_needs := 100 |}
  /\ exists reasoning,
       CompatibilityScorer.calculate_compatibility CompatibilityScorer.__init__
         Spec.golden Spec.active_family = Ok (98, reasoning).
Proof.
  apply (golden_total_is_98 Spec.golden Spec.active_family); vm_compute; reflexivity.
Defined.

(** C3, as stated.  An adopter with kids and other pets and an animal good
    with neither: the behavioral sub-score is not 10. *)
Lemma behavioral_fit_is_not_10 :
  Spec.active_family !! "has_kids" = Some "yes"
  /\ Spec.active_family !! "has_other_pets" = Some "yes"
  /\ Spec.loner !! "good_with_kids" = Some "no"
  /\ Spec.loner !! "good_with_dogs" = Some "no"
  /\ CompatibilityScorer._score_behavior Spec.loner Spec.active_family <> 10.
Proof. vm_compute. repeat split; discriminate. Qed.

(** C3, amended.  For every pair in which the adopter has has_kids=yes and
    has_other_pets=yes and the animal has good_with_kids=no and
    good_with_dogs=no, the behavioral sub-score is exactly 30: both
    penalties apply, and the floor of 10 is not reached. *)
Theorem behavioral_fit_both_penalties (animal adopter : record) :
  adopter !! "has_kids" = Some "yes" ->
  adopter !! "has_other_pets" = Some "yes" ->
  animal !! "good_with_kids" = Some "no" ->
  animal !! "good_with_dogs" = Some "no" ->
  CompatibilityScorer._score_behavior animal adopter = 30.
Proof.
  intros E1 E2 E3 E4. unfold CompatibilityScorer._score_behavior, get.
  rewrite E1, E2, E3, E4. reflexivity.
Qed.

(** The adopter of the example with an animal good with neither. *)
Lemma behavioral_fit_both_penalties_witness :
  CompatibilityScorer._score_behavior Spec.loner Spec.active_family = 30.
Proof.
  apply (behavioral_fit_both_penalties Spec.loner Spec.active_family);
    vm_compute; reflexivity.
Defined.

(** C4, as stated.  With special needs and no experience_level field the
    code scores 40, where the table of the claim gives 100. *)
Lemma experience_missing_level_is_not_100 :
  CompatibilityScorer._score_experience Spec.fragile Spec.blank = 40
  /\ Spec.experience_policy (lower <$> Spec.fragile !! "special_needs")
       (lower <$> Spec.blank !! "experience_level") = 100.
Proof. vm_compute. split; reflexivity. Qed.

(** C4, amended.  The experience sub-score follows the decision table on
    the lower-cased fields: special needs with experienced gives 100,
    special needs with beginner gives 40, no special needs with beginner
    gives 90, and a missing experience_level counts as beginner; every
    other combination, an unrecognised experience_level included, gives
    100. *)
Theorem experience_follows_policy (animal adopter : record) :
  CompatibilityScorer._score_experience animal adopter =
    Spec.experience_policy_amended (lower <$> animal !! "special_needs")
      (lower <$> adopter !! "experience_level").
Proof.
  unfold CompatibilityScorer._score_experience, Spec.experience_policy_amended, get.
  destruct (animal !! "special_needs") as [sn|],
    (adopter !! "experience_level") as [ex|]; simpl;
    repeat match goal with
           | |- context [String.eqb ?a ?b] => destruct (String.eqb_spec a b)
           end;
    repeat case_bool_decide; simplify_eq; try reflexivity; try congruence.
Qed.

(** C7, as stated.  Nothing validates the weights: a scorer whose weights
    add up to 1.2 scores the example pair without raising, and returns
    118. *)
Lemma skewed_weights_are_used :
  Spec.sums_to_one Spec.skewed = false
  /\ exists reasoning,
       CompatibilityScorer.calculate_compatibility Spec.skewed
         Spec.golden Spec.active_family = Ok (118, reasoning).
Proof. split; [vm_compute; reflexivity|]. eexists. vm_compute. reflexivity. Qed.

(** C7, amended.  The constructor validates nothing and cannot fail: it
    installs fixed weights, which add up to 1.0 within floating tolerance
    (their binary64 sum is 0.9999999999999999).  Scoring does not check
    the weights either: whatever five weights the scorer holds, the
    products are formed, summed and truncated. *)
Theorem weights_fixed_and_unchecked :
  Spec.weights_sum CompatibilityScorer.__init__ = 0x1.fffffffffffffp-1%float
  /\ Spec.sums_to_one CompatibilityScorer.__init__ = true
  /\ forall (self : CompatibilityScorer.t) (animal adopter : record),
       Forall (fun key => is_Some (CompatibilityScorer.weights self !! key))
         Spec.weight_keys ->
       exists terms,
         CompatibilityScorer.weighted_terms self
           (CompatibilityScorer.compute_scores animal adopter) = Ok terms
         /\ CompatibilityScorer.calculate_compatibility self animal adopter =
              (n ← int_of_float (sum_floats terms);
               Ok (n, CompatibilityScorer._generate_reasoning animal adopter
                        (CompatibilityScorer.compute_scores animal adopter))).
Proof.
  split; [vm_compute; reflexivity|]. split; [vm_compute; reflexivity|].
  intros self animal adopter H. unfold Spec.weight_keys in H.
  repeat match goal with
         | H : Forall _ (_ :: _) |- _ =>
             let Hw := fresh "Hw" in
             apply Forall_cons in H as [Hw H]; destruct Hw as [? Hw]
         end.
  destruct (float_of_int_scores animal adopter) as (l & e & h & b & n & Hs).
  simpl in Hs. destruct Hs as (Hl & He & Hh & Hb & Hn).
  unfold CompatibilityScorer.calculate_compatibility,
    CompatibilityScorer.weighted_terms, CompatibilityScorer.items, getitem.
  simpl.
  repeat match goal with H : _ !! _ = Some _ |- _ => rewrite H; clear H end.
  simpl. rewrite Hl, He, Hh, Hb, Hn.
  simpl. eexists. split; reflexivity.
Qed.

(** The skewed scorer has its five weights, and they are used. *)
Lemma weights_fixed_and_unchecked_witness :
  exists terms,
    CompatibilityScorer.weighted_terms Spec.skewed
      (CompatibilityScorer.compute_scores Spec.golden Spec.active_family) = Ok terms
    /\ CompatibilityScorer.calculate_compatibility Spec.skewed
         Spec.golden Spec.active_family =
         (n ← int_of_float (sum_floats terms);
          Ok (n, CompatibilityScorer._generate_reasoning Spec.golden Spec.active_family
                   (CompatibilityScorer.compute_scores Spec.golden Spec.active_family))).
Proof.
  apply (proj2 (proj2 weights_fixed_and_unchecked) Spec.skewed
           Spec.golden Spec.active_family).
  unfold Spec.weight_keys. repeat constructor; vm_compute; eexists; reflexivity.
Defined.

(** * Letter case *)

Section LetterCase.
Import Spec CompatibilityScorer.

Lemma lower_char_idem c : lower_char (lower_char c) = lower_char c.
Proof. destruct c as [[] [] [] [] [] [] [] []]; reflexivity. Qed.

Lemma lower_char_upper c : lower_char (upper_char c) = lower_char c.
Proof. destruct c as [[] [] [] [] [] [] [] []]; reflexivity. Qed.

Lemma ascii_case_variant_lower s s' : ascii_case_variant s s' -> lower s = lower s'.
Proof.
  induction 1 as [|c c' s s' Hc _ IH]; [reflexivity|].
  simpl. rewrite IH. f_equal.
  destruct Hc as [-> | [-> | ->]];
    auto using lower_char_idem, lower_char_upper.
Qed.

Lemma ascii_case_variant_upper s : ascii_case_variant s (ascii_upper s).
Proof. induction s; simpl; constructor; auto. Qed.

Lemma record_ascii_case_variant_upper (r : record) :
  record_ascii_case_variant r (ascii_upper <$> r).
Proof.
  intros key. rewrite lookup_fmap.
  destruct (r !! key); constructor. apply ascii_case_variant_upper.
Qed.

Lemma get_lower (r r' : record) key dflt :
  record_ascii_case_variant r r' ->
  lower (get r key dflt) = lower (get r' key dflt).
Proof.
  intros H. unfold get. destruct (H key) as [v v' Hv|]; simpl; [|reflexivity].
  apply ascii_case_variant_lower, Hv.
Qed.

(** Each sub-scorer lower-cases what it reads before comparing it. *)
Lemma compute_scores_case (animal animal' adopter adopter' : record) :
  record_ascii_case_variant animal animal' ->
  record_ascii_case_variant adopter adopter' ->
  compute_scores animal adopter = compute_scores animal' adopter'.
Proof.
  intros Ha Hd.
  unfold compute_scores, _score_lifestyle, _score_experience, _score_home,
    _estimate_size, _score_behavior, _score_special_needs.
  rewrite !(get_lower animal animal') by assumption.
  rewrite !(get_lower adopter adopter') by assumption.
  reflexivity.
Qed.

End LetterCase.

(** C9, as stated.  Letter case is not only that of the letters A..Z:
    the word yes written with a long s, U+017F, has YES as its
    upper-case form.  The animal of the example with either form for
    good_with_kids is the same record up to letter case, and the two
    totals differ: 90 and 98.  [lower] keeps the long s, as [str.lower]
    does, so the first form is not the keyword yes. *)
Lemma long_s_variant_changes_total :
  str_upper Spec.long_s_yes = Some "YES"
  /\ lower Spec.long_s_yes = Spec.long_s_yes
  /\ fst <$> CompatibilityScorer.calculate_compatibility CompatibilityScorer.__init__
        (<["good_with_kids" := Spec.long_s_yes]> Spec.golden) Spec.active_family
      = Ok 90
  /\ fst <$> CompatibilityScorer.calculate_compatibility CompatibilityScorer.__init__
        (<["good_with_kids" := "YES"]> Spec.golden) Spec.active_family
      = Ok 98.
Proof. vm_compute. repeat split; reflexivity. Qed.

(** C9, amended.  The total score does not change when the case of the
    letters A..Z and a..z changes in the field values of either record:
    all the categorical fields (energy_level, lifestyle, special_needs,
    experience_level, breed, home_type, has_kids, has_other_pets,
    good_with_kids, good_with_dogs, commitment_level) are lower-cased
    before they are compared. *)
Theorem total_score_case_insensitive
    (self : CompatibilityScorer.t) (animal animal' adopter adopter' : record) :
  Spec.record_ascii_case_variant animal animal' ->
  Spec.record_ascii_case_variant adopter adopter' ->
  fst <$> CompatibilityScorer.calculate_compatibility self animal adopter =
  fst <$> CompatibilityScorer.calculate_compatibility self animal' adopter'.
Proof.
  intros Ha Hd. rewrite !calculate_compatibility_total_of.
  rewrite (compute_scores_case animal animal' adopter adopter') by assumption.
  destruct (Spec.total_of self _); reflexivity.
Qed.

(** The example pair against the same pair in capitals. *)
Lemma total_score_case_insensitive_witness :
  fst <$> CompatibilityScorer.calculate_compatibility CompatibilityScorer.__init__
            Spec.golden Spec.active_family =
  fst <$> CompatibilityScorer.calculate_compatibility CompatibilityScorer.__init__
            (Spec.ascii_upper <$> Spec.golden) (Spec.ascii_upper <$> Spec.active_family).
Proof.
  apply (total_score_case_insensitive CompatibilityScorer.__init__
           Spec.golden (Spec.ascii_upper <$> Spec.golden)
           Spec.active_family (Spec.ascii_upper <$> Spec.active_family));
    apply record_ascii_case_variant_upper.
Defined.

(** * The ranker *)

Section StableSort.
Context {A : Type} (key : A -> Z).

Let after (a b : A) : Prop := key b <= key a.

Lemma insert_reverse_perm x l : insert_reverse key x l ≡ₚ x :: l.
Proof.
  induction l as [|y l IH]; simpl; [reflexivity|].
  destruct (key y <=? key x); [reflexivity|].
  rewrite IH. apply Permutation_swap.
Qed.

Lemma sort_reverse_perm l : sort_reverse key l ≡ₚ l.
Proof.
  induction l as [|x l IH]; simpl; [reflexivity|].
  rewrite insert_reverse_perm, IH. reflexivity.
Qed.

Lemma insert_reverse_sorted x l :
  StronglySorted after l -> StronglySorted after (insert_reverse key x l).
Proof.
  induction 1 as [|y l Hl IH Hy]; simpl.
  - repeat constructor.
  - destruct (Z.leb_spec (key y) (key x)) as [Hle|Hgt].
    + constructor; [constructor; assumption|].
      constructor; [exact Hle|].
      eapply Forall_impl; [exact Hy|]. unfold after. intros; lia.
    + constructor; [exact IH|].
      rewrite insert_reverse_perm. constructor; [unfold after; lia|exact Hy].
Qed.

Lemma sort_reverse_sorted l : StronglySorted after (sort_reverse key l).
Proof.
  induction l as [|x l IH]; simpl; [constructor|].
  apply insert_reverse_sorted, IH.
Qed.

(** Inserting an item keeps it in front of the items of equal key. *)
Lemma insert_reverse_ties x l s :
  filter (fun a => key a = s) (insert_reverse key x l)
  = filter (fun a => key a = s) (x :: l).
Proof.
  induction l as [|y l IH]; simpl; [reflexivity|].
  destruct (Z.leb_spec (key y) (key x)) as [Hle|Hgt]; [reflexivity|].
  rewrite (filter_cons _ y), IH, !filter_cons.
  repeat case_decide; try reflexivity; lia.
Qed.

Lemma sort_reverse_ties l s :
  filter (fun a => key a = s) (sort_reverse key l) = filter (fun a => key a = s) l.
Proof.
  induction l as [|x l IH]; simpl; [reflexivity|].
  rewrite insert_reverse_ties, !filter_cons, IH. reflexivity.
Qed.

(** Sorted order and the order among equal keys determine the list: any
    stable sort returns what [sort_reverse] returns. *)
Lemma stable_sort_unique l1 l2 :
  StronglySorted after l1 ->
  StronglySorted after l2 ->
  (forall s, filter (fun a => key a = s) l1 = filter (fun a => key a = s) l2) ->
  l1 = l2.
Proof.
  intros H1. revert l2.
  induction H1 as [|x l1 Hl1 IH Hx]; intros l2 H2 Hties.
  - destruct l2 as [|y l2]; [reflexivity|].
    specialize (Hties (key y)). rewrite filter_cons in Hties.
    case_decide; [discriminate|congruence].
  - destruct H2 as [|y l2 Hl2 Hy].
    + specialize (Hties (key x)). rewrite filter_cons in Hties.
      case_decide; [discriminate|congruence].
    + assert (Hxy : key x <= key y).
      { assert (Hin : x ∈ filter (fun a => key a = key x) (y :: l2)).
        { rewrite <- Hties, filter_cons. case_decide; [left|congruence]. }
        apply list_elem_of_filter in Hin as [_ Hin].
        apply elem_of_cons in Hin as [->|Hin]; [lia|].
        rewrite Forall_forall in Hy. apply Hy, Hin. }
      assert (Hyx : key y <= key x).
      { assert (Hin : y ∈ filter (fun a => key a = key y) (x :: l1)).
        { rewrite Hties, filter_cons. case_decide; [left|congruence]. }
        apply list_elem_of_filter in Hin as [_ Hin].
        apply elem_of_cons in Hin as [->|Hin]; [lia|].
        rewrite Forall_forall in Hx. apply Hx, Hin. }
      assert (Heq : x = y).
      { specialize (Hties (key x)). rewrite !filter_cons in Hties.
        repeat case_decide; try lia. congruence. }
      subst y. f_equal. apply IH; [exact Hl2|].
      intros s. specialize (Hties s). rewrite !filter_cons in Hties.
      case_decide; congruence.
Qed.

End StableSort.

Section Ranker.
Import Spec.

Lemma for_each_Ok {A B} (f : A -> result B) (xs : list A) :
  Forall (fun x => exists y, f x = Ok y) xs ->
  exists ys, for_each f xs = Ok ys /\ Forall2 (fun x y => f x = Ok y) xs ys.
Proof.
  induction 1 as [|x xs [y Hy] _ [ys [Hys Hall]]]; simpl.
  - exists []. split; [reflexivity|constructor].
  - exists (y :: ys). rewrite Hy. simpl. rewrite Hys. simpl.
    split; [reflexivity|]. constructor; assumption.
Qed.

(** The loop of [get_adopter] returns the first row carrying the id, or
    [None] when no row carries it. *)
Lemma get_adopter_in_spec (rows : list record) (adopter_id : string) :
  Forall (fun adopter => is_Some (adopter !! "adopter_id") /\ is_Some (adopter !! "name"))
    rows ->
  (exists adopter,
      DataLoader.get_adopter_in rows adopter_id = Ok (Some adopter)
      /\ adopter ∈ rows /\ adopter !! "adopter_id" = Some adopter_id)
  \/ (DataLoader.get_adopter_in rows adopter_id = Ok None
      /\ ~ Exists (fun adopter => adopter !! "adopter_id" = Some adopter_id) rows).
Proof.
  induction 1 as [|row rows [[id Hid] _] _ IH]; simpl.
  - right. split; [reflexivity|]. intros H. inversion H.
  - unfold getitem. rewrite Hid. simpl.
    destruct (String.eqb_spec id adopter_id) as [->|Hne].
    + left. exists row. split; [reflexivity|]. split; [left|exact Hid].
    + destruct IH as [[adopter [Hget [Hin Hk]]]|[Hget Hnone]].
      * left. exists adopter. split; [exact Hget|]. split; [right; exact Hin|exact Hk].
      * right. split; [exact Hget|]. intros H.
        apply Exists_cons in H as [H|H]; [congruence|contradiction].
Qed.

Lemma score_animal_Ok (dl : DataLoader.t) (adopter animal : record) :
  is_Some (animal !! "animal_id") /\ is_Some (animal !! "name") ->
  is_Some (adopter !! "adopter_id") /\ is_Some (adopter !! "name") ->
  exists m, MatchingAgent.score_animal (MatchingAgent.__init__ dl) adopter animal = Ok m.
Proof.
  intros [[a1 H1] [a2 H2]] [[d1 H3] [d2 H4]].
  unfold MatchingAgent.score_animal. simpl.
  rewrite calculate_compatibility_exact. simpl.
  unfold getitem. rewrite H1, H2, H3, H4. simpl. eexists. reflexivity.
Qed.

Lemma score_animal_match_of (dl : DataLoader.t) (adopter animal : record) m :
  MatchingAgent.score_animal (MatchingAgent.__init__ dl) adopter animal = Ok m ->
  match_of adopter animal m.
Proof.
  unfold MatchingAgent.score_animal, match_of. simpl.
  rewrite calculate_compatibility_exact. simpl. unfold getitem.
  destruct (animal !! "animal_id") as [a1|]; [|discriminate]. simpl.
  destruct (animal !! "name") as [a2|]; [|discriminate]. simpl.
  destruct (adopter !! "adopter_id") as [d1|]; [|discriminate]. simpl.
  destruct (adopter !! "name") as [d2|]; [|discriminate]. simpl.
  intros [= <-]. simpl. repeat split; reflexivity.
Qed.

Lemma slice_to_nonneg {A} (xs : list A) (n : Z) :
  0 <= n -> slice_to xs n = take (Z.to_nat n) xs.
Proof.
  intros Hn. unfold slice_to. destruct (Z.ltb_spec n 0); [lia|reflexivity].
Qed.

End Ranker.

(** C6.  Over a store whose rows carry their identity and name columns,
    and for a count [top_n]: when the adopter id resolves, [find_matches]
    scores every animal of the store, in store order; the ranked list is
    a rearrangement of these matches, sorted by non-increasing score, in
    which matches of equal score keep their store order; the call returns
    its first [top_n] items, all of them when there are no more than
    [top_n], and the first three when [top_n] is left to its default.
    When the id does not resolve the call returns the empty list. *)
Theorem find_matches_ranked (dl : DataLoader.t) (adopter_id : string) (top_n : Z) :
  Spec.well_formed dl ->
  0 <= top_n ->
  (Spec.resolves dl adopter_id ->
   exists adopter all ranked,
     DataLoader.get_adopter dl adopter_id = Ok (Some adopter)
     /\ Forall2 (Spec.match_of adopter) (DataLoader.animals dl) all
     /\ ranked ≡ₚ all
     /\ Spec.descending ranked
     /\ Spec.keeps_ties all ranked
     /\ MatchingAgent.find_matches (MatchingAgent.__init__ dl) adopter_id top_n
        = Ok (take (Z.to_nat top_n) ranked)
     /\ (Z.of_nat (length all) <= top_n ->
         MatchingAgent.find_matches (MatchingAgent.__init__ dl) adopter_id top_n
         = Ok ranked)
     /\ MatchingAgent.find_matches_default (MatchingAgent.__init__ dl) adopter_id
        = Ok (take 3 ranked))
  /\ (~ Spec.resolves dl adopter_id ->
      MatchingAgent.find_matches (MatchingAgent.__init__ dl) adopter_id top_n = Ok []).
Proof.
  intros [Hanimals Hadopters] Htop.
  destruct (get_adopter_in_spec (DataLoader.adopters dl) adopter_id Hadopters)
    as [[adopter [Hget [Hin Hid]]]|[Hget Hnone]].
  - split; [intros _|intros Hno; exfalso; apply Hno].
    2:{ apply Exists_exists. exists adopter. split; [exact Hin|exact Hid]. }
    assert (Hrow : is_Some (adopter !! "adopter_id") /\ is_Some (adopter !! "name")).
    { rewrite Forall_forall in Hadopters. apply Hadopters, Hin. }
    destruct (for_each_Ok
                (MatchingAgent.score_animal (MatchingAgent.__init__ dl) adopter)
                (DataLoader.animals dl)) as [all [Hall Hmatches]].
    { eapply Forall_impl; [exact Hanimals|].
      intros animal Hanimal. apply score_animal_Ok; assumption. }
    assert (Hnonempty : bool_decide (adopter = ∅) = false).
    { apply bool_decide_eq_false. intros ->. rewrite lookup_empty in Hid. discriminate. }
    assert (Hfind : forall n,
      MatchingAgent.find_matches (MatchingAgent.__init__ dl) adopter_id n
      = Ok (slice_to (sort_reverse MatchingAgent.score all) n)).
    { intros n. unfold MatchingAgent.find_matches, DataLoader.get_adopter,
        DataLoader.get_all_animals. simpl.
      rewrite Hget. simpl. rewrite Hnonempty, Hall. reflexivity. }
    exists adopter, all, (sort_reverse MatchingAgent.score all).
    split; [exact Hget|].
    split; [eapply Forall2_impl; [exact Hmatches|]; apply score_animal_match_of|].
    split; [apply sort_reverse_perm|].
    split; [apply sort_reverse_sorted|].
    split; [intros s; apply sort_reverse_ties|].
    split; [rewrite Hfind, slice_to_nonneg by assumption; reflexivity|].
    split.
    + intros Hlen. rewrite Hfind, slice_to_nonneg by assumption.
      rewrite take_ge; [reflexivity|].
      rewrite sort_reverse_perm. lia.
    + unfold MatchingAgent.find_matches_default. rewrite Hfind. reflexivity.
  - split; [intros Hyes; contradiction|intros _].
    unfold MatchingAgent.find_matches, DataLoader.get_adopter. simpl.
    rewrite Hget. reflexivity.
Qed.

(** The small shelter: adopter 1 resolves, adopter 7 does not. *)
Lemma find_matches_ranked_witness :
  (exists adopter all ranked,
     DataLoader.get_adopter Spec.shelter "1" = Ok (Some adopter)
     /\ Forall2 (Spec.match_of adopter) (DataLoader.animals Spec.shelter) all
     /\ ranked ≡ₚ all
     /\ Spec.descending ranked
     /\ Spec.keeps_ties all ranked
     /\ MatchingAgent.find_matches (MatchingAgent.__init__ Spec.shelter) "1" 2
        = Ok (take (Z.to_nat 2) ranked)
     /\ (Z.of_nat (length all) <= 2 ->
         MatchingAgent.find_matches (MatchingAgent.__init__ Spec.shelter) "1" 2
         = Ok ranked)
     /\ MatchingAgent.find_matches_default (MatchingAgent.__init__ Spec.shelter) "1"
        = Ok (take 3 ranked))
  /\ MatchingAgent.find_matches (MatchingAgent.__init__ Spec.shelter) "7" 2 = Ok [].
Proof.
  assert (Hwf : Spec.well_formed Spec.shelter).
  { split; repeat constructor; vm_compute; eexists; reflexivity. }
  split.
  - apply (proj1 (find_matches_ranked Spec.shelter "1" 2 Hwf ltac:(lia))).
    apply Exists_cons_hd. vm_compute. reflexivity.
  - apply (proj2 (find_matches_ranked Spec.shelter "7" 2 Hwf ltac:(lia))).
    intros H. apply Exists_cons in H as [H|H]; [vm_compute in H; discriminate|].
    inversion H.
Defined.

(** * The session store *)

Section Store.
Import Spec.

Lemma save_to_file_persisted (self : MemoryStore.t) (w : World.t) :
  persisted self (MemoryStore.save_to_file self w).
Proof.
  unfold persisted, MemoryStore.save_to_file, World.read_clock, World.write_file,
    MemoryStore.sessions_to_dicts. simpl.
  eexists. rewrite lookup_insert_eq. reflexivity.
Qed.

(** Where there is no file the constructor returns the fresh store. *)
Lemma fresh_store_constructed :
  MemoryStore.__init__ "sessions.json" World.initial = Done fresh_store.
Proof. reflexivity. Qed.

(** A constructor call never reuses the reference of a live object. *)
Lemma new_is_fresh ctor (w : World.t) :
  World.heap w !! (World.new ctor w).1 = None.
Proof.
  unfold World.new. destruct (ctor (World.time w)) as [obj c]. simpl.
  apply not_elem_of_dom, is_fresh.
Qed.

Lemma sum_scores_raises acc history e :
  MemoryStore.sum_scores acc history = Raise e -> e = TypeError.
Proof.
  revert acc. induction history as [|m history IH]; intros acc; simpl; [discriminate|].
  destruct (get m "score" (VInt 0)); simpl; try (intros [= <-]; reflexivity).
  apply IH.
Qed.

Lemma high_scores_raises history e :
  MemoryStore.high_scores history = Raise e -> e = TypeError.
Proof.
  induction history as [|m history IH]; simpl; [discriminate|].
  destruct (get m "score" (VInt 0)); simpl; try (intros [= <-]; reflexivity).
  destruct (MemoryStore.high_scores history); simpl; [discriminate|].
  intros [= <-]. apply IH. reflexivity.
Qed.

Lemma total_score_cons m history :
  total_score (m :: history) = score_of m + total_score history.
Proof. reflexivity. Qed.

Lemma sum_scores_int acc history :
  int_scores history ->
  MemoryStore.sum_scores acc history = Ok (acc + total_score history).
Proof.
  intros H. revert acc.
  induction H as [|m history [n Hn] _ IH]; intros acc; simpl.
  - f_equal. unfold total_score. simpl. lia.
  - rewrite Hn. simpl. rewrite IH. f_equal.
    rewrite total_score_cons. unfold score_of. rewrite Hn. lia.
Qed.

Lemma high_scores_int history :
  int_scores history ->
  MemoryStore.high_scores history = Ok (filter (fun m => 80 <= score_of m) history).
Proof.
  induction 1 as [|m history [n Hn] _ IH]; simpl; [reflexivity|].
  rewrite Hn, IH. simpl. rewrite filter_cons.
  assert (Hm : score_of m = n) by (unfold score_of; rewrite Hn; reflexivity).
  destruct (Z.leb_spec 80 n); case_decide; try lia; reflexivity.
Qed.

(** True division raises ZeroDivisionError for a zero divisor and for
    nothing else. *)
Lemma truediv_zero_division a b :
  truediv a b = Raise ZeroDivisionError <-> b = 0.
Proof.
  unfold truediv. destruct (Z.eqb_spec b 0) as [->|Hb].
  - split; reflexivity.
  - split; [|contradiction].
    destruct (SFdiv prec emax (int_to_spec a) (int_to_spec b)); discriminate.
Qed.

Lemma truediv_outcomes a b :
  b <> 0 -> truediv a b = Raise OverflowError \/ exists q, truediv a b = Ok q.
Proof.
  intros Hb. unfold truediv. destruct (Z.eqb_spec b 0); [contradiction|].
  destruct (SFdiv prec emax (int_to_spec a) (int_to_spec b)); eauto.
Qed.

(** True division at the edges of the float range: the operands are
    not wrapped or rounded before the division, a quotient beyond the
    range overflows, and the quotient of two ints that are each beyond
    the range is still formed. *)
Example truediv_edges :
  truediv 163 2 = Ok 81.5%float
  /\ truediv (2 ^ 63) 1 = Ok 0x1p+63%float
  /\ truediv (2 ^ 53 + 1) 1 = Ok 0x1p+53%float
  /\ truediv (2 ^ 53 + 3) 1 = Ok 0x1.0000000000002p+53%float
  /\ truediv (10 ^ 400) 1 = Raise OverflowError
  /\ truediv (10 ^ 400) (10 ^ 399) = Ok 10%float
  /\ truediv (2 ^ 1024 - 2 ^ 970 - 1) 1 = Ok 0x1.fffffffffffffp+1023%float
  /\ truediv (2 ^ 1024 - 2 ^ 970) 1 = Raise OverflowError
  /\ truediv 7 0 = Raise ZeroDivisionError.
Proof. vm_compute. repeat split; reflexivity. Qed.

Example float_of_int_edges :
  float_of_int 100 = Ok 100%float
  /\ float_of_int (2 ^ 63) = Ok 0x1p+63%float
  /\ float_of_int (- (2 ^ 53 + 1)) = Ok (-0x1p+53)%float
  /\ float_of_int (2 ^ 1024) = Raise OverflowError.
Proof. vm_compute. repeat split; reflexivity. Qed.

End Store.

(** C8, as stated.  After a session of the store has been changed through
    [add_match], [select_animal], [complete_adoption] or [add_feedback],
    the storage file does not hold the current in-memory state. *)
Lemma session_calls_do_not_persist :
  let '(session, store, w) := Spec.opened in
  ~ Spec.persisted store
      (World.call session (AdoptionSession.add_match Spec.max_match) w)
  /\ ~ Spec.persisted store
        (World.call_timed session (AdoptionSession.select_animal "1") w)
  /\ ~ Spec.persisted store
        (World.call_timed session AdoptionSession.complete_adoption w)
  /\ ~ Spec.persisted store
        (World.call_timed session (AdoptionSession.add_feedback "Max is perfect!") w).
Proof.
  vm_compute. repeat split; intros [stamp H]; inversion H.
Qed.

(** C8, amended.  [create_session] and [record_match] persist, before
    they return, the entire current in-memory state (all sessions and the
    match-history log) to the storage file.  [add_match], [select_animal],
    [complete_adoption] and [add_feedback] change the session object in
    memory and leave the files as they are; the next [save_to_file]
    writes the state they left. *)
Theorem store_calls_persist (self : MemoryStore.t) (w : World.t) :
  Spec.persisted self (MemoryStore.save_to_file self w)
  /\ (forall session_id adopter_id,
     let '(_, self', w') := MemoryStore.create_session self session_id adopter_id w in
     Spec.persisted self' w')
  /\ (forall match_data,
       let '(self', w') := MemoryStore.record_match self match_data w in
       Spec.persisted self' w')
  /\ (forall session m,
       World.files (World.call session (AdoptionSession.add_match m) w)
       = World.files w)
  /\ (forall session animal_id,
       World.files (World.call_timed session (AdoptionSession.select_animal animal_id) w)
       = World.files w)
  /\ (forall session,
       World.files (World.call_timed session AdoptionSession.complete_adoption w)
       = World.files w)
  /\ (forall session text,
       World.files (World.call_timed session (AdoptionSession.add_feedback text) w)
       = World.files w).
Proof.
  split; [apply save_to_file_persisted|].
  split; [|split; [|split; [|split; [|split]]]].
  - intros session_id adopter_id. unfold MemoryStore.create_session.
    destruct (World.new _ w) as [session w1]. apply save_to_file_persisted.
  - intros match_data. unfold MemoryStore.record_match.
    destruct (World.read_clock w) as [stamp w1]. apply save_to_file_persisted.
  - reflexivity.
  - intros session animal_id. unfold World.call_timed.
    destruct (World.heap w !! session); reflexivity.
  - intros session. unfold World.call_timed.
    destruct (World.heap w !! session); reflexivity.
  - intros session text. unfold World.call_timed.
    destruct (World.heap w !! session); reflexivity.
Qed.

(** C10.  [get_match_statistics] never divides by zero.  On an empty
    history it returns exactly the dict with total_matches 0, and no
    average.  It never raises ZeroDivisionError.  On a non-empty history
    of entries with int scores the average is the true division of the
    sum of the scores by the number of entries, which is not zero: the
    call returns the count, that average, the number of scores from 80
    up and the number of distinct adopters, unless the division
    overflows the float range. *)
Theorem get_match_statistics_guarded (self : MemoryStore.t) :
  (MemoryStore.match_history self = [] ->
   MemoryStore.get_match_statistics self = Ok [ ("total_matches", MemoryStore.SInt 0) ])
  /\ MemoryStore.get_match_statistics self <> Raise ZeroDivisionError
  /\ (MemoryStore.match_history self <> [] ->
      Spec.int_scores (MemoryStore.match_history self) ->
      let history := MemoryStore.match_history self in
      let n := Z.of_nat (length history) in
      n <> 0
      /\ truediv (Spec.total_score history) n <> Raise ZeroDivisionError
      /\ MemoryStore.get_match_statistics self =
           (average ← truediv (Spec.total_score history) n;
            Ok [ ("total_matches", MemoryStore.SInt n);
                 ("average_score", MemoryStore.SFloat average);
                 ("high_matches", MemoryStore.SInt (Spec.high_count history));
                 ("total_adopters",
                  MemoryStore.SInt (MemoryStore.count_adopters history)) ])).
Proof.
  unfold MemoryStore.get_match_statistics.
  destruct (MemoryStore.match_history self) as [|m history] eqn:Hh.
  - split; [reflexivity|]. split; [discriminate|]. intros H; contradiction.
  - split; [discriminate|].
    assert (Hn : Z.of_nat (length (m :: history)) <> 0) by (simpl; lia).
    split.
    + destruct (MemoryStore.sum_scores 0 (m :: history)) as [total|e] eqn:Hsum.
      * cbn [mbind result_bind].
        destruct (truediv total (Z.of_nat (length (m :: history))))
          as [average|e] eqn:Hdiv.
        -- cbn [mbind result_bind].
           destruct (MemoryStore.high_scores (m :: history)) as [high|e] eqn:Hhigh.
           ++ discriminate.
           ++ apply high_scores_raises in Hhigh as ->. discriminate.
        -- intros [= ->]. apply truediv_zero_division in Hdiv. contradiction.
      * apply sum_scores_raises in Hsum as ->. discriminate.
    + intros _ Hint. split; [exact Hn|].
      split; [rewrite truediv_zero_division; exact Hn|].
      rewrite sum_scores_int by exact Hint. cbn [mbind result_bind].
      rewrite Z.add_0_l.
      destruct (truediv (Spec.total_score (m :: history))
                  (Z.of_nat (length (m :: history)))) as [average|e];
        cbn [mbind result_bind]; [|reflexivity].
      rewrite high_scores_int by exact Hint. reflexivity.
Qed.

(** The fresh store and the store of the test block. *)
Lemma get_match_statistics_guarded_witness :
  MemoryStore.get_match_statistics Spec.fresh_store
    = Ok [ ("total_matches", MemoryStore.SInt 0) ]
  /\ MemoryStore.get_match_statistics Spec.two_matches =
       Ok [ ("total_matches", MemoryStore.SInt 2);
            ("average_score", MemoryStore.SFloat 81.5%float);
            ("high_matches", MemoryStore.SInt 1);
            ("total_adopters", MemoryStore.SInt 1) ].
Proof.
  split.
  - apply (proj1 (get_match_statistics_guarded Spec.fresh_store)). reflexivity.
  - refine (eq_trans
              (proj2 (proj2 (proj2 (proj2 (get_match_statistics_guarded Spec.two_matches))
                                   _ _))) _).
    + discriminate.
    + repeat constructor; vm_compute; eexists; reflexivity.
    + vm_compute. reflexivity.
Defined.

(** * Further properties of the scorer *)

Section ScorerProperties.
Import Spec Props CompatibilityScorer.

Lemma breakdowns_at_least_37 :
  Forall (fun s => 37 <= exact_total s) breakdowns.
Proof.
  apply Forall_forall. intros s Hs.
  assert (H : forallb (fun s => 37 <=? exact_total s) breakdowns = true)
    by (vm_compute; reflexivity).
  rewrite forallb_forall in H. apply list_elem_of_In, H in Hs. lia.
Qed.

Lemma breakdowns_full_marks :
  Forall (fun s => exact_total s = 100 ->
                   lifestyle_match s = 100 /\ experience_match s = 100
                   /\ home_fit s = 100 /\ behavioral_fit s = 100
                   /\ special_needs s = 100) breakdowns.
Proof.
  apply Forall_forall. intros s Hs.
  assert (H : forallb (fun s =>
                implb (exact_total s =? 100)
                  ((lifestyle_match s =? 100) && (experience_match s =? 100)
                   && (home_fit s =? 100) && (behavioral_fit s =? 100)
                   && (special_needs s =? 100))) breakdowns = true)
    by (vm_compute; reflexivity).
  rewrite forallb_forall in H. apply list_elem_of_In, H in Hs.
  intros Ht. apply Z.eqb_eq in Ht. rewrite Ht in Hs. simpl in Hs.
  repeat (apply andb_true_iff in Hs as [Hs ?]).
  repeat split; apply Z.eqb_eq; assumption.
Qed.

Lemma agree_on_get fields (r r' : record) key dflt :
  agree_on fields r r' -> key ∈ fields -> get r key dflt = get r' key dflt.
Proof.
  intros H Hin. unfold agree_on in H. rewrite Forall_forall in H.
  unfold get. rewrite (H key Hin). reflexivity.
Qed.

Lemma lower_app s1 s2 : lower (s1 +:+ s2) = lower s1 +:+ lower s2.
Proof. induction s1 as [|c s1 IH]; simpl; [reflexivity|]. rewrite IH. reflexivity. Qed.

Lemma prefix_app needle rest : String.prefix needle (needle +:+ rest) = true.
Proof.
  induction needle as [|c needle IH]; simpl; [destruct rest; reflexivity|].
  destruct (ascii_dec c c); [exact IH|contradiction].
Qed.

Lemma prefix_inv needle hay :
  String.prefix needle hay = true -> exists rest, hay = needle +:+ rest.
Proof.
  revert hay. induction needle as [|c needle IH]; intros hay H.
  - exists hay. reflexivity.
  - destruct hay as [|c' hay]; simpl in H; [discriminate|].
    destruct (ascii_dec c c') as [->|]; [|discriminate].
    destruct (IH hay H) as [rest ->]. exists rest. reflexivity.
Qed.

Lemma contains_unfold needle hay :
  contains needle hay =
    String.prefix needle hay ||
    match hay with
    | EmptyString => false
    | String _ rest => contains needle rest
    end.
Proof. destruct hay; reflexivity. Qed.

(** [contains] is the substring test. *)
Lemma contains_spec needle hay :
  contains needle hay = true <-> exists before after, hay = before +:+ needle +:+ after.
Proof.
  split.
  - induction hay as [|c hay IH]; rewrite contains_unfold; intros H.
    + rewrite orb_false_r in H. apply prefix_inv in H as [rest ->].
      exists EmptyString, rest. reflexivity.
    + apply orb_true_iff in H as [H|H].
      * apply prefix_inv in H as [rest ->]. exists EmptyString, rest. reflexivity.
      * destruct (IH H) as [before [after ->]].
        exists (String c before), after. reflexivity.
  - intros [before [after ->]].
    induction before as [|c before IH].
    + change (EmptyString +:+ needle +:+ after) with (needle +:+ after).
      rewrite contains_unfold, prefix_app. reflexivity.
    + change (String c before +:+ needle +:+ after)
        with (String c (before +:+ needle +:+ after)).
      rewrite contains_unfold, IH. apply orb_true_r.
Qed.

Lemma existsb_contains keywords text :
  existsb (fun b => contains b text) keywords = true
  <-> exists kw before after, kw ∈ keywords /\ text = before +:+ kw +:+ after.
Proof.
  rewrite existsb_exists. split.
  - intros [kw [Hin H]]. apply contains_spec in H as [before [after ->]].
    exists kw, before, after. split; [apply list_elem_of_In, Hin|reflexivity].
  - intros [kw [before [after [Hin ->]]]]. exists kw.
    split; [apply list_elem_of_In, Hin|]. apply contains_spec. eauto.
Qed.

Lemma energy_map_unknown s :
  s ∉ ["low"; "medium"; "high"] -> energy_map !! s = None.
Proof.
  intros H. unfold energy_map. simpl.
  rewrite !lookup_insert_ne by set_solver. apply lookup_empty.
Qed.

Lemma lifestyle_map_unknown s :
  s ∉ ["quiet"; "relaxed"; "moderate"; "active"; "outdoor-person";
       "family-focused"; "busy"] ->
  lifestyle_map !! s = None.
Proof.
  intros H. unfold lifestyle_map. simpl.
  rewrite !lookup_insert_ne by set_solver. apply lookup_empty.
Qed.

End ScorerProperties.

(** X1.  The total score is the exact weighted sum of the five sub-scores,
    rounded down: the binary64 products and additions of the code lose
    nothing, for any pair of records. *)
Theorem total_is_exact_floor (animal adopter : record) :
  fst <$> CompatibilityScorer.calculate_compatibility CompatibilityScorer.__init__
            animal adopter
  = Ok ((30 * CompatibilityScorer._score_lifestyle animal adopter
         + 20 * CompatibilityScorer._score_experience animal adopter
         + 20 * CompatibilityScorer._score_home animal adopter
         + 20 * CompatibilityScorer._score_behavior animal adopter
         + 10 * CompatibilityScorer._score_special_needs animal adopter) / 100).
Proof. rewrite calculate_compatibility_exact. reflexivity. Qed.

(** X2.  The total score is never below 37, for any pair of records, and
    37 is reached. *)
Theorem total_at_least_37 :
  (forall animal adopter : record,
     exists score reasoning,
       CompatibilityScorer.calculate_compatibility CompatibilityScorer.__init__
         animal adopter = Ok (score, reasoning)
       /\ 37 <= score)
  /\ exists animal adopter reasoning,
       CompatibilityScorer.calculate_compatibility CompatibilityScorer.__init__
         animal adopter = Ok (37, reasoning).
Proof.
  split.
  - intros animal adopter. eexists _, _.
    split; [apply calculate_compatibility_exact|].
    pose proof breakdowns_at_least_37 as H. rewrite Forall_forall in H.
    apply H, compute_scores_breakdowns.
  - exists Props.hardest_animal, Props.hardest_adopter. eexists.
    rewrite calculate_compatibility_exact. vm_compute. reflexivity.
Qed.

(** X3.  A total of 100 is returned only when all five sub-scores are
    100: no rounding lifts a lower table to full marks. *)
Theorem full_marks_need_every_sub_score (animal adopter : record) (reasoning : string) :
  CompatibilityScorer.calculate_compatibility CompatibilityScorer.__init__
    animal adopter = Ok (100, reasoning) ->
  CompatibilityScorer.compute_scores animal adopter =
    {| CompatibilityScorer.lifestyle_match := 100;
       CompatibilityScorer.experience_match := 100;
       CompatibilityScorer.home_fit := 100;
       CompatibilityScorer.behavioral_fit := 100;
       CompatibilityScorer.special_needs := 100 |}.
Proof.
  rewrite calculate_compatibility_exact. intros [= Ht _].
  pose proof breakdowns_full_marks as H. rewrite Forall_forall in H.
  destruct (H _ (compute_scores_breakdowns animal adopter) Ht)
    as (H1 & H2 & H3 & H4 & H5).
  destruct (CompatibilityScorer.compute_scores animal adopter).
  simpl in *. congruence.
Qed.

(** An experienced adopter for the example animal. *)
Lemma full_marks_need_every_sub_score_witness :
  CompatibilityScorer.compute_scores Spec.golden Props.perfect_adopter =
    {| CompatibilityScorer.lifestyle_match := 100;
       CompatibilityScorer.experience_match := 100;
       CompatibilityScorer.home_fit := 100;
       CompatibilityScorer.behavioral_fit := 100;
       CompatibilityScorer.special_needs := 100 |}.
Proof.
  apply (full_marks_need_every_sub_score Spec.golden Props.perfect_adopter
           (CompatibilityScorer._generate_reasoning Spec.golden Props.perfect_adopter
              (CompatibilityScorer.compute_scores Spec.golden Props.perfect_adopter))).
  vm_compute. reflexivity.
Defined.

(** X4.  The scorer reads six columns of the animal row (energy_level,
    special_needs, breed, good_with_kids, good_with_dogs, name) and seven
    of the adopter row (lifestyle, experience_level, home_type, has_kids,
    has_other_pets, commitment_level, name): rows that agree on these
    get the same score and the same text, whatever else they hold
    (species, age, traits and preferences play no part). *)
Theorem calculate_compatibility_reads_only
    (self : CompatibilityScorer.t) (animal animal' adopter adopter' : record) :
  Props.agree_on Props.animal_fields animal animal' ->
  Props.agree_on Props.adopter_fields adopter adopter' ->
  CompatibilityScorer.calculate_compatibility self animal adopter
  = CompatibilityScorer.calculate_compatibility self animal' adopter'.
Proof.
  intros Ha Hd.
  assert (Hget_a : forall key dflt, key ∈ Props.animal_fields ->
            get animal key dflt = get animal' key dflt)
    by (intros; eapply agree_on_get; eassumption).
  assert (Hget_d : forall key dflt, key ∈ Props.adopter_fields ->
            get adopter key dflt = get adopter' key dflt)
    by (intros; eapply agree_on_get; eassumption).
  unfold CompatibilityScorer.calculate_compatibility,
    CompatibilityScorer._generate_reasoning, CompatibilityScorer.compute_scores,
    CompatibilityScorer._score_lifestyle, CompatibilityScorer._score_experience,
    CompatibilityScorer._score_home, CompatibilityScorer._score_behavior,
    CompatibilityScorer._score_special_needs.
  rewrite !(Hget_a "energy_level"), !(Hget_a "special_needs"), !(Hget_a "breed"),
    !(Hget_a "good_with_kids"), !(Hget_a "good_with_dogs"), !(Hget_a "name")
    by (unfold Props.animal_fields; set_solver).
  rewrite !(Hget_d "lifestyle"), !(Hget_d "experience_level"), !(Hget_d "home_type"),
    !(Hget_d "has_kids"), !(Hget_d "has_other_pets"), !(Hget_d "commitment_level"),
    !(Hget_d "name")
    by (unfold Props.adopter_fields; set_solver).
  reflexivity.
Qed.

(** The example animal with and without species, age and traits. *)
Lemma calculate_compatibility_reads_only_witness :
  CompatibilityScorer.calculate_compatibility CompatibilityScorer.__init__
    Spec.golden Spec.active_family
  = CompatibilityScorer.calculate_compatibility CompatibilityScorer.__init__
      Props.golden_full Spec.active_family.
Proof.
  apply (calculate_compatibility_reads_only CompatibilityScorer.__init__
           Spec.golden Props.golden_full Spec.active_family Spec.active_family);
    unfold Props.agree_on, Props.animal_fields, Props.adopter_fields;
    repeat constructor.
Defined.

(** X5.  The size estimate is "large" exactly when the lower-cased breed
    text has one of the four large-breed keywords somewhere inside it,
    whether or not a small-breed keyword occurs as well; it is "medium"
    exactly when it has no keyword of either list. *)
Theorem _estimate_size_by_substring (breed : string) :
  (CompatibilityScorer._estimate_size breed = "large" <->
   exists kw before after,
     kw ∈ CompatibilityScorer.large_breeds
     /\ lower breed = before +:+ kw +:+ after)
  /\ (CompatibilityScorer._estimate_size breed = "medium" <->
      ~ exists kw before after,
          kw ∈ (CompatibilityScorer.large_breeds ++ CompatibilityScorer.small_breeds)%list
          /\ lower breed = before +:+ kw +:+ after).
Proof.
  unfold CompatibilityScorer._estimate_size.
  pose proof (existsb_contains CompatibilityScorer.large_breeds (lower breed)) as Hl.
  pose proof (existsb_contains CompatibilityScorer.small_breeds (lower breed)) as Hs.
  destruct (existsb _ CompatibilityScorer.large_breeds) eqn:El.
  - split; split; try discriminate.
    + intros _. apply Hl. reflexivity.
    + reflexivity.
    + intros Hno. exfalso. apply Hno.
      destruct (proj1 Hl eq_refl) as (kw & before & after & Hin & Heq).
      exists kw, before, after. split; [apply elem_of_app; left; exact Hin|exact Heq].
  - split; split.
    + destruct (existsb _ CompatibilityScorer.small_breeds); discriminate.
    + intros H. apply Hl in H. discriminate.
    + destruct (existsb _ CompatibilityScorer.small_breeds) eqn:Es; [discriminate|].
      intros _ (kw & before & after & Hin & Heq).
      apply elem_of_app in Hin as [Hin|Hin].
      * assert (H : false = true) by (apply Hl; eauto 6). discriminate.
      * assert (H : false = true) by (apply Hs; eauto 6). discriminate.
    + intros Hno.
      destruct (existsb _ CompatibilityScorer.small_breeds) eqn:Es; [|reflexivity].
      exfalso. apply Hno.
      destruct (proj1 Hs eq_refl) as (kw & before & after & Hin & Heq).
      exists kw, before, after. split; [apply elem_of_app; right; exact Hin|exact Heq].
Qed.

(** X6.  For one and the same animal, an adopter whose home_type is
    "house" (in any letter case) scores at least 5 points more on home
    fit than an adopter with any other or no home_type; and two animals
    neither of which is estimated large score alike with every adopter,
    so the small-breed keywords never change a score. *)
Theorem _score_home_house_and_size (animal animal' adopter adopter' : record) :
  (lower (get adopter "home_type" "apartment") = "house" ->
   lower (get adopter' "home_type" "apartment") <> "house" ->
   CompatibilityScorer._score_home animal adopter' + 5
   <= CompatibilityScorer._score_home animal adopter)
  /\ (CompatibilityScorer._estimate_size (get animal "breed" "") <> "large" ->
      CompatibilityScorer._estimate_size (get animal' "breed" "") <> "large" ->
      CompatibilityScorer._score_home animal adopter
      = CompatibilityScorer._score_home animal' adopter).
Proof.
  unfold CompatibilityScorer._score_home. split.
  - intros -> Hother.
    destruct (String.eqb_spec (lower (get adopter' "home_type" "apartment")) "house");
      [contradiction|].
    simpl. destruct (String.eqb _ "large"); lia.
  - intros H1 H2.
    destruct (String.eqb_spec (CompatibilityScorer._estimate_size (get animal "breed" ""))
                "large"); [contradiction|].
    destruct (String.eqb_spec (CompatibilityScorer._estimate_size (get animal' "breed" ""))
                "large"); [contradiction|].
    reflexivity.
Qed.

(** A shepherd and a tabby against a house owner and a flat owner. *)
Lemma _score_home_house_and_size_witness :
  CompatibilityScorer._score_home Spec.rex Props.flat_owner + 5
  <= CompatibilityScorer._score_home Spec.rex Props.house_owner
  /\ CompatibilityScorer._score_home Spec.tom Props.flat_owner
     = CompatibilityScorer._score_home Spec.blank Props.flat_owner.
Proof.
  split.
  - apply (proj1 (_score_home_house_and_size Spec.rex Spec.rex
                    Props.house_owner Props.flat_owner)).
    + vm_compute. reflexivity.
    + vm_compute. discriminate.
  - apply (proj2 (_score_home_house_and_size Spec.tom Spec.blank
                    Props.flat_owner Props.flat_owner));
      vm_compute; discriminate.
Defined.

(** X7.  Defaults of the lifestyle score: an animal whose energy_level is
    missing or is none of low, medium, high (in any letter case) scores
    as one with energy_level "medium", and an adopter whose lifestyle is
    missing or is none of the seven known ones scores as one with
    lifestyle "moderate". *)
Theorem _score_lifestyle_defaults (animal adopter : record) :
  (lower (get animal "energy_level" "medium") ∉ ["low"; "medium"; "high"] ->
   CompatibilityScorer._score_lifestyle animal adopter
   = CompatibilityScorer._score_lifestyle (<["energy_level" := "medium"]> animal) adopter)
  /\ (animal !! "energy_level" = None ->
      CompatibilityScorer._score_lifestyle animal adopter
      = CompatibilityScorer._score_lifestyle (<["energy_level" := "medium"]> animal) adopter)
  /\ (lower (get adopter "lifestyle" "moderate")
        ∉ ["quiet"; "relaxed"; "moderate"; "active"; "outdoor-person";
           "family-focused"; "busy"] ->
      CompatibilityScorer._score_lifestyle animal adopter
      = CompatibilityScorer._score_lifestyle animal (<["lifestyle" := "moderate"]> adopter))
  /\ (adopter !! "lifestyle" = None ->
      CompatibilityScorer._score_lifestyle animal adopter
      = CompatibilityScorer._score_lifestyle animal (<["lifestyle" := "moderate"]> adopter)).
Proof.
  assert (Hmedium : forall value,
            get (<["energy_level" := value]> animal) "energy_level" "medium" = value)
    by (intros; unfold get; rewrite lookup_insert_eq; reflexivity).
  assert (Hmoderate : forall value,
            get (<["lifestyle" := value]> adopter) "lifestyle" "moderate" = value)
    by (intros; unfold get; rewrite lookup_insert_eq; reflexivity).
  unfold CompatibilityScorer._score_lifestyle.
  rewrite Hmedium, Hmoderate.
  split; [|split; [|split]].
  - intros H.
    replace (get CompatibilityScorer.energy_map
               (lower (get animal "energy_level" "medium")) 2) with 2
      by (unfold get at 1; rewrite (energy_map_unknown _ H); reflexivity).
    reflexivity.
  - intros H.
    replace (get animal "energy_level" "medium") with "medium"
      by (unfold get; rewrite H; reflexivity).
    reflexivity.
  - intros H.
    replace (get CompatibilityScorer.lifestyle_map
               (lower (get adopter "lifestyle" "moderate")) 2) with 2
      by (unfold get at 1; rewrite (lifestyle_map_unknown _ H); reflexivity).
    reflexivity.
  - intros H.
    replace (get adopter "lifestyle" "moderate") with "moderate"
      by (unfold get; rewrite H; reflexivity).
    reflexivity.
Qed.

(** An animal with energy_level "Hyper" and one without the column; an
    adopter with lifestyle "nomadic" and one without the column. *)
Lemma _score_lifestyle_defaults_witness :
  CompatibilityScorer._score_lifestyle Props.unknown_energy Spec.active_family
  = CompatibilityScorer._score_lifestyle
      (<["energy_level" := "medium"]> Props.unknown_energy) Spec.active_family
  /\ CompatibilityScorer._score_lifestyle Spec.blank Spec.active_family
     = CompatibilityScorer._score_lifestyle
         (<["energy_level" := "medium"]> Spec.blank) Spec.active_family
  /\ CompatibilityScorer._score_lifestyle Spec.golden Props.unknown_lifestyle
     = CompatibilityScorer._score_lifestyle Spec.golden
         (<["lifestyle" := "moderate"]> Props.unknown_lifestyle)
  /\ CompatibilityScorer._score_lifestyle Spec.golden Spec.blank
     = CompatibilityScorer._score_lifestyle Spec.golden
         (<["lifestyle" := "moderate"]> Spec.blank).
Proof.
  split; [|split; [|split]].
  - apply (proj1 (_score_lifestyle_defaults Props.unknown_energy Spec.active_family)).
    vm_compute. intros Hin.
    repeat (apply elem_of_cons in Hin as [Hin|Hin]; [discriminate Hin|]).
    inversion Hin.
  - apply (proj1 (proj2 (_score_lifestyle_defaults Spec.blank Spec.active_family))).
    reflexivity.
  - apply (proj1 (proj2 (proj2
             (_score_lifestyle_defaults Spec.golden Props.unknown_lifestyle)))).
    vm_compute. intros Hin.
    repeat (apply elem_of_cons in Hin as [Hin|Hin]; [discriminate Hin|]).
    inversion Hin.
  - apply (proj2 (proj2 (proj2 (_score_lifestyle_defaults Spec.golden Spec.blank)))).
    reflexivity.
Defined.

(** X8.  The behavioral sub-score is never below 30, so the floor of 10
    is never applied; it is 100 for every animal when the adopter has
    neither kids nor other pets, and 100 for every adopter when the animal
    is good with kids and with dogs. *)
Theorem _score_behavior_bounds (animal adopter : record) :
  30 <= CompatibilityScorer._score_behavior animal adopter <= 100
  /\ (lower (get adopter "has_kids" "no") <> "yes" ->
      lower (get adopter "has_other_pets" "no") <> "yes" ->
      CompatibilityScorer._score_behavior animal adopter = 100)
  /\ (lower (get animal "good_with_kids" "no") = "yes" ->
      lower (get animal "good_with_dogs" "no") = "yes" ->
      CompatibilityScorer._score_behavior animal adopter = 100).
Proof.
  unfold CompatibilityScorer._score_behavior.
  destruct (String.eqb_spec (lower (get adopter "has_kids" "no")) "yes"),
    (String.eqb_spec (lower (get adopter "has_other_pets" "no")) "yes"),
    (String.eqb_spec (lower (get animal "good_with_kids" "no")) "yes"),
    (String.eqb_spec (lower (get animal "good_with_dogs" "no")) "yes");
    simpl; repeat split; intros; try lia; try contradiction; congruence.
Qed.

(** The loner with an adopter without dependants, and the example animal
    with the example family. *)
Lemma _score_behavior_bounds_witness :
  CompatibilityScorer._score_behavior Spec.loner Props.no_dependants = 100
  /\ CompatibilityScorer._score_behavior Spec.golden Spec.active_family = 100.
Proof.
  split.
  - apply (proj1 (proj2 (_score_behavior_bounds Spec.loner Props.no_dependants)));
      vm_compute; discriminate.
  - apply (proj2 (proj2 (_score_behavior_bounds Spec.golden Spec.active_family)));
      vm_compute; reflexivity.
Defined.

(** * Further properties of the loader and the ranker *)

Section LoaderProperties.
Import Spec Props.

Lemma get_animal_in_skip before rows animal_id :
  Forall (other_id "animal_id" animal_id) before ->
  DataLoader.get_animal_in (before ++ rows) animal_id
  = DataLoader.get_animal_in rows animal_id.
Proof.
  induction 1 as [|row before [v [Hv Hne]] _ IH]; [reflexivity|].
  simpl. unfold getitem. rewrite Hv. simpl.
  destruct (String.eqb_spec v animal_id); [contradiction|exact IH].
Qed.

Lemma get_adopter_in_skip before rows adopter_id :
  Forall (other_id "adopter_id" adopter_id) before ->
  DataLoader.get_adopter_in (before ++ rows) adopter_id
  = DataLoader.get_adopter_in rows adopter_id.
Proof.
  induction 1 as [|row before [v [Hv Hne]] _ IH]; [reflexivity|].
  simpl. unfold getitem. rewrite Hv. simpl.
  destruct (String.eqb_spec v adopter_id); [contradiction|exact IH].
Qed.

Lemma for_each_Raise {A B} (f : A -> result B) before bad after e :
  Forall (fun x => exists y, f x = Ok y) before ->
  f bad = Raise e ->
  for_each f (before ++ bad :: after) = Raise e.
Proof.
  intros Hbefore Hbad.
  induction Hbefore as [|x before [y Hy] _ IH]; simpl.
  - rewrite Hbad. reflexivity.
  - rewrite Hy. simpl. rewrite IH. reflexivity.
Qed.

Lemma StronglySorted_app_elem {A} (R : A -> A -> Prop) l1 l2 x y :
  StronglySorted R (l1 ++ l2) -> x ∈ l1 -> y ∈ l2 -> R x y.
Proof.
  induction l1 as [|a l1 IH]; simpl; intros Hs Hx Hy; [inversion Hx|].
  apply StronglySorted_inv in Hs as [Hs Ha].
  apply elem_of_cons in Hx as [->|Hx]; [|eauto].
  rewrite Forall_forall in Ha. apply Ha, elem_of_app. right. exact Hy.
Qed.

(** Once the adopter is found, [find_matches] is the slice of the sorted
    list of the matches of all animals. *)
Lemma find_matches_resolved (dl : DataLoader.t) (adopter_id : string) (adopter : record) :
  Forall (fun animal => is_Some (animal !! "animal_id") /\ is_Some (animal !! "name"))
    (DataLoader.animals dl) ->
  DataLoader.get_adopter dl adopter_id = Ok (Some adopter) ->
  adopter !! "adopter_id" = Some adopter_id ->
  is_Some (adopter !! "name") ->
  exists all,
    Forall2 (match_of adopter) (DataLoader.animals dl) all
    /\ forall top_n,
         MatchingAgent.find_matches (MatchingAgent.__init__ dl) adopter_id top_n
         = Ok (slice_to (sort_reverse MatchingAgent.score all) top_n).
Proof.
  intros Hanimals Hget Hid Hname.
  destruct (for_each_Ok
              (MatchingAgent.score_animal (MatchingAgent.__init__ dl) adopter)
              (DataLoader.animals dl)) as [all [Hall Hmatches]].
  { eapply Forall_impl; [exact Hanimals|].
    intros animal Hanimal. apply score_animal_Ok; [assumption|].
    split; [rewrite Hid; eauto|assumption]. }
  exists all. split.
  - eapply Forall2_impl; [exact Hmatches|]. apply score_animal_match_of.
  - intros top_n. unfold MatchingAgent.find_matches, DataLoader.get_all_animals.
    simpl. rewrite Hget. simpl.
    rewrite bool_decide_eq_false_2
      by (intros ->; rewrite lookup_empty in Hid; discriminate).
    rewrite Hall. reflexivity.
Qed.

(** A found adopter row carries the id and belongs to the store. *)
Lemma get_adopter_in_found rows adopter_id adopter :
  DataLoader.get_adopter_in rows adopter_id = Ok (Some adopter) ->
  adopter ∈ rows /\ adopter !! "adopter_id" = Some adopter_id.
Proof.
  induction rows as [|row rows IH]; simpl; [discriminate|].
  unfold getitem. destruct (row !! "adopter_id") as [v|] eqn:Hv; simpl; [|discriminate].
  destruct (String.eqb_spec v adopter_id) as [->|Hne].
  - intros [= <-]. split; [left|exact Hv].
  - intros H. destruct (IH H) as [Hin Hid]. split; [right; exact Hin|exact Hid].
Qed.

Lemma get_animal_in_found rows animal_id animal :
  DataLoader.get_animal_in rows animal_id = Ok (Some animal) ->
  animal ∈ rows /\ animal !! "animal_id" = Some animal_id.
Proof.
  induction rows as [|row rows IH]; simpl; [discriminate|].
  unfold getitem. destruct (row !! "animal_id") as [v|] eqn:Hv; simpl; [|discriminate].
  destruct (String.eqb_spec v animal_id) as [->|Hne].
  - intros [= <-]. split; [left|exact Hv].
  - intros H. destruct (IH H) as [Hin Hid]. split; [right; exact Hin|exact Hid].
Qed.

End LoaderProperties.

(** X9.  [get_animal] walks the rows in file order.  With only rows of
    other ids before it, a row carrying the id is the one returned, so of
    two rows with the same id the first wins; a row without the animal_id
    column reached before any match makes the call raise KeyError; and
    when every row carries another id the result is None. *)
Theorem get_animal_first_match (dl : DataLoader.t) (animal_id : string) :
  (forall before row after,
     DataLoader.animals dl = (before ++ row :: after)%list ->
     Forall (Props.other_id "animal_id" animal_id) before ->
     (row !! "animal_id" = Some animal_id ->
      DataLoader.get_animal dl animal_id = Ok (Some row))
     /\ (row !! "animal_id" = None ->
         DataLoader.get_animal dl animal_id = Raise (KeyError "animal_id")))
  /\ (Forall (Props.other_id "animal_id" animal_id) (DataLoader.animals dl) ->
      DataLoader.get_animal dl animal_id = Ok None).
Proof.
  unfold DataLoader.get_animal. split.
  - intros before row after -> Hbefore.
    rewrite get_animal_in_skip by exact Hbefore. simpl. unfold getitem.
    split; intros ->; simpl; [|reflexivity].
    rewrite String.eqb_refl. reflexivity.
  - intros Hall. rewrite <- (app_nil_r (DataLoader.animals dl)).
    rewrite get_animal_in_skip by exact Hall. reflexivity.
Qed.

(** Two rows with id 1: the first is returned.  A row without id: the
    rows before it are still found, the rows after it are not.  An id
    no row carries. *)
Lemma get_animal_first_match_witness :
  DataLoader.get_animal Props.twin_shelter "1" = Ok (Some Spec.rex)
  /\ DataLoader.get_animal Props.stray_shelter "2" = Raise (KeyError "animal_id")
  /\ DataLoader.get_animal Spec.shelter "7" = Ok None.
Proof.
  assert (Hother : forall row id v,
            row !! "animal_id" = Some v -> v <> id -> Props.other_id "animal_id" id row)
    by (intros row id v Hv Hne; exists v; split; assumption).
  split; [|split].
  - apply (proj1 (proj1 (get_animal_first_match Props.twin_shelter "1")
                    [Spec.tom] Spec.rex [Props.rex_again] eq_refl
                    ltac:(repeat constructor; apply (Hother _ _ "2");
                          [reflexivity|discriminate]))).
    reflexivity.
  - apply (proj2 (proj1 (get_animal_first_match Props.stray_shelter "2")
                    [Spec.rex] Props.no_id [Spec.tom] eq_refl
                    ltac:(repeat constructor; apply (Hother _ _ "1");
                          [reflexivity|discriminate]))).
    reflexivity.
  - apply (proj2 (get_animal_first_match Spec.shelter "7")).
    repeat constructor.
    + apply (Hother _ _ "1"); [reflexivity|discriminate].
    + apply (Hother _ _ "2"); [reflexivity|discriminate].
    + apply (Hother _ _ "3"); [reflexivity|discriminate].
Defined.

(** X10.  [get_adopter] behaves alike on the adopter rows: the first row
    carrying the id is returned, a row without the adopter_id column
    reached before any match raises KeyError, and None is returned when
    every row carries another id. *)
Theorem get_adopter_first_match (dl : DataLoader.t) (adopter_id : string) :
  (forall before row after,
     DataLoader.adopters dl = (before ++ row :: after)%list ->
     Forall (Props.other_id "adopter_id" adopter_id) before ->
     (row !! "adopter_id" = Some adopter_id ->
      DataLoader.get_adopter dl adopter_id = Ok (Some row))
     /\ (row !! "adopter_id" = None ->
         DataLoader.get_adopter dl adopter_id = Raise (KeyError "adopter_id")))
  /\ (Forall (Props.other_id "adopter_id" adopter_id) (DataLoader.adopters dl) ->
      DataLoader.get_adopter dl adopter_id = Ok None).
Proof.
  unfold DataLoader.get_adopter. split.
  - intros before row after -> Hbefore.
    rewrite get_adopter_in_skip by exact Hbefore. simpl. unfold getitem.
    split; intros ->; simpl; [|reflexivity].
    rewrite String.eqb_refl. reflexivity.
  - intros Hall. rewrite <- (app_nil_r (DataLoader.adopters dl)).
    rewrite get_adopter_in_skip by exact Hall. reflexivity.
Qed.

(** Ann is found; an unknown id runs into the row without id. *)
Lemma get_adopter_first_match_witness :
  DataLoader.get_adopter Props.stray_shelter "1" = Ok (Some Spec.ann)
  /\ DataLoader.get_adopter Props.stray_shelter "7" = Raise (KeyError "adopter_id")
  /\ DataLoader.get_adopter Spec.shelter "7" = Ok None.
Proof.
  assert (Hann : Props.other_id "adopter_id" "7" Spec.ann)
    by (exists "1"; split; [reflexivity|discriminate]).
  split; [|split].
  - apply (proj1 (proj1 (get_adopter_first_match Props.stray_shelter "1")
                    [] Spec.ann [Props.no_id] eq_refl ltac:(constructor))).
    reflexivity.
  - apply (proj2 (proj1 (get_adopter_first_match Props.stray_shelter "7")
                    [Spec.ann] Props.no_id [] eq_refl
                    ltac:(repeat constructor; exact Hann))).
    reflexivity.
  - apply (proj2 (get_adopter_first_match Spec.shelter "7")).
    repeat constructor. exact Hann.
Defined.

Section RankerProperties.
Import Spec Props.

Lemma well_formed_adopter (dl : DataLoader.t) adopter_id adopter :
  well_formed dl ->
  DataLoader.get_adopter dl adopter_id = Ok (Some adopter) ->
  adopter !! "adopter_id" = Some adopter_id /\ is_Some (adopter !! "name").
Proof.
  intros [_ Hadopters] Hget.
  apply get_adopter_in_found in Hget as [Hin Hid]. split; [exact Hid|].
  rewrite Forall_forall in Hadopters. apply (Hadopters _ Hin).
Qed.

Lemma Forall2_elem_of_r {A B} (R : A -> B -> Prop) xs ys y :
  Forall2 R xs ys -> y ∈ ys -> exists x, x ∈ xs /\ R x y.
Proof.
  induction 1 as [|x0 y0 xs ys HR _ IH]; intros Hin; [inversion Hin|].
  apply elem_of_cons in Hin as [->|Hin].
  - exists x0. split; [left|exact HR].
  - destruct (IH Hin) as [x [Hx Hxy]]. exists x. split; [right; exact Hx|exact Hxy].
Qed.

End RankerProperties.

(** X11.  For a count [top_n] and an adopter that is found, over a store
    whose rows carry identity and name: [find_matches] returns exactly
    min(top_n, number of animals) matches; every returned match scores at
    least as high as every match left out; and every returned match
    carries the requested adopter id and is the match of an animal of the
    store. *)
Theorem find_matches_selects_best
    (dl : DataLoader.t) (adopter_id : string) (adopter : record) (top_n : Z) :
  Spec.well_formed dl ->
  DataLoader.get_adopter dl adopter_id = Ok (Some adopter) ->
  0 <= top_n ->
  exists all top,
    Forall2 (Spec.match_of adopter) (DataLoader.animals dl) all
    /\ MatchingAgent.find_matches (MatchingAgent.__init__ dl) adopter_id top_n = Ok top
    /\ Z.of_nat (length top) = Z.min top_n (Z.of_nat (length (DataLoader.animals dl)))
    /\ (forall m m', m ∈ top -> m' ∈ all ->
          m' ∈ top \/ MatchingAgent.score m' <= MatchingAgent.score m)
    /\ (forall m, m ∈ top ->
          MatchingAgent.adopter_id m = adopter_id
          /\ exists animal, animal ∈ DataLoader.animals dl
                            /\ Spec.match_of adopter animal m).
Proof.
  intros Hwf Hget Htop.
  destruct (well_formed_adopter dl adopter_id adopter Hwf Hget) as [Hid Hname].
  destruct (find_matches_resolved dl adopter_id adopter (proj1 Hwf) Hget Hid Hname)
    as [all [Hall Hfind]].
  set (ranked := sort_reverse MatchingAgent.score all).
  assert (Hperm : ranked ≡ₚ all) by apply sort_reverse_perm.
  exists all, (take (Z.to_nat top_n) ranked).
  split; [exact Hall|].
  split; [rewrite Hfind, slice_to_nonneg by exact Htop; reflexivity|].
  split.
  { rewrite length_take, Hperm, <- (Forall2_length _ _ _ Hall). lia. }
  split.
  - intros m m' Hm Hm'.
    rewrite <- Hperm, <- (take_drop (Z.to_nat top_n) ranked) in Hm'.
    apply elem_of_app in Hm' as [Hm'|Hm']; [left; exact Hm'|right].
    apply (StronglySorted_app_elem
             (fun m1 m2 => MatchingAgent.score m2 <= MatchingAgent.score m1)
             (take (Z.to_nat top_n) ranked) (drop (Z.to_nat top_n) ranked));
      [|exact Hm|exact Hm'].
    rewrite take_drop. apply sort_reverse_sorted.
  - intros m Hm.
    assert (Hin : m ∈ all).
    { rewrite <- Hperm, <- (take_drop (Z.to_nat top_n) ranked).
      apply elem_of_app. left. exact Hm. }
    destruct (Forall2_elem_of_r _ _ _ _ Hall Hin) as [animal [Hanimal Hmatch]].
    split; [|exists animal; split; assumption].
    destruct Hmatch as (_ & _ & _ & Hd & _). congruence.
Qed.

(** The small shelter, two matches asked for. *)
Lemma find_matches_selects_best_witness :
  exists all top,
    Forall2 (Spec.match_of Spec.ann) (DataLoader.animals Spec.shelter) all
    /\ MatchingAgent.find_matches (MatchingAgent.__init__ Spec.shelter) "1" 2 = Ok top
    /\ Z.of_nat (length top) = Z.min 2 (Z.of_nat (length (DataLoader.animals Spec.shelter)))
    /\ (forall m m', m ∈ top -> m' ∈ all ->
          m' ∈ top \/ MatchingAgent.score m' <= MatchingAgent.score m)
    /\ (forall m, m ∈ top ->
          MatchingAgent.adopter_id m = "1"
          /\ exists animal, animal ∈ DataLoader.animals Spec.shelter
                            /\ Spec.match_of Spec.ann animal m).
Proof.
  apply (find_matches_selects_best Spec.shelter "1" Spec.ann 2).
  - split; repeat constructor; vm_compute; eexists; reflexivity.
  - reflexivity.
  - lia.
Defined.

(** X12.  Whatever the bound, [find_matches] returns a prefix of one and
    the same full ranking: its first [k] items for a bound [k >= 0]
    (nothing for 0), and all but its last [k] items for a bound [-k],
    as the slice [matches[:top_n]] does. *)
Theorem find_matches_any_bound
    (dl : DataLoader.t) (adopter_id : string) (adopter : record) :
  Spec.well_formed dl ->
  DataLoader.get_adopter dl adopter_id = Ok (Some adopter) ->
  exists ranked,
    length ranked = length (DataLoader.animals dl)
    /\ MatchingAgent.find_matches (MatchingAgent.__init__ dl) adopter_id
         (Z.of_nat (length (DataLoader.animals dl))) = Ok ranked
    /\ MatchingAgent.find_matches (MatchingAgent.__init__ dl) adopter_id 0 = Ok []
    /\ (forall k : nat,
          MatchingAgent.find_matches (MatchingAgent.__init__ dl) adopter_id (Z.of_nat k)
          = Ok (take k ranked))
    /\ (forall k : nat, (0 < k)%nat ->
          MatchingAgent.find_matches (MatchingAgent.__init__ dl) adopter_id (- Z.of_nat k)
          = Ok (take (length ranked - k) ranked)).
Proof.
  intros Hwf Hget.
  destruct (well_formed_adopter dl adopter_id adopter Hwf Hget) as [Hid Hname].
  destruct (find_matches_resolved dl adopter_id adopter (proj1 Hwf) Hget Hid Hname)
    as [all [Hall Hfind]].
  set (ranked := sort_reverse MatchingAgent.score all) in *.
  assert (Hlen : length ranked = length (DataLoader.animals dl)).
  { unfold ranked. rewrite sort_reverse_perm. symmetry.
    apply (Forall2_length _ _ _ Hall). }
  exists ranked. split; [exact Hlen|].
  split.
  { rewrite Hfind, slice_to_nonneg by lia. rewrite Nat2Z.id, <- Hlen.
    rewrite firstn_all. reflexivity. }
  split; [rewrite Hfind; reflexivity|].
  split.
  - intros k. rewrite Hfind, slice_to_nonneg by lia. rewrite Nat2Z.id. reflexivity.
  - intros k Hk. rewrite Hfind. unfold slice_to.
    destruct (Z.ltb_spec (- Z.of_nat k) 0); [|lia].
    do 2 f_equal. lia.
Qed.

(** The small shelter: bounds 3, 2 and -1. *)
Lemma find_matches_any_bound_witness :
  exists ranked,
    length ranked = length (DataLoader.animals Spec.shelter)
    /\ MatchingAgent.find_matches (MatchingAgent.__init__ Spec.shelter) "1"
         (Z.of_nat (length (DataLoader.animals Spec.shelter))) = Ok ranked
    /\ MatchingAgent.find_matches (MatchingAgent.__init__ Spec.shelter) "1" 0 = Ok []
    /\ (forall k : nat,
          MatchingAgent.find_matches (MatchingAgent.__init__ Spec.shelter) "1" (Z.of_nat k)
          = Ok (take k ranked))
    /\ (forall k : nat, (0 < k)%nat ->
          MatchingAgent.find_matches (MatchingAgent.__init__ Spec.shelter) "1" (- Z.of_nat k)
          = Ok (take (length ranked - k) ranked)).
Proof.
  apply (find_matches_any_bound Spec.shelter "1" Spec.ann).
  - split; repeat constructor; vm_compute; eexists; reflexivity.
  - reflexivity.
Defined.

(** X13.  One animal row without its animal_id or name column makes
    [find_matches] raise KeyError for an adopter that is found, whatever
    the bound: every animal is scored before the list is cut, so the
    row fails the call even when it would not be among the top matches. *)
Theorem find_matches_malformed_row
    (dl : DataLoader.t) (adopter_id : string) (adopter : record)
    (before : list record) (bad : record) (after : list record) (top_n : Z) :
  DataLoader.get_adopter dl adopter_id = Ok (Some adopter) ->
  is_Some (adopter !! "name") ->
  DataLoader.animals dl = (before ++ bad :: after)%list ->
  Forall (fun animal => is_Some (animal !! "animal_id") /\ is_Some (animal !! "name"))
    before ->
  (bad !! "animal_id" = None ->
   MatchingAgent.find_matches (MatchingAgent.__init__ dl) adopter_id top_n
   = Raise (KeyError "animal_id"))
  /\ (is_Some (bad !! "animal_id") -> bad !! "name" = None ->
      MatchingAgent.find_matches (MatchingAgent.__init__ dl) adopter_id top_n
      = Raise (KeyError "name")).
Proof.
  intros Hget Hname Hrows Hbefore.
  destruct (get_adopter_in_found _ _ _ Hget) as [_ Hid].
  assert (Hfind : forall e,
    MatchingAgent.score_animal (MatchingAgent.__init__ dl) adopter bad = Raise e ->
    MatchingAgent.find_matches (MatchingAgent.__init__ dl) adopter_id top_n = Raise e).
  { intros e Hbad.
    unfold MatchingAgent.find_matches, DataLoader.get_all_animals. simpl.
    rewrite Hget. simpl.
    rewrite bool_decide_eq_false_2
      by (intros ->; rewrite lookup_empty in Hid; discriminate).
    rewrite Hrows, (for_each_Raise _ before bad after e); [reflexivity| |exact Hbad].
    eapply Forall_impl; [exact Hbefore|].
    intros animal Hanimal. apply score_animal_Ok; [assumption|].
    split; [rewrite Hid; eauto|assumption]. }
  split.
  - intros Hno. apply Hfind. unfold MatchingAgent.score_animal. simpl.
    rewrite calculate_compatibility_exact. simpl. unfold getitem. rewrite Hno.
    reflexivity.
  - intros [v Hv] Hno. apply Hfind. unfold MatchingAgent.score_animal. simpl.
    rewrite calculate_compatibility_exact. simpl. unfold getitem. rewrite Hv. simpl.
    rewrite Hno. reflexivity.
Qed.

(** A row without id after Rex, and a row without name after Rex; one
    match asked for. *)
Lemma find_matches_malformed_row_witness :
  MatchingAgent.find_matches (MatchingAgent.__init__ Props.stray_shelter) "1" 1
  = Raise (KeyError "animal_id")
  /\ MatchingAgent.find_matches (MatchingAgent.__init__ Props.broken_shelter) "1" 1
     = Raise (KeyError "name").
Proof.
  assert (Hrex : Forall (fun animal : record =>
                           is_Some (animal !! "animal_id") /\ is_Some (animal !! "name"))
                   [Spec.rex])
    by (repeat constructor; vm_compute; eexists; reflexivity).
  split.
  - apply (proj1 (find_matches_malformed_row Props.stray_shelter "1" Spec.ann
                    [Spec.rex] Props.no_id [Spec.tom] 1 eq_refl
                    ltac:(vm_compute; eexists; reflexivity) eq_refl Hrex)).
    reflexivity.
  - apply (proj2 (find_matches_malformed_row Props.broken_shelter "1" Spec.ann
                    [Spec.rex] Props.nameless [Spec.tom] 1 eq_refl
                    ltac:(vm_compute; eexists; reflexivity) eq_refl Hrex)).
    + vm_compute. eexists. reflexivity.
    + reflexivity.
Defined.

(** X14.  [get_detailed_match] and [find_matches] agree: for an animal and
    an adopter that are found and carry their names, the detailed
    analysis holds the same names, score and reasoning as the match the
    ranker builds for the pair, with the recommendation derived from
    that score.  When either id is not found (and no row lacks its id
    column) the result is the error dict. *)
Theorem get_detailed_match_agrees
    (dl : DataLoader.t) (animal_id adopter_id : string) :
  (forall animal adopter,
     DataLoader.get_animal dl animal_id = Ok (Some animal) ->
     DataLoader.get_adopter dl adopter_id = Ok (Some adopter) ->
     is_Some (animal !! "name") ->
     is_Some (adopter !! "name") ->
     exists m,
       MatchingAgent.score_animal (MatchingAgent.__init__ dl) adopter animal = Ok m
       /\ MatchingAgent.animal_id m = animal_id
       /\ MatchingAgent.adopter_id m = adopter_id
       /\ MatchingAgent.get_detailed_match (MatchingAgent.__init__ dl)
            animal_id adopter_id
          = Ok (MatchingAgent.Detail animal_id (MatchingAgent.animal_name m)
                  adopter_id (MatchingAgent.adopter_name m)
                  (MatchingAgent.score m) (MatchingAgent.reasoning m)
                  (MatchingAgent._get_recommendation (MatchingAgent.score m))
                  animal adopter))
  /\ (forall found,
        DataLoader.get_animal dl animal_id = Ok None ->
        DataLoader.get_adopter dl adopter_id = Ok found ->
        MatchingAgent.get_detailed_match (MatchingAgent.__init__ dl)
          animal_id adopter_id
        = Ok (MatchingAgent.DetailError "Animal or adopter not found"))
  /\ (forall found,
        DataLoader.get_animal dl animal_id = Ok found ->
        DataLoader.get_adopter dl adopter_id = Ok None ->
        MatchingAgent.get_detailed_match (MatchingAgent.__init__ dl)
          animal_id adopter_id
        = Ok (MatchingAgent.DetailError "Animal or adopter not found")).
Proof.
  split; [|split].
  - intros animal adopter Ha Hd [a_name Han] [d_name Hdn].
    destruct (get_animal_in_found _ _ _ Ha) as [_ Haid].
    destruct (get_adopter_in_found _ _ _ Hd) as [_ Hdid].
    eexists. split; [|split; [|split]].
    + unfold MatchingAgent.score_animal. simpl.
      rewrite calculate_compatibility_exact. simpl. unfold getitem.
      rewrite Haid, Han, Hdid, Hdn. reflexivity.
    + reflexivity.
    + reflexivity.
    + unfold MatchingAgent.get_detailed_match. simpl.
      rewrite Ha, Hd. simpl.
      rewrite !bool_decide_eq_false_2
        by (intros ->; rewrite lookup_empty in *; discriminate).
      simpl. rewrite calculate_compatibility_exact. simpl. unfold getitem.
      rewrite Han, Hdn. reflexivity.
  - intros found Ha Hd. unfold MatchingAgent.get_detailed_match. simpl.
    rewrite Ha, Hd. reflexivity.
  - intros found Ha Hd. unfold MatchingAgent.get_detailed_match. simpl.
    rewrite Ha, Hd. simpl. rewrite orb_true_r. reflexivity.
Qed.

(** Tom and Ann of the small shelter; an animal id that is not there. *)
Lemma get_detailed_match_agrees_witness :
  (exists m,
     MatchingAgent.score_animal (MatchingAgent.__init__ Spec.shelter) Spec.ann Spec.tom
     = Ok m
     /\ MatchingAgent.animal_id m = "2"
     /\ MatchingAgent.adopter_id m = "1"
     /\ MatchingAgent.get_detailed_match (MatchingAgent.__init__ Spec.shelter) "2" "1"
        = Ok (MatchingAgent.Detail "2" (MatchingAgent.animal_name m)
                "1" (MatchingAgent.adopter_name m)
                (MatchingAgent.score m) (MatchingAgent.reasoning m)
                (MatchingAgent._get_recommendation (MatchingAgent.score m))
                Spec.tom Spec.ann))
  /\ MatchingAgent.get_detailed_match (MatchingAgent.__init__ Spec.shelter) "7" "1"
     = Ok (MatchingAgent.DetailError "Animal or adopter not found")
  /\ MatchingAgent.get_detailed_match (MatchingAgent.__init__ Spec.shelter) "2" "7"
     = Ok (MatchingAgent.DetailError "Animal or adopter not found").
Proof.
  split; [|split].
  - apply (proj1 (get_detailed_match_agrees Spec.shelter "2" "1") Spec.tom Spec.ann);
      try reflexivity; vm_compute; eexists; reflexivity.
  - apply (proj1 (proj2 (get_detailed_match_agrees Spec.shelter "7" "1"))
             (Some Spec.ann)); reflexivity.
  - apply (proj2 (proj2 (get_detailed_match_agrees Spec.shelter "2" "7"))
             (Some Spec.tom)); reflexivity.
Defined.

(** * Further properties of sessions and the store *)

(** X15.  [add_match] appends with neither cap nor check for duplicates:
    after any sequence of calls the session holds its earlier matches
    followed by the added ones, in call order, and [to_dict] lists them
    so; no other attribute changes. *)
Theorem add_match_appends (self : AdoptionSession.t) (added : list AdoptionMatch.t) :
  let self' := foldl (fun s m => AdoptionSession.add_match m s) self added in
  AdoptionSession.matches self' = (AdoptionSession.matches self ++ added)%list
  /\ AdoptionSession.d_matches (AdoptionSession.to_dict self')
     = (AdoptionSession.d_matches (AdoptionSession.to_dict self)
        ++ (AdoptionMatch.to_dict <$> added))%list
  /\ AdoptionSession.session_id self' = AdoptionSession.session_id self
  /\ AdoptionSession.adopter_id self' = AdoptionSession.adopter_id self
  /\ AdoptionSession.created_at self' = AdoptionSession.created_at self
  /\ AdoptionSession.selected_animal self' = AdoptionSession.selected_animal self
  /\ AdoptionSession.adoption_date self' = AdoptionSession.adoption_date self
  /\ AdoptionSession.feedback self' = AdoptionSession.feedback self
  /\ AdoptionSession.session_state self' = AdoptionSession.session_state self.
Proof.
  intros self'.
  assert (Hmatches : AdoptionSession.matches self'
                     = (AdoptionSession.matches self ++ added)%list).
  { subst self'. revert self. induction added as [|m added IH]; intros self; simpl.
    - rewrite app_nil_r. reflexivity.
    - rewrite IH. simpl. rewrite <- app_assoc. reflexivity. }
  split; [exact Hmatches|].
  split.
  { change (AdoptionMatch.to_dict <$> AdoptionSession.matches self'
            = ((AdoptionMatch.to_dict <$> AdoptionSession.matches self)
               ++ (AdoptionMatch.to_dict <$> added))%list).
    rewrite Hmatches. apply fmap_app. }
  clear Hmatches. subst self'. revert self.
  induction added as [|m added IH]; intros self; simpl.
  - repeat split; reflexivity.
  - destruct (IH (AdoptionSession.add_match m self))
      as (H3 & H4 & H5 & H6 & H7 & H8 & H9).
    rewrite H3, H4, H5, H6, H7, H8, H9. repeat split; reflexivity.
Qed.

(** X16.  [select_animal], [add_feedback] and [complete_adoption] overwrite:
    a second call leaves the session exactly as if the first had not been
    made, with the value and the time stamp of the second call only. *)
Theorem session_calls_overwrite
    (self : AdoptionSession.t) (c c' : Z) (first second : string) :
  AdoptionSession.select_animal second (AdoptionSession.select_animal first self c).1 c'
  = AdoptionSession.select_animal second self c'
  /\ AdoptionSession.add_feedback second (AdoptionSession.add_feedback first self c).1 c'
     = AdoptionSession.add_feedback second self c'
  /\ AdoptionSession.complete_adoption (AdoptionSession.complete_adoption self c).1 c'
     = AdoptionSession.complete_adoption self c'.
Proof.
  unfold AdoptionSession.select_animal, AdoptionSession.add_feedback,
    AdoptionSession.complete_adoption. simpl.
  rewrite !insert_insert_eq. repeat split; reflexivity.
Qed.

(** X17.  Calls that set different attributes do not disturb each other:
    [add_match] commutes with [select_animal], [add_feedback] and
    [complete_adoption], and these three commute with one another, when
    each call reads the same clock value in both orders. *)
Theorem session_calls_commute
    (self : AdoptionSession.t) (m : AdoptionMatch.t) (animal_id text : string)
    (c1 c2 c3 : Z) :
  AdoptionSession.add_match m (AdoptionSession.select_animal animal_id self c1).1
  = (AdoptionSession.select_animal animal_id (AdoptionSession.add_match m self) c1).1
  /\ AdoptionSession.add_match m (AdoptionSession.add_feedback text self c2).1
     = (AdoptionSession.add_feedback text (AdoptionSession.add_match m self) c2).1
  /\ AdoptionSession.add_match m (AdoptionSession.complete_adoption self c3).1
     = (AdoptionSession.complete_adoption (AdoptionSession.add_match m self) c3).1
  /\ (AdoptionSession.add_feedback text
        (AdoptionSession.select_animal animal_id self c1).1 c2).1
     = (AdoptionSession.select_animal animal_id
          (AdoptionSession.add_feedback text self c2).1 c1).1
  /\ (AdoptionSession.complete_adoption
        (AdoptionSession.select_animal animal_id self c1).1 c3).1
     = (AdoptionSession.select_animal animal_id
          (AdoptionSession.complete_adoption self c3).1 c1).1
  /\ (AdoptionSession.complete_adoption
        (AdoptionSession.add_feedback text self c2).1 c3).1
     = (AdoptionSession.add_feedback text
          (AdoptionSession.complete_adoption self c3).1 c2).1.
Proof.
  unfold AdoptionSession.select_animal, AdoptionSession.add_feedback,
    AdoptionSession.complete_adoption, AdoptionSession.add_match. simpl.
  repeat split; try reflexivity; f_equal; apply insert_insert_ne; discriminate.
Qed.

Section StoreProperties.
Import Spec Props.

Lemma dict_get_set_eq {V} key (v : V) d :
  MemoryStore.dict_get key (MemoryStore.dict_set key v d) = Some v.
Proof.
  induction d as [|[k old] d IH]; simpl.
  - rewrite String.eqb_refl. reflexivity.
  - destruct (String.eqb_spec k key) as [->|Hne]; simpl.
    + rewrite String.eqb_refl. reflexivity.
    + destruct (String.eqb_spec k key); [contradiction|exact IH].
Qed.

Lemma dict_get_set_ne {V} key key' (v : V) d :
  key' <> key ->
  MemoryStore.dict_get key' (MemoryStore.dict_set key v d) = MemoryStore.dict_get key' d.
Proof.
  intros Hne. induction d as [|[k old] d IH]; simpl.
  - destruct (String.eqb_spec key key'); [congruence|reflexivity].
  - destruct (String.eqb_spec k key) as [->|Hk]; simpl.
    + destruct (String.eqb_spec key key'); [congruence|reflexivity].
    + destruct (String.eqb_spec k key'); [reflexivity|exact IH].
Qed.

Lemma keys_dict_set_old {V} key (v : V) d :
  key ∈ keys d -> keys (MemoryStore.dict_set key v d) = keys d.
Proof.
  unfold keys. induction d as [|[k old] d IH]; simpl; intros Hin; [inversion Hin|].
  destruct (String.eqb_spec k key) as [->|Hne]; [reflexivity|].
  simpl. f_equal. apply IH.
  apply elem_of_cons in Hin as [Heq|Hin]; [congruence|exact Hin].
Qed.

Lemma keys_dict_set_new {V} key (v : V) d :
  key ∉ keys d -> keys (MemoryStore.dict_set key v d) = (keys d ++ [key])%list.
Proof.
  unfold keys. induction d as [|[k old] d IH]; simpl; intros Hnot; [reflexivity|].
  destruct (String.eqb_spec k key) as [->|Hne].
  - exfalso. apply Hnot. left.
  - simpl. f_equal. apply IH. intros Hin. apply Hnot. right. exact Hin.
Qed.

Lemma dict_set_elem_of {V} key (v : V) d :
  (key, v) ∈ MemoryStore.dict_set key v d.
Proof.
  induction d as [|[k old] d IH]; simpl; [left|].
  destruct (String.eqb_spec k key) as [->|Hne]; [left|right; exact IH].
Qed.

Lemma sum_scores_not_int acc history :
  Exists (fun m => forall n, get m "score" (VInt 0) <> VInt n) history ->
  MemoryStore.sum_scores acc history = Raise TypeError.
Proof.
  intros H. revert acc.
  induction H as [m history Hm|m history _ IH]; intros acc; simpl.
  - destruct (get m "score" (VInt 0)) as [| |n] eqn:E; simpl; try reflexivity.
    exfalso. apply (Hm n). reflexivity.
  - destruct (get m "score" (VInt 0)); simpl; try reflexivity. apply IH.
Qed.

Lemma remove_dups_bounds {A} `{EqDecision A} (l : list A) :
  (length (remove_dups l) <= length l)%nat
  /\ (l <> [] -> 1 <= length (remove_dups l))%nat.
Proof.
  split.
  - induction l as [|x l IH]; simpl; [lia|].
    destruct (decide_rel elem_of x l); simpl; lia.
  - intros Hne. destruct (remove_dups l) as [|y l'] eqn:E; simpl; [|lia].
    destruct l as [|x l]; [contradiction|].
    assert (Hin : x ∈ remove_dups (x :: l)) by (apply elem_of_remove_dups; left).
    rewrite E in Hin. inversion Hin.
Qed.

(** Writing into an object changes the log at the positions that
    refer to it, and nowhere else. *)
Lemma omap_lookup_alter_ne (f : entry -> entry) (l : nat) (dicts : gmap nat entry)
    (refs : list nat) :
  l ∉ refs ->
  omap (fun r => alter f l dicts !! r) refs = omap (fun r => dicts !! r) refs.
Proof.
  induction refs as [|r refs IH]; intros Hl; [reflexivity|].
  apply not_elem_of_cons in Hl as [Hne Hl]. simpl.
  rewrite lookup_alter_ne by congruence.
  destruct (dicts !! r); [f_equal|]; apply IH, Hl.
Qed.

Lemma omap_lookup_live (dicts : gmap nat entry) (refs : list nat) (i : nat) :
  Forall (fun l => is_Some (dicts !! l)) refs ->
  omap (fun r => dicts !! r) refs !! i = refs !! i ≫= (fun l => dicts !! l).
Proof.
  intros H. revert i.
  induction H as [|l refs [d Hd] _ IH]; intros i; [destruct i; reflexivity|].
  cbn [omap list_omap]. rewrite Hd.
  destruct i as [|i]; simpl; [symmetry; exact Hd|apply IH].
Qed.

Lemma Forall_live_alter (f : entry -> entry) (l : nat) (dicts : gmap nat entry)
    (refs : list nat) :
  Forall (fun r => is_Some (dicts !! r)) refs ->
  Forall (fun r => is_Some (alter f l dicts !! r)) refs.
Proof.
  intros H. eapply Forall_impl; [exact H|]. intros r [d Hd].
  destruct (decide (l = r)) as [->|Hne].
  - rewrite lookup_alter_eq, Hd. eexists. reflexivity.
  - rewrite lookup_alter_ne by exact Hne. eexists. exact Hd.
Qed.

End StoreProperties.

(** X18.  [create_session] registers a new object under the id: the
    reference it returns is the one [get_session] then finds, it was not
    in use before, and the object is a session with the two ids, no
    matches, no selection and no feedback; lookups of other ids, the
    other session objects and the match history are untouched. *)
Theorem create_session_then_get
    (self : MemoryStore.t) (session_id adopter_id : string) (w : World.t) :
  let '(session, self', w') := MemoryStore.create_session self session_id adopter_id w in
  MemoryStore.get_session self' session_id = Some session
  /\ (forall other, other <> session_id ->
        MemoryStore.get_session self' other = MemoryStore.get_session self other)
  /\ World.heap w !! session = None
  /\ World.heap w' !! session =
       Some {| AdoptionSession.session_id := session_id;
               AdoptionSession.adopter_id := adopter_id;
               AdoptionSession.created_at := World.time w;
               AdoptionSession.matches := [];
               AdoptionSession.selected_animal := None;
               AdoptionSession.adoption_date := None;
               AdoptionSession.feedback := "";
               AdoptionSession.session_state := ∅ |}
  /\ (forall other : nat, other <> session ->
        World.heap w' !! other = World.heap w !! other)
  /\ MemoryStore.match_history self' = MemoryStore.match_history self.
Proof.
  unfold MemoryStore.create_session, World.new, MemoryStore.save_to_file,
    World.read_clock, World.write_file, MemoryStore.get_session. simpl.
  split; [apply dict_get_set_eq|].
  split; [intros other Hne; apply dict_get_set_ne; exact Hne|].
  split; [apply not_elem_of_dom, is_fresh|].
  split; [apply lookup_insert_eq|].
  split; [|reflexivity].
  intros other Hne. apply lookup_insert_ne. congruence.
Qed.

(** A fresh store, one session created, another id looked up. *)
Lemma create_session_then_get_witness :
  let '(session, self', w') :=
    MemoryStore.create_session Spec.fresh_store "sess_001" "1" World.initial in
  MemoryStore.get_session self' "sess_001" = Some session
  /\ MemoryStore.get_session self' "sess_002"
     = MemoryStore.get_session Spec.fresh_store "sess_002"
  /\ World.heap w' !! (session + 1)%nat = World.heap World.initial !! (session + 1)%nat.
Proof.
  pose proof (create_session_then_get Spec.fresh_store "sess_001" "1" World.initial) as H.
  destruct (MemoryStore.create_session Spec.fresh_store "sess_001" "1" World.initial)
    as [[session self'] w'].
  destruct H as (H1 & H2 & _ & _ & H5 & _).
  split; [exact H1|]. split; [apply H2; discriminate|apply H5; lia].
Defined.

(** X19.  Session ids stay unique in the store: creating a session under
    an id already present replaces that entry in place (the store does
    not grow and the order of ids is kept), creating one under a new id
    appends it. *)
Theorem create_session_keeps_ids_unique
    (self : MemoryStore.t) (session_id adopter_id : string) (w : World.t) :
  NoDup (Props.keys (MemoryStore.sessions self)) ->
  let self' := (MemoryStore.create_session self session_id adopter_id w).1.2 in
  NoDup (Props.keys (MemoryStore.sessions self'))
  /\ (session_id ∈ Props.keys (MemoryStore.sessions self) ->
      Props.keys (MemoryStore.sessions self') = Props.keys (MemoryStore.sessions self))
  /\ (session_id ∉ Props.keys (MemoryStore.sessions self) ->
      Props.keys (MemoryStore.sessions self')
      = (Props.keys (MemoryStore.sessions self) ++ [session_id])%list).
Proof.
  intros Hnodup. unfold MemoryStore.create_session, World.new. simpl.
  split; [|split].
  - destruct (decide (session_id ∈ Props.keys (MemoryStore.sessions self))) as [Hin|Hnot].
    + rewrite keys_dict_set_old by exact Hin. exact Hnodup.
    + rewrite keys_dict_set_new by exact Hnot.
      apply NoDup_app. split; [exact Hnodup|].
      split; [|apply NoDup_singleton].
      intros k Hk Hk'. apply list_elem_of_singleton in Hk'. subst k. contradiction.
  - apply keys_dict_set_old.
  - apply keys_dict_set_new.
Qed.

(** A fresh store, then the same id once more. *)
Lemma create_session_keeps_ids_unique_witness :
  NoDup (Props.keys (MemoryStore.sessions
           (MemoryStore.create_session Spec.opened.1.2 "sess_001" "2" Spec.opened.2).1.2))
  /\ Props.keys (MemoryStore.sessions
       (MemoryStore.create_session Spec.opened.1.2 "sess_001" "2" Spec.opened.2).1.2)
     = Props.keys (MemoryStore.sessions Spec.opened.1.2)
  /\ Props.keys (MemoryStore.sessions
       (MemoryStore.create_session Spec.fresh_store "sess_001" "1" World.initial).1.2)
     = (Props.keys (MemoryStore.sessions Spec.fresh_store) ++ ["sess_001"])%list.
Proof.
  assert (Hopened : NoDup (Props.keys (MemoryStore.sessions Spec.opened.1.2)))
    by (vm_compute; repeat constructor; set_solver).
  assert (Hfresh : NoDup (Props.keys (MemoryStore.sessions Spec.fresh_store)))
    by (vm_compute; constructor).
  split; [|split].
  - apply (proj1 (create_session_keeps_ids_unique Spec.opened.1.2 "sess_001" "2"
                    Spec.opened.2 Hopened)).
  - apply (proj1 (proj2 (create_session_keeps_ids_unique Spec.opened.1.2 "sess_001" "2"
                           Spec.opened.2 Hopened))).
    vm_compute. left.
  - apply (proj2 (proj2 (create_session_keeps_ids_unique Spec.fresh_store "sess_001" "1"
                           World.initial Hfresh))).
    vm_compute. intros H. inversion H.
Defined.

(** X20.  Restart of the store on its file.  Whatever file the
    constructor finds, it restores no session: a store constructed on
    the file another store has just saved starts with that store's
    match-history log and with no sessions at all (taking the json
    library to read back the document it wrote).  On a missing file, on
    text that is not JSON and on an object without a log the store
    starts empty.  The other errors are not caught: bytes that are not
    text make the constructor raise UnicodeDecodeError, and JSON that is
    not an object makes it raise AttributeError. *)
Theorem restart_keeps_history_only (self : MemoryStore.t) (w : World.t) (path : string) :
  let empty :=
    {| MemoryStore.storage_file := path; MemoryStore.sessions := [];
       MemoryStore.match_history := [] |} in
  MemoryStore.__init__ (MemoryStore.storage_file self) (MemoryStore.save_to_file self w)
  = Done {| MemoryStore.storage_file := MemoryStore.storage_file self;
            MemoryStore.sessions := [];
            MemoryStore.match_history := MemoryStore.match_history self |}
  /\ (forall d, World.files w !! path = Some (Json d) ->
      MemoryStore.__init__ path w
      = Done {| MemoryStore.storage_file := path; MemoryStore.sessions := [];
                MemoryStore.match_history := doc_match_history d |})
  /\ (World.files w !! path = None \/ World.files w !! path = Some Corrupt
      \/ World.files w !! path = Some Bare ->
      MemoryStore.__init__ path w = Done empty)
  /\ (World.files w !! path = Some Undecodable ->
      MemoryStore.__init__ path w = Failed UnicodeDecodeError)
  /\ (World.files w !! path = Some NotObject ->
      MemoryStore.__init__ path w = Failed AttributeError)
  /\ (forall store, MemoryStore.__init__ path w = Done store ->
      MemoryStore.sessions store = []).
Proof.
  cbv zeta. split; [|split; [|split; [|split; [|split]]]].
  - unfold MemoryStore.__init__, MemoryStore.load_from_file, MemoryStore.save_to_file,
      World.read_clock, World.write_file. simpl.
    rewrite lookup_insert_eq. reflexivity.
  - intros d H. unfold MemoryStore.__init__, MemoryStore.load_from_file. simpl.
    rewrite H. reflexivity.
  - unfold MemoryStore.__init__, MemoryStore.load_from_file. simpl.
    intros [-> | [-> | ->]]; reflexivity.
  - unfold MemoryStore.__init__, MemoryStore.load_from_file. simpl.
    intros ->. reflexivity.
  - unfold MemoryStore.__init__, MemoryStore.load_from_file. simpl.
    intros ->. reflexivity.
  - intros store. unfold MemoryStore.__init__, MemoryStore.load_from_file. simpl.
    destruct (World.files w !! path) as [[d| | | |]|]; intros [= <-]; reflexivity.
Qed.

(** No file at all, a file that is not JSON, and a file that is not
    text. *)
Lemma restart_keeps_history_only_witness :
  MemoryStore.__init__ "sessions.json" World.initial = Done Spec.fresh_store
  /\ MemoryStore.__init__ "sessions.json"
       {| World.time := 0; World.heap := ∅;
          World.files := {[ "sessions.json" := Corrupt ]} |}
     = Done Spec.fresh_store
  /\ MemoryStore.__init__ "sessions.json"
       {| World.time := 0; World.heap := ∅;
          World.files := {[ "sessions.json" := Undecodable ]} |}
     = Failed UnicodeDecodeError.
Proof.
  split; [|split].
  - apply (proj1 (proj2 (proj2 (restart_keeps_history_only Spec.fresh_store World.initial
                                  "sessions.json")))).
    left. reflexivity.
  - apply (proj1 (proj2 (proj2 (restart_keeps_history_only Spec.fresh_store
                    {| World.time := 0; World.heap := ∅;
                       World.files := {[ "sessions.json" := Corrupt ]} |}
                    "sessions.json")))).
    right. left. reflexivity.
  - apply (proj1 (proj2 (proj2 (proj2 (restart_keeps_history_only Spec.fresh_store
                    {| World.time := 0; World.heap := ∅;
                       World.files := {[ "sessions.json" := Undecodable ]} |}
                    "sessions.json"))))).
    reflexivity.
Defined.

(** X21.  [record_match] sets the 'timestamp' of the caller's dict to
    the time of the call, in the object itself, and appends that object
    to the log; no other object changes, the sessions stay, and the
    state is saved.  For a dict that is not yet in the log, the log
    grows by exactly the stamped entry and the earlier entries are
    unchanged: the call is the one on values, and the history of an
    adopter grows by this entry when its adopter_id is that adopter, and
    not at all otherwise.  For a dict that is in the log already, every
    earlier position that holds it shows the new timestamp as well. *)
Theorem record_match_appends
    (self : SharedLog.t) (match_data : nat) (d : entry) (dicts : gmap nat entry)
    (w : World.t) :
  dicts !! match_data = Some d ->
  Forall (fun l => is_Some (dicts !! l)) (SharedLog.match_history self) ->
  let '(self', dicts', w') := SharedLog.record_match self match_data dicts w in
  let stamped := <["timestamp" := VStr (Datetime.isoformat (World.time w))]> d in
  dicts' !! match_data = Some stamped
  /\ (forall l, l <> match_data -> dicts' !! l = dicts !! l)
  /\ SharedLog.match_history self'
     = (SharedLog.match_history self ++ [match_data])%list
  /\ SharedLog.sessions self' = SharedLog.sessions self
  /\ Spec.persisted (SharedLog.snapshot self' dicts') w'
  /\ (match_data ∉ SharedLog.match_history self ->
      SharedLog.contents self' dicts'
      = (SharedLog.contents self dicts ++ [stamped])%list
      /\ (SharedLog.snapshot self' dicts', w')
         = MemoryStore.record_match (SharedLog.snapshot self dicts) d w
      /\ forall adopter_id,
           MemoryStore.get_adopter_history (SharedLog.snapshot self' dicts') adopter_id
           = (MemoryStore.get_adopter_history (SharedLog.snapshot self dicts) adopter_id
              ++ (if decide (d !! "adopter_id" = Some (VStr adopter_id))
                  then [stamped] else []))%list)
  /\ (forall i, SharedLog.match_history self !! i = Some match_data ->
      SharedLog.contents self dicts !! i = Some d
      /\ SharedLog.contents self' dicts' !! i = Some stamped).
Proof.
  intros Hd Hlive.
  unfold SharedLog.record_match, World.read_clock, Datetime.now. cbn [fst snd].
  set (stamped := <["timestamp" := VStr (Datetime.isoformat (World.time w))]> d).
  set (dicts' := alter (insert "timestamp" (VStr (Datetime.isoformat (World.time w))))
                   match_data dicts).
  assert (Hstamped : dicts' !! match_data = Some stamped)
    by (unfold dicts'; rewrite lookup_alter_eq, Hd; reflexivity).
  assert (Hnew : forall refs : list nat,
             omap (fun l => dicts' !! l) (refs ++ [match_data])%list
             = (omap (fun l => dicts' !! l) refs ++ [stamped])%list).
  { intros refs. rewrite omap_app. simpl. rewrite Hstamped. reflexivity. }
  split; [exact Hstamped|].
  split; [intros l Hl; unfold dicts'; apply lookup_alter_ne; congruence|].
  split; [reflexivity|]. split; [reflexivity|].
  split; [apply save_to_file_persisted|].
  split.
  - intros Hnotin.
    assert (Hc : SharedLog.contents
                   {| SharedLog.storage_file := SharedLog.storage_file self;
                      SharedLog.sessions := SharedLog.sessions self;
                      SharedLog.match_history :=
                        (SharedLog.match_history self ++ [match_data])%list |} dicts'
                 = (SharedLog.contents self dicts ++ [stamped])%list).
    { unfold SharedLog.contents. cbn [SharedLog.match_history].
      rewrite Hnew. unfold dicts'. rewrite omap_lookup_alter_ne by exact Hnotin.
      reflexivity. }
    split; [exact Hc|]. split.
    + unfold MemoryStore.record_match, World.read_clock, Datetime.now,
        SharedLog.save_to_file, SharedLog.snapshot.
      cbn [fst snd MemoryStore.storage_file MemoryStore.sessions
           MemoryStore.match_history SharedLog.storage_file SharedLog.sessions].
      rewrite Hc. reflexivity.
    + intros adopter_id.
      unfold MemoryStore.get_adopter_history, SharedLog.snapshot.
      cbn [MemoryStore.match_history]. rewrite Hc.
      rewrite filter_app, filter_cons, filter_nil. unfold stamped.
      rewrite lookup_insert_ne by discriminate.
      destruct (decide (d !! "adopter_id" = Some (VStr adopter_id))); reflexivity.
  - intros i Hi. unfold SharedLog.contents. cbn [SharedLog.match_history].
    split.
    + rewrite omap_lookup_live by exact Hlive. rewrite Hi. exact Hd.
    + rewrite Hnew.
      assert (Hlt : (i < length (omap (fun l => dicts' !! l)
                                   (SharedLog.match_history self)))%nat).
      { apply lookup_lt_is_Some. rewrite omap_lookup_live
          by (apply Forall_live_alter; exact Hlive).
        rewrite Hi. simpl. rewrite Hstamped. eexists. reflexivity. }
      rewrite lookup_app_l by exact Hlt.
      rewrite omap_lookup_live by (apply Forall_live_alter; exact Hlive).
      rewrite Hi. exact Hstamped.
Qed.

(** The dict of Max, recorded once at time 0, is recorded again: both
    positions of the log show the timestamp of the second call. *)
Lemma record_match_appends_witness :
  let '(self', dicts', w') :=
    SharedLog.record_match Props.logged 0%nat Props.one_dict World.initial in
  let stamped := <["timestamp" := VStr (Datetime.isoformat 0)]> Spec.max_entry in
  SharedLog.match_history self' = [0%nat; 0%nat]
  /\ SharedLog.contents Props.logged Props.one_dict !! 0%nat = Some Spec.max_entry
  /\ SharedLog.contents self' dicts' !! 0%nat = Some stamped.
Proof.
  pose proof (record_match_appends Props.logged 0%nat Spec.max_entry Props.one_dict
                World.initial) as H.
  destruct (SharedLog.record_match Props.logged 0%nat Props.one_dict World.initial)
    as [[self' dicts'] w'].
  destruct H as (_ & _ & H3 & _ & _ & _ & H7).
  - reflexivity.
  - repeat constructor. eexists. reflexivity.
  - split; [exact H3|]. apply (H7 0%nat). reflexivity.
Defined.

(** X22.  On a non-empty history with int scores the statistics are
    consistent.  The call raises nothing but the OverflowError of the
    division, and otherwise returns the number of entries as
    total_matches, the true division of the sum of the scores by that
    number as average_score, a high_matches between 0 and total_matches,
    and a total_adopters between 1 and total_matches. *)
Theorem get_match_statistics_counts (self : MemoryStore.t) :
  MemoryStore.match_history self <> [] ->
  Spec.int_scores (MemoryStore.match_history self) ->
  let history := MemoryStore.match_history self in
  let total := Z.of_nat (length history) in
  exists high adopters,
    MemoryStore.get_match_statistics self =
      (average ← truediv (Spec.total_score history) total;
       Ok [ ("total_matches", MemoryStore.SInt total);
            ("average_score", MemoryStore.SFloat average);
            ("high_matches", MemoryStore.SInt high);
            ("total_adopters", MemoryStore.SInt adopters) ])
    /\ (MemoryStore.get_match_statistics self = Raise OverflowError
        \/ exists stats, MemoryStore.get_match_statistics self = Ok stats)
    /\ 0 <= high <= total
    /\ 1 <= adopters <= total.
Proof.
  intros Hne Hint. unfold MemoryStore.get_match_statistics.
  destruct (MemoryStore.match_history self) as [|m history] eqn:Hh; [contradiction|].
  cbv zeta.
  rewrite sum_scores_int by exact Hint. cbn [mbind result_bind].
  rewrite Z.add_0_l.
  exists (Spec.high_count (m :: history)), (MemoryStore.count_adopters (m :: history)).
  split; [|split; [|split]].
  - destruct (truediv _ _); cbn [mbind result_bind]; [|reflexivity].
    rewrite high_scores_int by exact Hint. reflexivity.
  - destruct (truediv_outcomes (Spec.total_score (m :: history))
                (Z.of_nat (length (m :: history)))) as [Hdiv | [q Hdiv]];
      [simpl; lia| |]; rewrite Hdiv; cbn [mbind result_bind].
    + left. reflexivity.
    + right. rewrite high_scores_int by exact Hint. eexists. reflexivity.
  - unfold Spec.high_count. split; [lia|]. apply inj_le. apply length_filter.
  - unfold MemoryStore.count_adopters.
    destruct (remove_dups_bounds
                ((fun m0 : entry => get m0 "adopter_id" VNone) <$> (m :: history)))
      as [Hle Hge].
    rewrite length_fmap in Hle. split; [|lia].
    assert (1 <= length (remove_dups
              ((fun m0 : entry => get m0 "adopter_id" VNone) <$> (m :: history))))%nat
      by (apply Hge; discriminate).
    lia.
Qed.

(** The two entries of the test block: the call returns, with one high
    match and one adopter. *)
Lemma get_match_statistics_counts_witness :
  exists high adopters,
    MemoryStore.get_match_statistics Spec.two_matches =
      Ok [ ("total_matches", MemoryStore.SInt 2);
           ("average_score", MemoryStore.SFloat 81.5%float);
           ("high_matches", MemoryStore.SInt high);
           ("total_adopters", MemoryStore.SInt adopters) ]
    /\ 0 <= high <= 2
    /\ 1 <= adopters <= 2.
Proof.
  destruct (get_match_statistics_counts Spec.two_matches) as (high & adopters & H & _ & Hb).
  - discriminate.
  - repeat constructor; vm_compute; eexists; reflexivity.
  - exists high, adopters. split; [exact H|exact Hb].
Defined.

(** X23.  When some entry of the history carries a score that is not an
    int (a string, or None), [get_match_statistics] raises TypeError:
    the sum of the scores fails before anything is returned. *)
Theorem get_match_statistics_bad_score (self : MemoryStore.t) :
  Exists (fun m => forall n, get m "score" (VInt 0) <> VInt n)
    (MemoryStore.match_history self) ->
  MemoryStore.get_match_statistics self = Raise TypeError.
Proof.
  intros H. unfold MemoryStore.get_match_statistics.
  destruct (MemoryStore.match_history self) as [|m history] eqn:Hh; [inversion H|].
  rewrite sum_scores_not_int by exact H. reflexivity.
Qed.

(** An entry scored "high" after the entry of Max. *)
Lemma get_match_statistics_bad_score_witness :
  MemoryStore.get_match_statistics
    {| MemoryStore.storage_file := "sessions.json"; MemoryStore.sessions := [];
       MemoryStore.match_history := [Spec.max_entry; Props.text_score] |}
  = Raise TypeError.
Proof.
  apply (get_match_statistics_bad_score
           {| MemoryStore.storage_file := "sessions.json"; MemoryStore.sessions := [];
              MemoryStore.match_history := [Spec.max_entry; Props.text_score] |}).
  apply Exists_cons_tl, Exists_cons_hd. intros n. vm_compute. discriminate.
Defined.

(** X24.  The session [create_session] hands out is the store's own
    object: a match added through the returned reference is part of what
    the next [save_to_file] writes, under the session's id, although the
    store was not told about it. *)
Theorem session_changes_reach_next_save
    (self : MemoryStore.t) (session_id adopter_id : string) (w : World.t)
    (m : AdoptionMatch.t) :
  let '(session, self', w1) := MemoryStore.create_session self session_id adopter_id w in
  let w2 := World.call session (AdoptionSession.add_match m) w1 in
  let w3 := MemoryStore.save_to_file self' w2 in
  exists stamp saved,
    World.files w3 !! MemoryStore.storage_file self'
    = Some (Json {| last_saved := stamp; doc_sessions := saved;
                    doc_match_history := MemoryStore.match_history self |})
    /\ exists d,
         d ∈ saved
         /\ AdoptionSession.d_session_id d = session_id
         /\ AdoptionSession.d_adopter_id d = adopter_id
         /\ AdoptionSession.d_matches d = [AdoptionMatch.to_dict m].
Proof.
  unfold MemoryStore.create_session, World.new, MemoryStore.save_to_file,
    World.read_clock, World.write_file, World.call. simpl.
  eexists _, _. split; [rewrite lookup_insert_eq; reflexivity|].
  eexists. split.
  - unfold MemoryStore.sessions_to_dicts. simpl.
    apply list_elem_of_omap.
    exists (session_id, fresh (dom (World.heap w))).
    split; [apply dict_set_elem_of|].
    simpl. rewrite lookup_alter_eq, lookup_insert_eq. reflexivity.
  - repeat split; reflexivity.
Qed.

(** * Properties of the profiler and of the orchestration *)

Section InquiryProperties.
Import Spec Props.

Lemma get_animal_in_total rows animal_id :
  Forall (fun animal : record => is_Some (animal !! "animal_id")) rows ->
  Exists (fun animal : record => animal !! "animal_id" = Some animal_id) rows ->
  exists animal,
    DataLoader.get_animal_in rows animal_id = Ok (Some animal) /\ animal ∈ rows.
Proof.
  induction 1 as [|row rows [v Hv] _ IH]; intros Hex; [inversion Hex|].
  simpl. unfold getitem. rewrite Hv. simpl.
  destruct (String.eqb_spec v animal_id) as [->|Hne].
  - exists row. split; [reflexivity|left].
  - apply Exists_cons in Hex as [Hex|Hex]; [congruence|].
    destruct (IH Hex) as [animal [Hget Hin]].
    exists animal. split; [exact Hget|right; exact Hin].
Qed.

Lemma profile_adopter_not_found dl adopter_id :
  DataLoader.get_adopter dl adopter_id = Ok None ->
  ProfilingAgent.profile_adopter (ProfilingAgent.__init__ dl) adopter_id
  = Done (ProfilingAgent.ProfileError ("Adopter " +:+ adopter_id +:+ " not found")).
Proof.
  intros H. unfold ProfilingAgent.profile_adopter. simpl. rewrite H. reflexivity.
Qed.

Lemma profile_adopter_found dl adopter_id (adopter : record) kids pets prefs :
  DataLoader.get_adopter dl adopter_id = Ok (Some adopter) ->
  adopter !! "has_kids" = Some kids ->
  adopter !! "has_other_pets" = Some pets ->
  adopter !! "preferences" = Some prefs ->
  exists summary,
    ProfilingAgent.profile_adopter (ProfilingAgent.__init__ dl) adopter_id
    = Done (ProfilingAgent.AdopterProfile adopter_id
              (adopter !! "name") (adopter !! "home_type")
              (String.eqb (lower kids) "yes") (String.eqb (lower pets) "yes")
              (adopter !! "lifestyle") (adopter !! "commitment_level")
              (adopter !! "experience_level") (Errors.split ";" prefs)
              adopter summary).
Proof.
  intros Hget Hk Hp Hpr.
  destruct (get_adopter_in_found _ _ _ Hget) as [_ Hid].
  unfold ProfilingAgent.profile_adopter. simpl. rewrite Hget. simpl.
  rewrite bool_decide_eq_false_2
    by (intros ->; rewrite lookup_empty in Hid; discriminate).
  rewrite Hk, Hp, Hpr. simpl. eexists. reflexivity.
Qed.

Lemma profile_adopter_missing dl adopter_id (adopter : record) :
  DataLoader.get_adopter dl adopter_id = Ok (Some adopter) ->
  adopter !! "has_kids" = None \/ adopter !! "has_other_pets" = None
  \/ adopter !! "preferences" = None ->
  ProfilingAgent.profile_adopter (ProfilingAgent.__init__ dl) adopter_id
  = Failed AttributeError.
Proof.
  intros Hget Hmiss.
  destruct (get_adopter_in_found _ _ _ Hget) as [_ Hid].
  unfold ProfilingAgent.profile_adopter. simpl. rewrite Hget. simpl.
  rewrite bool_decide_eq_false_2
    by (intros ->; rewrite lookup_empty in Hid; discriminate).
  destruct (adopter !! "has_kids"); simpl; [|reflexivity].
  destruct (adopter !! "has_other_pets"); simpl; [|reflexivity].
  destruct (adopter !! "preferences"); simpl; [|reflexivity].
  destruct Hmiss as [H|[H|H]]; discriminate.
Qed.

(** One turn of the recording loop adds one entry to the session and
    leaves the files alone. *)
Lemma record_in_session_step session (w : World.t) m s :
  World.heap w !! session = Some s ->
  exists a,
    recorded m (AdoptionMatch.to_dict a)
    /\ World.heap (AdoptionMatchingSystem.record_in_session session w m) !! session
       = Some (AdoptionSession.add_match a s)
    /\ World.files (AdoptionMatchingSystem.record_in_session session w m)
       = World.files w.
Proof.
  intros Hs.
  exists (AdoptionMatch.__init__ (MatchingAgent.animal_id m) (MatchingAgent.adopter_id m)
            (MatchingAgent.animal_name m) (MatchingAgent.adopter_name m)
            (MatchingAgent.score m) "recommended" (World.time w)).1.
  unfold AdoptionMatchingSystem.record_in_session, World.call. simpl.
  split; [|split].
  - unfold recorded. simpl. repeat split; reflexivity.
  - rewrite lookup_alter_eq, Hs. reflexivity.
  - reflexivity.
Qed.

Lemma record_in_session_loop session matches (w : World.t) s :
  World.heap w !! session = Some s ->
  exists s',
    World.heap (foldl (AdoptionMatchingSystem.record_in_session session) w matches)
      !! session = Some s'
    /\ AdoptionSession.session_id s' = AdoptionSession.session_id s
    /\ AdoptionSession.adopter_id s' = AdoptionSession.adopter_id s
    /\ (exists added,
          AdoptionSession.matches s' = (AdoptionSession.matches s ++ added)%list
          /\ Forall2 (fun m a => recorded m (AdoptionMatch.to_dict a)) matches added)
    /\ World.files (foldl (AdoptionMatchingSystem.record_in_session session) w matches)
       = World.files w.
Proof.
  revert w s. induction matches as [|m matches IH]; intros w s Hs; simpl.
  - exists s. split; [exact Hs|]. split; [reflexivity|]. split; [reflexivity|].
    split; [|reflexivity]. exists []. rewrite app_nil_r. split; [reflexivity|constructor].
  - destruct (record_in_session_step session w m s Hs) as [a [Ha [Hheap Hfiles]]].
    destruct (IH _ _ Hheap) as [s' [Hs' [Hid [Haid [[added [Hm Hall]] Hf]]]]].
    exists s'. split; [exact Hs'|]. split; [exact Hid|]. split; [exact Haid|].
    split; [|rewrite Hf; exact Hfiles].
    exists (a :: added). split.
    + rewrite Hm. simpl. rewrite <- app_assoc. reflexivity.
    + constructor; assumption.
Qed.

End InquiryProperties.

Section InquiryRuns.
Import Spec Props.

Lemma create_session_result (self : MemoryStore.t) session_id adopter_id (w : World.t) :
  exists session store w1,
    MemoryStore.create_session self session_id adopter_id w = (session, store, w1)
    /\ MemoryStore.get_session store session_id = Some session
    /\ World.heap w1 !! session
       = Some (AdoptionSession.__init__ session_id adopter_id (World.time w)).1
    /\ persisted store w1.
Proof.
  eexists _, _, _. split; [reflexivity|].
  split; [apply dict_get_set_eq|].
  split; [simpl; apply lookup_insert_eq|].
  apply save_to_file_persisted.
Qed.

Lemma save_to_file_heap (self : MemoryStore.t) (w : World.t) :
  World.heap (MemoryStore.save_to_file self w) = World.heap w.
Proof. reflexivity. Qed.

Lemma complete_well_formed dl : complete dl -> well_formed dl.
Proof.
  intros [Ha Hd]. split.
  - eapply Forall_impl; [exact Ha|]. intros animal (H1 & H2 & _). split; assumption.
  - eapply Forall_impl; [exact Hd|]. intros adopter (H1 & H2 & _). split; assumption.
Qed.

Lemma guidance_for_ok dl store adopter_id (adopter : record) all n :
  complete dl ->
  DataLoader.get_adopter dl adopter_id = Ok (Some adopter) ->
  Forall2 (match_of adopter) (DataLoader.animals dl) all ->
  exists guidance,
    AdoptionMatchingSystem.guidance_for (system dl store) adopter_id
      (take n (sort_reverse MatchingAgent.score all)) = Done guidance.
Proof.
  intros Hc Hget Hall.
  destruct (take n (sort_reverse MatchingAgent.score all)) as [|best rest] eqn:E;
    [exists None; reflexivity|].
  assert (Hbest : best ∈ all).
  { rewrite <- (sort_reverse_perm MatchingAgent.score all),
      <- (take_drop n (sort_reverse MatchingAgent.score all)), E.
    left. }
  destruct (Forall2_elem_of_r _ _ _ _ Hall Hbest) as [animal [Hin (_ & Hid & _)]].
  destruct Hc as [Hanimals Hadopters].
  destruct (get_animal_in_total (DataLoader.animals dl) (MatchingAgent.animal_id best))
    as [row [Hrow Hrow_in]].
  { eapply Forall_impl; [exact Hanimals|]. intros ? (H & _). exact H. }
  { apply Exists_exists. exists animal. split; [exact Hin|exact Hid]. }
  rewrite Forall_forall in Hanimals.
  destruct (Hanimals row Hrow_in) as (_ & [a_name Hn] & [a_breed Hb]).
  destruct (get_adopter_in_found _ _ _ Hget) as [Hd_in _].
  rewrite Forall_forall in Hadopters.
  destruct (Hadopters adopter Hd_in) as (_ & [d_name Hdn] & _).
  unfold AdoptionMatchingSystem.guidance_for, DataLoader.get_animal. simpl.
  rewrite Hrow. simpl. rewrite Hget. simpl.
  unfold getitem. rewrite Hn. simpl. rewrite Hb. simpl. rewrite Hdn. simpl.
  eexists. reflexivity.
Qed.

End InquiryRuns.

(** X25.  [profile_adopter] has three outcomes.  An id no row carries
    gives the error dict naming the id.  A row that is found but lacks
    the has_kids, has_other_pets or preferences column makes the call
    raise AttributeError, since a method is called on the [None] that
    [get] returns.  A row with these three columns gives a profile whose
    two flags tell whether the columns read "yes" in any letter case and
    whose preferences are the pieces between the semicolons. *)
Theorem profile_adopter_outcomes (dl : DataLoader.t) (adopter_id : string) :
  (DataLoader.get_adopter dl adopter_id = Ok None ->
   ProfilingAgent.profile_adopter (ProfilingAgent.__init__ dl) adopter_id
   = Done (ProfilingAgent.ProfileError ("Adopter " +:+ adopter_id +:+ " not found")))
  /\ (forall adopter : record,
        DataLoader.get_adopter dl adopter_id = Ok (Some adopter) ->
        adopter !! "has_kids" = None \/ adopter !! "has_other_pets" = None
        \/ adopter !! "preferences" = None ->
        ProfilingAgent.profile_adopter (ProfilingAgent.__init__ dl) adopter_id
        = Failed AttributeError)
  /\ (forall (adopter : record) kids pets prefs,
        DataLoader.get_adopter dl adopter_id = Ok (Some adopter) ->
        adopter !! "has_kids" = Some kids ->
        adopter !! "has_other_pets" = Some pets ->
        adopter !! "preferences" = Some prefs ->
        exists summary,
          ProfilingAgent.profile_adopter (ProfilingAgent.__init__ dl) adopter_id
          = Done (ProfilingAgent.AdopterProfile adopter_id
                    (adopter !! "name") (adopter !! "home_type")
                    (String.eqb (lower kids) "yes") (String.eqb (lower pets) "yes")
                    (adopter !! "lifestyle") (adopter !! "commitment_level")
                    (adopter !! "experience_level") (Errors.split ";" prefs)
                    adopter summary)).
Proof.
  split; [apply profile_adopter_not_found|].
  split; [intros adopter; apply profile_adopter_missing|].
  intros adopter kids pets prefs. apply profile_adopter_found.
Qed.

(** An unknown id; Ann, whose row has no has_kids column; John. *)
Lemma profile_adopter_outcomes_witness :
  ProfilingAgent.profile_adopter (ProfilingAgent.__init__ Spec.shelter) "7"
  = Done (ProfilingAgent.ProfileError "Adopter 7 not found")
  /\ ProfilingAgent.profile_adopter (ProfilingAgent.__init__ Spec.shelter) "1"
     = Failed AttributeError
  /\ exists summary,
       ProfilingAgent.profile_adopter (ProfilingAgent.__init__ Props.full_shelter) "1"
       = Done (ProfilingAgent.AdopterProfile "1"
                 (Props.john !! "name") (Props.john !! "home_type")
                 (String.eqb (lower "yes") "yes") (String.eqb (lower "no") "yes")
                 (Props.john !! "lifestyle") (Props.john !! "commitment_level")
                 (Props.john !! "experience_level") (Errors.split ";" "dog;playful")
                 Props.john summary).
Proof.
  split; [|split].
  - apply (proj1 (profile_adopter_outcomes Spec.shelter "7")). reflexivity.
  - apply (proj1 (proj2 (profile_adopter_outcomes Spec.shelter "1")) Spec.ann).
    + reflexivity.
    + left. reflexivity.
  - apply (proj2 (proj2 (profile_adopter_outcomes Props.full_shelter "1"))
             Props.john "yes" "no" "dog;playful"); reflexivity.
Defined.

(** X26.  An inquiry for an adopter the store does not know is not turned
    away: [process_adoption_inquiry] returns normally with no match and
    no top match, and it has created a session under the new id, empty,
    for that adopter id, and persisted it. *)
Theorem inquiry_for_unknown_adopter
    (dl : DataLoader.t) (store : MemoryStore.t) (adopter_id uuid : string) (w : World.t) :
  DataLoader.get_adopter dl adopter_id = Ok None ->
  exists result self' w' session,
    AdoptionMatchingSystem.process_adoption_inquiry (Props.system dl store)
      adopter_id uuid w = (Done result, self', w')
    /\ AdoptionMatchingSystem.session_id result = uuid
    /\ AdoptionMatchingSystem.adopter_id result = adopter_id
    /\ AdoptionMatchingSystem.matches_found result = 0
    /\ AdoptionMatchingSystem.top_match result = None
    /\ MemoryStore.get_session (AdoptionMatchingSystem.memory self') uuid = Some session
    /\ AdoptionSession.to_dict <$> World.heap w' !! session
       = AdoptionMatchingSystem.session_data result
    /\ (exists d, AdoptionMatchingSystem.session_data result = Some d
                  /\ AdoptionSession.d_session_id d = uuid
                  /\ AdoptionSession.d_adopter_id d = adopter_id
                  /\ AdoptionSession.d_matches d = [])
    /\ Spec.persisted (AdoptionMatchingSystem.memory self') w'.
Proof.
  intros Hget.
  destruct (create_session_result store uuid adopter_id w)
    as (session & store1 & w1 & Hcreate & Hsession & Hheap & Hpers).
  unfold AdoptionMatchingSystem.process_adoption_inquiry, Props.system.
  cbn [AdoptionMatchingSystem.memory]. rewrite Hcreate.
  cbn [AdoptionMatchingSystem.profiler AdoptionMatchingSystem.matcher
       AdoptionMatchingSystem.memory AdoptionMatchingSystem.data_loader].
  rewrite (profile_adopter_not_found dl adopter_id Hget).
  unfold MatchingAgent.find_matches. simpl. rewrite Hget. simpl.
  eexists _, _, _, session. split; [reflexivity|]. simpl.
  split; [reflexivity|]. split; [reflexivity|]. split; [reflexivity|].
  split; [reflexivity|]. split; [exact Hsession|]. split; [reflexivity|].
  split.
  - rewrite Hheap. eexists. split; [reflexivity|]. repeat split; reflexivity.
  - apply save_to_file_persisted.
Qed.

(** Adopter 7 at the small shelter. *)
Lemma inquiry_for_unknown_adopter_witness :
  exists result self' w' session,
    AdoptionMatchingSystem.process_adoption_inquiry
      (Props.system Spec.shelter Spec.fresh_store) "7" "uuid-1" World.initial
    = (Done result, self', w')
    /\ AdoptionMatchingSystem.session_id result = "uuid-1"
    /\ AdoptionMatchingSystem.adopter_id result = "7"
    /\ AdoptionMatchingSystem.matches_found result = 0
    /\ AdoptionMatchingSystem.top_match result = None
    /\ MemoryStore.get_session (AdoptionMatchingSystem.memory self') "uuid-1"
       = Some session
    /\ AdoptionSession.to_dict <$> World.heap w' !! session
       = AdoptionMatchingSystem.session_data result
    /\ (exists d, AdoptionMatchingSystem.session_data result = Some d
                  /\ AdoptionSession.d_session_id d = "uuid-1"
                  /\ AdoptionSession.d_adopter_id d = "7"
                  /\ AdoptionSession.d_matches d = [])
    /\ Spec.persisted (AdoptionMatchingSystem.memory self') w'.
Proof.
  apply (inquiry_for_unknown_adopter Spec.shelter Spec.fresh_store "7" "uuid-1"
           World.initial).
  reflexivity.
Defined.

(** X27.  Over tables that carry all the columns the orchestration uses,
    an inquiry for an adopter that is found returns normally; its
    matches are the ones [find_matches] ranks first with bound 3, at most
    three of them; the top match is the first of these; the session it
    created holds one entry per match, in rank order, with the ids, names
    and score of the match and status "recommended"; and when the call
    returns the storage file holds the whole state of the store. *)
Theorem inquiry_records_top_matches
    (dl : DataLoader.t) (store : MemoryStore.t) (adopter_id uuid : string)
    (adopter : record) (w : World.t) :
  Props.complete dl ->
  DataLoader.get_adopter dl adopter_id = Ok (Some adopter) ->
  exists matches result self' w',
    MatchingAgent.find_matches (MatchingAgent.__init__ dl) adopter_id 3 = Ok matches
    /\ AdoptionMatchingSystem.process_adoption_inquiry (Props.system dl store)
         adopter_id uuid w = (Done result, self', w')
    /\ AdoptionMatchingSystem.session_id result = uuid
    /\ AdoptionMatchingSystem.adopter_id result = adopter_id
    /\ AdoptionMatchingSystem.matches_found result = Z.of_nat (length matches)
    /\ AdoptionMatchingSystem.matches_found result <= 3
    /\ AdoptionMatchingSystem.top_match result = head matches
    /\ (exists d, AdoptionMatchingSystem.session_data result = Some d
                  /\ AdoptionSession.d_session_id d = uuid
                  /\ AdoptionSession.d_adopter_id d = adopter_id
                  /\ Forall2 Props.recorded matches (AdoptionSession.d_matches d))
    /\ Spec.persisted (AdoptionMatchingSystem.memory self') w'.
Proof.
  intros Hc Hget.
  pose proof (complete_well_formed dl Hc) as Hwf.
  destruct (well_formed_adopter dl adopter_id adopter Hwf Hget) as [Hid Hname].
  destruct (find_matches_resolved dl adopter_id adopter (proj1 Hwf) Hget Hid Hname)
    as [all [Hall Hfind]].
  destruct (get_adopter_in_found _ _ _ Hget) as [Hin _].
  destruct Hc as [Hanimals Hadopters].
  pose proof Hadopters as Hcols. rewrite Forall_forall in Hcols.
  destruct (Hcols adopter Hin) as (_ & _ & [kids Hk] & [pets Hp] & [prefs Hpr]).
  destruct (profile_adopter_found dl adopter_id adopter kids pets prefs Hget Hk Hp Hpr)
    as [summary Hprofile].
  destruct (create_session_result store uuid adopter_id w)
    as (session & store1 & w1 & Hcreate & Hsession & Hheap & Hpers).
  set (matches := take (Z.to_nat 3) (sort_reverse MatchingAgent.score all)).
  assert (Hmatches : MatchingAgent.find_matches (MatchingAgent.__init__ dl) adopter_id 3
                     = Ok matches).
  { rewrite Hfind, slice_to_nonneg by lia. reflexivity. }
  destruct (guidance_for_ok dl store1 adopter_id adopter all (Z.to_nat 3)
              (conj Hanimals Hadopters) Hget Hall) as [guidance Hguide].
  fold matches in Hguide.
  destruct (record_in_session_loop session matches w1 _ Hheap)
    as (s' & Hs' & Hsid & Haid & [added [Hadded Hrec]] & Hfiles).
  exists matches.
  unfold AdoptionMatchingSystem.process_adoption_inquiry, Props.system.
  cbn [AdoptionMatchingSystem.memory]. rewrite Hcreate.
  cbn [AdoptionMatchingSystem.profiler AdoptionMatchingSystem.matcher
       AdoptionMatchingSystem.memory AdoptionMatchingSystem.data_loader].
  rewrite Hprofile, Hmatches.
  unfold Props.system in Hguide. rewrite Hguide.
  eexists _, _, _. split; [reflexivity|]. split; [reflexivity|].
  cbn [AdoptionMatchingSystem.session_id AdoptionMatchingSystem.adopter_id
       AdoptionMatchingSystem.matches_found AdoptionMatchingSystem.top_match
       AdoptionMatchingSystem.session_data AdoptionMatchingSystem.memory].
  split; [reflexivity|]. split; [reflexivity|]. split; [reflexivity|].
  split.
  { subst matches. rewrite length_take. lia. }
  split; [reflexivity|].
  split.
  - rewrite save_to_file_heap, Hs'. eexists. split; [reflexivity|].
    cbn [AdoptionSession.to_dict AdoptionSession.d_session_id
         AdoptionSession.d_adopter_id AdoptionSession.d_matches].
    rewrite Hsid, Haid, Hadded. simpl.
    repeat split; try reflexivity.
    apply Forall2_fmap_r. exact Hrec.
  - apply save_to_file_persisted.
Qed.

(** John at the shelter with all columns. *)
Lemma inquiry_records_top_matches_witness :
  exists matches result self' w',
    MatchingAgent.find_matches (MatchingAgent.__init__ Props.full_shelter) "1" 3
    = Ok matches
    /\ AdoptionMatchingSystem.process_adoption_inquiry
         (Props.system Props.full_shelter Spec.fresh_store) "1" "uuid-1" World.initial
       = (Done result, self', w')
    /\ AdoptionMatchingSystem.session_id result = "uuid-1"
    /\ AdoptionMatchingSystem.adopter_id result = "1"
    /\ AdoptionMatchingSystem.matches_found result = Z.of_nat (length matches)
    /\ AdoptionMatchingSystem.matches_found result <= 3
    /\ AdoptionMatchingSystem.top_match result = head matches
    /\ (exists d, AdoptionMatchingSystem.session_data result = Some d
                  /\ AdoptionSession.d_session_id d = "uuid-1"
                  /\ AdoptionSession.d_adopter_id d = "1"
                  /\ Forall2 Props.recorded matches (AdoptionSession.d_matches d))
    /\ Spec.persisted (AdoptionMatchingSystem.memory self') w'.
Proof.
  apply (inquiry_records_top_matches Props.full_shelter Spec.fresh_store "1" "uuid-1"
           Props.john World.initial).
  - split; repeat constructor; vm_compute; eexists; reflexivity.
  - reflexivity.
Defined.

(** X28.  Nothing is rolled back when the profiler fails: for an adopter
    whose row lacks the has_kids, has_other_pets or preferences column
    the inquiry raises AttributeError, and the session it had created
    before stays in the store, empty, and in the storage file. *)
Theorem inquiry_failure_leaves_session
    (dl : DataLoader.t) (store : MemoryStore.t) (adopter_id uuid : string)
    (adopter : record) (w : World.t) :
  DataLoader.get_adopter dl adopter_id = Ok (Some adopter) ->
  adopter !! "has_kids" = None \/ adopter !! "has_other_pets" = None
  \/ adopter !! "preferences" = None ->
  exists self' w' session,
    AdoptionMatchingSystem.process_adoption_inquiry (Props.system dl store)
      adopter_id uuid w = (Failed AttributeError, self', w')
    /\ MemoryStore.get_session (AdoptionMatchingSystem.memory self') uuid = Some session
    /\ World.heap w' !! session
       = Some (AdoptionSession.__init__ uuid adopter_id (World.time w)).1
    /\ Spec.persisted (AdoptionMatchingSystem.memory self') w'.
Proof.
  intros Hget Hmiss.
  destruct (create_session_result store uuid adopter_id w)
    as (session & store1 & w1 & Hcreate & Hsession & Hheap & Hpers).
  unfold AdoptionMatchingSystem.process_adoption_inquiry, Props.system.
  cbn [AdoptionMatchingSystem.memory]. rewrite Hcreate.
  cbn [AdoptionMatchingSystem.profiler AdoptionMatchingSystem.matcher
       AdoptionMatchingSystem.memory AdoptionMatchingSystem.data_loader].
  rewrite (profile_adopter_missing dl adopter_id adopter Hget Hmiss).
  eexists _, _, session. split; [reflexivity|].
  split; [exact Hsession|]. split; [exact Hheap|exact Hpers].
Qed.

(** Ann at the small shelter: her row has no has_kids column, although
    [find_matches] ranks the animals for her. *)
Lemma inquiry_failure_leaves_session_witness :
  exists self' w' session,
    AdoptionMatchingSystem.process_adoption_inquiry
      (Props.system Spec.shelter Spec.fresh_store) "1" "uuid-1" World.initial
    = (Failed AttributeError, self', w')
    /\ MemoryStore.get_session (AdoptionMatchingSystem.memory self') "uuid-1"
       = Some session
    /\ World.heap w' !! session
       = Some (AdoptionSession.__init__ "uuid-1" "1" (World.time World.initial)).1
    /\ Spec.persisted (AdoptionMatchingSystem.memory self') w'.
Proof.
  apply (inquiry_failure_leaves_session Spec.shelter Spec.fresh_store "1" "uuid-1"
           Spec.ann World.initial).
  - reflexivity.
  - left. reflexivity.
Defined.

(** X29.  The answer to a concern is chosen on the lower-cased text by the
    first keyword group that occurs in it: a concern that has
    "aggressive" or "behavior" anywhere, in any letter case, gets the
    behavioural answer whatever else it mentions.  The guidance without
    a concern and the one with an empty concern are the same text, and
    the guidance with a concern is that text followed by the section for
    the concern. *)
Theorem guidance_concern_handling
    (animal_name animal_breed adopter_name before word after : string) :
  (lower word = "aggressive" \/ lower word = "behavior" ->
   SupportAgent._respond_to_concern animal_name (before +:+ word +:+ after)
   = SupportAgent._respond_to_concern animal_name "behavior")
  /\ SupportAgent.get_post_adoption_guidance animal_name animal_breed adopter_name
       (Some EmptyString)
     = SupportAgent.get_post_adoption_guidance animal_name animal_breed adopter_name None
  /\ forall concern, concern <> EmptyString ->
       SupportAgent.get_post_adoption_guidance animal_name animal_breed adopter_name
         (Some concern)
       = SupportAgent.get_post_adoption_guidance animal_name animal_breed adopter_name
           None
         +:+ CompatibilityScorer.newline +:+ CompatibilityScorer.newline
         +:+ "YOUR SPECIFIC CONCERN:" +:+ CompatibilityScorer.newline
         +:+ SupportAgent._respond_to_concern animal_name concern.
Proof.
  split; [|split].
  - intros Hword. unfold SupportAgent._respond_to_concern.
    rewrite !lower_app.
    assert (Hhit : contains "aggressive" (lower before +:+ lower word +:+ lower after)
                   || contains "behavior" (lower before +:+ lower word +:+ lower after)
                   = true).
    { apply orb_true_iff. destruct Hword as [-> | ->]; [left|right];
        apply contains_spec; eauto. }
    rewrite Hhit. reflexivity.
  - reflexivity.
  - intros concern Hne. unfold SupportAgent.get_post_adoption_guidance.
    destruct concern; [contradiction|reflexivity].
Qed.

(** A concern about health and behaviour, in capitals. *)
Lemma guidance_concern_handling_witness :
  SupportAgent._respond_to_concern "Max" ("Health and " +:+ "BEHAVIOR" +:+ " worries")
  = SupportAgent._respond_to_concern "Max" "behavior"
  /\ SupportAgent.get_post_adoption_guidance "Max" "Golden Retriever" "John Smith"
       (Some "He is a bit anxious")
     = SupportAgent.get_post_adoption_guidance "Max" "Golden Retriever" "John Smith" None
       +:+ CompatibilityScorer.newline +:+ CompatibilityScorer.newline
       +:+ "YOUR SPECIFIC CONCERN:" +:+ CompatibilityScorer.newline
       +:+ SupportAgent._respond_to_concern "Max" "He is a bit anxious".
Proof.
  split.
  - apply (proj1 (guidance_concern_handling "Max" "Golden Retriever" "John Smith"
                    "Health and " "BEHAVIOR" " worries")).
    right. reflexivity.
  - apply (proj2 (proj2 (guidance_concern_handling "Max" "Golden Retriever" "John Smith"
                           "" "" "")) "He is a bit anxious").
    discriminate.
Defined.
